(** * SafeTravel NE mobile client: location, alerting and emergency services

    A shallow embedding of the services of the tourist-monitoring mobile
    application (TypeScript, React Native / Expo, Supabase backend) and the
    properties of its location and alerting code.

    Modelling conventions.
    - An [async] function is a computation in the monad [M]: it reads the
      answers of the outside world (GPS, backend, notification scheduler,
      clock) from an environment [Env], threads the mutable [World]
      (database tables, module-level state, console) and either returns a
      value or throws.  State changes made before a [throw] persist, as in
      JavaScript.  One call runs to completion: interleavings of concurrent
      promises are not modelled.
    - JavaScript numbers are carried, never computed with.  Identifiers,
      priorities and timestamps are integers ([number]; timestamps in
      milliseconds since the epoch: an ISO-8601 string and its epoch value
      determine each other, so rows keep the epoch value).  Measurements
      (coordinates in degrees, altitude, accuracy, speed, distances) are
      fixed-point values with six decimals ([decimal], in units of 10^-6).
    - A string is carried as its UTF-8 encoding; where the code counts or
      classifies characters ([length], [trim]) the model reads the bytes as
      UTF-16 code units and Unicode white space.
    - [null] and [undefined] are [None]. *)

From Stdlib Require Import ZArith List String Ascii Bool Lia QArith DecimalString.
From Stdlib Require HexadecimalString.
Import ListNotations.
Local Open Scope string_scope.
Local Open Scope list_scope.
Local Open Scope Z_scope.

(** ** JavaScript values carried by the services *)

Definition number := Z.
Definition decimal := Z.

(** [x || undefined] on an optional number: [0], [null] and [undefined] all
    become [undefined]. *)
Definition or_undefined (x : option decimal) : option decimal :=
  match x with
  | Some 0 => None
  | Some v => Some v
  | None => None
  end.

(** expo-location's [Location.LocationObject]; only the fields the code
    reads. *)
Module Location.

Record LocationObjectCoords := mkCoords {
  latitude : decimal;
  longitude : decimal;
  altitude : option decimal;
  accuracy : option decimal;
  speed : option decimal
}.

Record LocationObject := mkLocationObject {
  coords : LocationObjectCoords;
  timestamp : number
}.

End Location.

(** What is thrown: [new Error(msg)], a [TypeError] or [RangeError] of the
    runtime, the error object of a Supabase response, or the rejection of an
    Expo API promise. *)
Inductive Exn :=
| JsError (message : string)
| TypeError (message : string)
| RangeError (message : string)
| PostgrestError (message : string)
| Rejected (api : string).

Inductive Outcome (A : Type) :=
| Returned (a : A)
| Thrown (e : Exn).
Arguments Returned {A} a.
Arguments Thrown {A} e.

Inductive Level := LOG | WARN | ERROR.

(** ** Backend tables (Supabase) *)

Module Supabase.

(** supabase.ts, [Tourist]: the columns written at registration. *)
Record EmergencyContact := mkContact {
  contact_name : string;
  contact_phone : string;
  contact_relationship : string
}.

Record Tourist := mkTourist {
  tourist_id : string;
  tourist_name : string;
  tourist_phone : string;
  tourist_email : string;
  nationality : string;
  passport_number : option string;
  aadhaar_last_4 : option string;
  entry_point : option string;
  visit_purpose : option string;
  planned_exit_date : option string;
  medical_conditions : option string;
  blood_group : option string;
  emergency_contact_1 : option EmergencyContact;
  emergency_contact_2 : option EmergencyContact;
  safety_score : number;
  risk_category : string;
  tourist_status : string
}.

(** supabase.ts, [LocationLog]. *)
Record LocationLog := mkLocationLog {
  log_tourist_id : string;
  log_latitude : decimal;
  log_longitude : decimal;
  log_altitude : option decimal;
  log_accuracy : option decimal;
  log_speed : option decimal;
  log_battery_level : option number;
  log_network_type : option string;
  log_timestamp : number
}.

(** MapScreen's [Geofence] and [Hazard] rows, with the column the
    queries filter on. *)
Record Geofence := mkGeofence {
  geofence_id : number;
  geofence_name : string;
  geofence_type : string;
  geofence_center_lat : decimal;
  geofence_center_lng : decimal;
  risk_level : number;
  geofence_active : bool
}.

Record Hazard := mkHazard {
  hazard_id : number;
  hazard_title : string;
  hazard_type : string;
  hazard_center_lat : decimal;
  hazard_center_lng : decimal;
  radius_km : decimal;
  hazard_severity : string;
  hazard_status : string
}.

(** Rows of [communications] written by the emergency service. *)
Record Communication := mkCommunication {
  comm_tourist_id : string;
  comm_alert_id : option number;
  communication_type : string;
  recipient_identifier : string;
  message_content : string;
  comm_status : string
}.

End Supabase.

(** ** Records of the alerting services *)

(** emergency.ts, [EmergencyAlert]. *)
Inductive EmergencyType := panic | medical | security | natural_disaster.
Inductive Severity := sev_critical | sev_high | sev_medium | sev_low.
Inductive AlertStatus := active | acknowledged | resolved.

(** The [type] column of the [alerts] table.  The emergency service writes
    one of its four types; the table also holds the alerts of other writers
    ("geofence", "hazard", "anomaly", "weather", "emergency": see
    [getAlertIcon] of AlertsScreen.tsx), kept by the name of their type. *)
Inductive AlertType :=
| emergency_type (type : EmergencyType)
| other_type (name : string).

Definition type_name (type : AlertType) : string :=
  match type with
  | emergency_type panic => "panic"
  | emergency_type medical => "medical"
  | emergency_type security => "security"
  | emergency_type natural_disaster => "natural_disaster"
  | other_type name => name
  end.

(** The objects of type [EmergencyAlert] and the rows of [alerts]. *)
Record EmergencyAlert := mkEmergencyAlert {
  alert_id : option number;
  alert_tourist_id : string;
  alert_type : AlertType;
  alert_latitude : option decimal;
  alert_longitude : option decimal;
  alert_title : string;
  alert_message : string;
  alert_severity : Severity;
  alert_priority : number;
  alert_status : AlertStatus
}.

(** notifications.ts, [NotificationData]. *)
Inductive NotificationType :=
  safety_alert | geofence | hazard | weather | emergency | system.
Inductive Priority := low | normal | high | critical.
Inductive NotificationStatus := pending | sent | failed | read.
Inductive Action := entered | exited.

(** The [additionalData] objects the alert constructors pass on. *)
Inductive AdditionalData :=
| NoData
| GeofenceData (geofenceName geofenceType : string) (action : Action)
| HazardData (hazardTitle hazardType hazardSeverity : string) (distance : decimal)
| WeatherData (weatherType weatherSeverity : string)
| AlertRef (alertId : number).

(** The [data] field built by [createSafetyAlert]:
    [{ ...additionalData, location, timestamp }]. *)
Record NotificationPayload := mkPayload {
  additionalData : AdditionalData;
  payload_location : option (decimal * decimal);
  payload_timestamp : number
}.

Record NotificationData := mkNotificationData {
  notification_id : option number;
  notif_tourist_id : string;
  notif_type : NotificationType;
  notif_title : string;
  notif_message : string;
  notif_priority : Priority;
  notif_data : option NotificationPayload;
  scheduled_for : option number;
  sent_at : option number;
  notif_status : NotificationStatus
}.

(** The content handed to [Notifications.scheduleNotificationAsync]. *)
Inductive AndroidNotificationPriority := MAX | HIGH | DEFAULT | LOW.

(** [{ ...notificationData.data, notificationId, priority, type }] *)
Record ContentData := mkContentData {
  content_payload : option NotificationPayload;
  content_notificationId : option number;
  content_data_priority : Priority;
  content_data_type : NotificationType
}.

Record NotificationContent := mkContent {
  content_title : string;
  content_body : string;
  content_sound : bool;
  content_priority : AndroidNotificationPriority;
  categoryIdentifier : option string;
  content_data : option ContentData
}.

(** ** The world *)

Record Database := mkDatabase {
  tourists : list Supabase.Tourist;
  location_logs : list Supabase.LocationLog;
  geofences : list Supabase.Geofence;
  hazards : list Supabase.Hazard;
  alerts : list EmergencyAlert;
  alerts_seq : number;
  notifications : list NotificationData;
  notifications_seq : number;
  communications : list Supabase.Communication
}.

(** locationTracking.ts, [LocationTrackingState] and the module-level
    [trackingState]. *)
Record LocationTrackingState := mkTracking {
  isTracking : bool;
  touristId : option string;
  lastLocation : option Location.LocationObject
}.

Record World := mkWorld {
  database : Database;
  trackingState : LocationTrackingState;
  console : list (Level * string);
  scheduled : list (NotificationContent * option number);
  dialogs : list (string * string);
  position_requests : nat;
  backend_requests : nat;
  schedule_requests : nat;
  clock_reads : nat;
  uuid_requests : nat;
  expo_requests : nat
}.

(** The answers of the outside world, indexed by how many times each was
    asked before: the position fix of expo-location ([None]: the promise
    rejects), whether a backend request comes back with an [error], the
    identifier returned by the notification scheduler ([None]: it rejects),
    the wall clock, the identifiers the backend generates for new tourists,
    and whether a call that starts or stops location updates rejects. *)
Record Env := mkEnv {
  getCurrentPositionAsync : nat -> option Location.LocationObject;
  backend_error : nat -> option string;
  scheduleNotificationAsync : nat -> option string;
  wall_clock : nat -> number;
  gen_random_uuid : nat -> string;
  updates_api_rejects : nat -> bool
}.

Definition empty_database : Database :=
  mkDatabase [] [] [] [] [] 1 [] 1 [].

(** The state of a freshly started application on an empty backend. *)
Definition initial_world : World :=
  mkWorld empty_database (mkTracking false None None) [] [] [] 0 0 0 0 0 0.

(** ** The monad of asynchronous calls *)

Definition M (A : Type) : Type := Env -> World -> Outcome A * World.

Definition ret {A} (a : A) : M A := fun _ w => (Returned a, w).

Definition bind {A B} (m : M A) (k : A -> M B) : M B :=
  fun env w =>
    match m env w with
    | (Returned a, w') => k a env w'
    | (Thrown e, w') => (Thrown e, w')
    end.

Definition throw {A} (e : Exn) : M A := fun _ w => (Thrown e, w).

(** [try { body } catch (error) { handler error }] *)
Definition try_catch {A} (body : M A) (handler : Exn -> M A) : M A :=
  fun env w =>
    match body env w with
    | (Returned a, w') => (Returned a, w')
    | (Thrown e, w') => handler e env w'
    end.

Declare Scope js_scope.
Delimit Scope js_scope with js.
Notation "x <- m ;; k" := (bind m (fun x => k))
  (at level 61, m at next level, right associativity) : js_scope.
Notation "m ;; k" := (bind m (fun _ => k))
  (at level 61, right associativity) : js_scope.
Local Open Scope js_scope.

Definition modify (f : World -> World) : M unit := fun _ w => (Returned tt, f w).
Definition gets {A} (f : World -> A) : M A := fun _ w => (Returned (f w), w).

(** The world after a call, and its outcome. *)
Definition exec {A} (m : M A) (env : Env) (w : World) : World := snd (m env w).
Definition outcome {A} (m : M A) (env : Env) (w : World) : Outcome A := fst (m env w).

(** *** Field updates *)

Definition with_database (f : Database -> Database) (w : World) : World :=
  mkWorld (f (database w)) (trackingState w) (console w) (scheduled w) (dialogs w)
          (position_requests w) (backend_requests w) (schedule_requests w)
          (clock_reads w) (uuid_requests w) (expo_requests w).

Definition with_trackingState (f : LocationTrackingState -> LocationTrackingState)
           (w : World) : World :=
  mkWorld (database w) (f (trackingState w)) (console w) (scheduled w) (dialogs w)
          (position_requests w) (backend_requests w) (schedule_requests w)
          (clock_reads w) (uuid_requests w) (expo_requests w).

Definition with_console (f : list (Level * string) -> list (Level * string))
           (w : World) : World :=
  mkWorld (database w) (trackingState w) (f (console w)) (scheduled w) (dialogs w)
          (position_requests w) (backend_requests w) (schedule_requests w)
          (clock_reads w) (uuid_requests w) (expo_requests w).

Definition with_scheduled
           (f : list (NotificationContent * option number) ->
                list (NotificationContent * option number)) (w : World) : World :=
  mkWorld (database w) (trackingState w) (console w) (f (scheduled w)) (dialogs w)
          (position_requests w) (backend_requests w) (schedule_requests w)
          (clock_reads w) (uuid_requests w) (expo_requests w).

Definition with_dialogs (f : list (string * string) -> list (string * string))
           (w : World) : World :=
  mkWorld (database w) (trackingState w) (console w) (scheduled w) (f (dialogs w))
          (position_requests w) (backend_requests w) (schedule_requests w)
          (clock_reads w) (uuid_requests w) (expo_requests w).

Definition next_position_request (w : World) : World :=
  mkWorld (database w) (trackingState w) (console w) (scheduled w) (dialogs w)
          (S (position_requests w)) (backend_requests w) (schedule_requests w)
          (clock_reads w) (uuid_requests w) (expo_requests w).

Definition next_backend_request (w : World) : World :=
  mkWorld (database w) (trackingState w) (console w) (scheduled w) (dialogs w)
          (position_requests w) (S (backend_requests w)) (schedule_requests w)
          (clock_reads w) (uuid_requests w) (expo_requests w).

Definition next_schedule_request (w : World) : World :=
  mkWorld (database w) (trackingState w) (console w) (scheduled w) (dialogs w)
          (position_requests w) (backend_requests w) (S (schedule_requests w))
          (clock_reads w) (uuid_requests w) (expo_requests w).

Definition next_clock_read (w : World) : World :=
  mkWorld (database w) (trackingState w) (console w) (scheduled w) (dialogs w)
          (position_requests w) (backend_requests w) (schedule_requests w)
          (S (clock_reads w)) (uuid_requests w) (expo_requests w).

Definition next_uuid_request (w : World) : World :=
  mkWorld (database w) (trackingState w) (console w) (scheduled w) (dialogs w)
          (position_requests w) (backend_requests w) (schedule_requests w)
          (clock_reads w) (S (uuid_requests w)) (expo_requests w).

Definition next_expo_request (w : World) : World :=
  mkWorld (database w) (trackingState w) (console w) (scheduled w) (dialogs w)
          (position_requests w) (backend_requests w) (schedule_requests w)
          (clock_reads w) (uuid_requests w) (S (expo_requests w)).

Definition with_tourists f (d : Database) : Database :=
  mkDatabase (f (tourists d)) (location_logs d) (geofences d) (hazards d)
             (alerts d) (alerts_seq d) (notifications d) (notifications_seq d)
             (communications d).

Definition with_location_logs f (d : Database) : Database :=
  mkDatabase (tourists d) (f (location_logs d)) (geofences d) (hazards d)
             (alerts d) (alerts_seq d) (notifications d) (notifications_seq d)
             (communications d).

Definition with_alerts f g (d : Database) : Database :=
  mkDatabase (tourists d) (location_logs d) (geofences d) (hazards d)
             (f (alerts d)) (g (alerts_seq d)) (notifications d) (notifications_seq d)
             (communications d).

Definition with_notifications f g (d : Database) : Database :=
  mkDatabase (tourists d) (location_logs d) (geofences d) (hazards d)
             (alerts d) (alerts_seq d) (f (notifications d)) (g (notifications_seq d))
             (communications d).

Definition with_communications f (d : Database) : Database :=
  mkDatabase (tourists d) (location_logs d) (geofences d) (hazards d)
             (alerts d) (alerts_seq d) (notifications d) (notifications_seq d)
             (f (communications d)).

(** *** Console, clock and dialogs *)

Definition console_log (msg : string) : M unit :=
  modify (with_console (fun c => c ++ [(LOG, msg)])).
Definition console_warn (msg : string) : M unit :=
  modify (with_console (fun c => c ++ [(WARN, msg)])).
Definition console_error (msg : string) : M unit :=
  modify (with_console (fun c => c ++ [(ERROR, msg)])).

(** [new Date()] *)
Definition Date_now : M number :=
  fun env w => (Returned (wall_clock env (clock_reads w)), next_clock_read w).

(** React Native's [Alert.alert(title, message)]. *)
Definition Alert_alert (title message : string) : M unit :=
  modify (with_dialogs (fun d => d ++ [(title, message)])).

(** [new Date(ms).toISOString()]: a [RangeError] outside the range of
    ECMAScript time values. *)
Definition toISOString (ms : number) : M number :=
  if Z.abs ms <=? 8640000000000000 then ret ms
  else throw (RangeError "Invalid time value").

(** *** Numbers in template strings *)

Definition digits (n : Z) : string := NilZero.string_of_int (Z.to_int n).

(** The last [width] decimal digits of [n], zero-padded. *)
Definition padded (width : nat) (n : Z) : string :=
  match digits (10 ^ Z.of_nat width + n mod 10 ^ Z.of_nat width) with
  | String _ rest => rest
  | EmptyString => EmptyString
  end.

Definition sign_of (x : decimal) : string := if x <? 0 then "-" else "".

(** [x.toFixed(6)] *)
Definition toFixed6 (x : decimal) : string :=
  sign_of x ++ digits (Z.abs x / 1000000) ++ "." ++ padded 6 (Z.abs x).

(** The fraction digits of a template substitution, without trailing zeros. *)
Fixpoint fraction (width : nat) (frac : Z) : string :=
  match width with
  | O => ""
  | S k => if frac mod 10 =? 0 then fraction k (frac / 10) else padded width frac
  end.

(** [`${x}`], for magnitudes below 10^21: from there on JavaScript prints
    the number with an exponent. *)
Definition show (x : decimal) : string :=
  let frac := Z.abs x mod 1000000 in
  sign_of x ++ digits (Z.abs x / 1000000)
    ++ (if frac =? 0 then "" else "." ++ fraction 6 frac).

(** ** Expo APIs *)

(** [Location.getCurrentPositionAsync(options)]: resolves with a fix or
    rejects. *)
Definition Location_getCurrentPositionAsync : M Location.LocationObject :=
  fun env w =>
    match getCurrentPositionAsync env (position_requests w) with
    | Some l => (Returned l, next_position_request w)
    | None => (Thrown (Rejected "Location.getCurrentPositionAsync"), next_position_request w)
    end.

(** [Notifications.scheduleNotificationAsync({ content, trigger })]: resolves
    with the identifier of the scheduled notification or rejects. *)
Definition Notifications_scheduleNotificationAsync
           (content : NotificationContent) (trigger : option number) : M string :=
  fun env w =>
    match scheduleNotificationAsync env (schedule_requests w) with
    | Some id =>
        (Returned id,
         with_scheduled (fun l => l ++ [(content, trigger)]) (next_schedule_request w))
    | None =>
        (Thrown (Rejected "Notifications.scheduleNotificationAsync"),
         next_schedule_request w)
    end.

(** [Location.startLocationUpdatesAsync], [Location.watchPositionAsync] and
    [Location.stopLocationUpdatesAsync]: each resolves or rejects. *)
Definition Location_updates_api (api : string) : M unit :=
  fun env w =>
    if updates_api_rejects env (expo_requests w)
    then (Thrown (Rejected api), next_expo_request w)
    else (Returned tt, next_expo_request w).

(** ** The Supabase client

    A request never throws: it resolves with [{ data, error }].  Here
    [inl error] or [inr data], and [Some error] or [None] when the code reads
    [error] only.  A request that comes back with an error changes no
    table. *)

Definition request : M (option Exn) :=
  fun env w =>
    (Returned (option_map PostgrestError (backend_error env (backend_requests w))),
     next_backend_request w).

Definition with_alert_id (id : number) (a : EmergencyAlert) : EmergencyAlert :=
  mkEmergencyAlert (Some id) (alert_tourist_id a) (alert_type a) (alert_latitude a)
                   (alert_longitude a) (alert_title a) (alert_message a) (alert_severity a)
                   (alert_priority a) (alert_status a).

Definition with_notification_id (id : number) (n : NotificationData) : NotificationData :=
  mkNotificationData (Some id) (notif_tourist_id n) (notif_type n) (notif_title n)
                     (notif_message n) (notif_priority n) (notif_data n) (scheduled_for n)
                     (sent_at n) (notif_status n).

Definition with_status (st : NotificationStatus) (at_time : number)
           (n : NotificationData) : NotificationData :=
  mkNotificationData (notification_id n) (notif_tourist_id n) (notif_type n)
                     (notif_title n) (notif_message n) (notif_priority n) (notif_data n)
                     (scheduled_for n) (Some at_time) st.

(** [.eq("id", s)] with a string [s] against the numeric [id] column: the
    row whose identifier [s] denotes in decimal. *)
Definition id_eq (s : string) (n : NotificationData) : bool :=
  match NilZero.int_of_string s, notification_id n with
  | Some i, Some id => Z.eqb (Z.of_int i) id
  | _, _ => false
  end.

(** [supabase.from("location_logs").insert(row)] *)
Definition location_logs_insert (row : Supabase.LocationLog) : M (option Exn) :=
  err <- request ;;
  match err with
  | Some e => ret (Some e)
  | None =>
      modify (with_database (with_location_logs (fun l => l ++ [row]))) ;;
      ret None
  end.

(** [supabase.from("tourists").insert([touristData]).select().single()]; the
    backend generates the identifier of the new row. *)
Definition tourists_insert (touristData : string -> Supabase.Tourist)
  : M (Exn + Supabase.Tourist) :=
  err <- request ;;
  match err with
  | Some e => ret (inl e)
  | None =>
      fun env w =>
        let row := touristData (gen_random_uuid env (uuid_requests w)) in
        (Returned (inr row),
         with_database (with_tourists (fun l => l ++ [row])) (next_uuid_request w))
  end.

(** [supabase.from("tourists").select("*").eq("id", id).single()]: an error
    unless exactly one row matches. *)
Definition tourists_select_single (id : string) : M (Exn + Supabase.Tourist) :=
  err <- request ;;
  match err with
  | Some e => ret (inl e)
  | None =>
      rows <- gets (fun w => filter (fun t => String.eqb (Supabase.tourist_id t) id)
                                    (tourists (database w))) ;;
      match rows with
      | [t] => ret (inr t)
      | _ => ret (inl (PostgrestError "JSON object requested, multiple (or no) rows returned"))
      end
  end.

(** [supabase.from("geofences").select("*").eq("active", true)] *)
Definition geofences_select_active : M (Exn + list Supabase.Geofence) :=
  err <- request ;;
  match err with
  | Some e => ret (inl e)
  | None =>
      rows <- gets (fun w => filter Supabase.geofence_active (geofences (database w))) ;;
      ret (inr rows)
  end.

(** [supabase.from("hazards").select("*").eq("status", "active")] *)
Definition hazards_select_active : M (Exn + list Supabase.Hazard) :=
  err <- request ;;
  match err with
  | Some e => ret (inl e)
  | None =>
      rows <- gets (fun w => filter (fun h => String.eqb (Supabase.hazard_status h) "active")
                                    (hazards (database w))) ;;
      ret (inr rows)
  end.

(** [supabase.from("alerts").insert([alert]).select().single()] *)
Definition alerts_insert (a : EmergencyAlert) : M (Exn + EmergencyAlert) :=
  err <- request ;;
  match err with
  | Some e => ret (inl e)
  | None =>
      id <- gets (fun w => alerts_seq (database w)) ;;
      let row := with_alert_id id a in
      modify (with_database (with_alerts (fun l => l ++ [row]) Z.succ)) ;;
      ret (inr row)
  end.

(** [supabase.from("notifications").insert([n]).select().single()] *)
Definition notifications_insert (n : NotificationData) : M (Exn + NotificationData) :=
  err <- request ;;
  match err with
  | Some e => ret (inl e)
  | None =>
      id <- gets (fun w => notifications_seq (database w)) ;;
      let row := with_notification_id id n in
      modify (with_database (with_notifications (fun l => l ++ [row]) Z.succ)) ;;
      ret (inr row)
  end.

(** [supabase.from("notifications").update({ status, sent_at }).eq("id", id)] *)
Definition notifications_update (new_status : NotificationStatus) (at_time : number)
           (id : string) : M (option Exn) :=
  err <- request ;;
  match err with
  | Some e => ret (Some e)
  | None =>
      modify (with_database (with_notifications
                (map (fun n => if id_eq id n then with_status new_status at_time n else n))
                (fun s => s))) ;;
      ret None
  end.

(** [supabase.from("communications").insert(row)] *)
Definition communications_insert (row : Supabase.Communication) : M (option Exn) :=
  err <- request ;;
  match err with
  | Some e => ret (Some e)
  | None =>
      modify (with_database (with_communications (fun l => l ++ [row]))) ;;
      ret None
  end.

(** ** services/location.ts *)

Module LocationService.

Record LocationData := mkLocationData {
  latitude : decimal;
  longitude : decimal;
  altitude : option decimal;
  accuracy : option decimal;
  speed : option decimal
}.

Definition getCurrentLocation : M (option LocationData) :=
  try_catch
    (location <- Location_getCurrentPositionAsync ;;
     ret (Some {|
       latitude := Location.latitude (Location.coords location);
       longitude := Location.longitude (Location.coords location);
       altitude := or_undefined (Location.altitude (Location.coords location));
       accuracy := or_undefined (Location.accuracy (Location.coords location));
       speed := or_undefined (Location.speed (Location.coords location))
     |}))
    (fun error =>
       console_error "Get current location error:" ;;
       ret None).

Definition logLocation (touristId : string) (locationData : LocationData) : M unit :=
  try_catch
    (now <- Date_now ;;
     error <- location_logs_insert {|
       Supabase.log_tourist_id := touristId;
       Supabase.log_latitude := latitude locationData;
       Supabase.log_longitude := longitude locationData;
       Supabase.log_altitude := altitude locationData;
       Supabase.log_accuracy := accuracy locationData;
       Supabase.log_speed := speed locationData;
       Supabase.log_battery_level := None;
       Supabase.log_network_type := None;
       Supabase.log_timestamp := now
     |} ;;
     match error with
     | Some _ => console_error "Location logging error:"
     | None => ret tt
     end)
    (fun error => console_error "Location logging error:").

(** The callback [startLocationTracking] hands to
    [Location.watchPositionAsync]. *)
Definition onPosition (touristId : string) (location : Location.LocationObject)
  : M unit :=
  logLocation touristId {|
    latitude := Location.latitude (Location.coords location);
    longitude := Location.longitude (Location.coords location);
    altitude := or_undefined (Location.altitude (Location.coords location));
    accuracy := or_undefined (Location.accuracy (Location.coords location));
    speed := or_undefined (Location.speed (Location.coords location))
  |}.

(** [LocationData] declares no [coords] property.  The emergency and
    notification services import [getCurrentLocation] from this module and
    read [location.coords.latitude] off its result: [location.coords] is
    [undefined] there, and reading a property of [undefined] throws a
    [TypeError]. *)
Definition coords (location : LocationData) : option Location.LocationObjectCoords :=
  None.

End LocationService.

(** Property reads [c.latitude] and [c.longitude] where [c] may be
    [undefined]. *)
Definition read_latitude (c : option Location.LocationObjectCoords) : M decimal :=
  match c with
  | Some c => ret (Location.latitude c)
  | None => throw (TypeError "Cannot read property 'latitude' of undefined")
  end.

Definition read_longitude (c : option Location.LocationObjectCoords) : M decimal :=
  match c with
  | Some c => ret (Location.longitude c)
  | None => throw (TypeError "Cannot read property 'longitude' of undefined")
  end.

(** ** services/locationTracking.ts *)

Module LocationTracking.

Definition set_lastLocation (l : option Location.LocationObject) : M unit :=
  modify (with_trackingState (fun t => mkTracking (isTracking t) (touristId t) l)).
Definition set_touristId (id : option string) : M unit :=
  modify (with_trackingState (fun t => mkTracking (isTracking t) id (lastLocation t))).
Definition set_isTracking (b : bool) : M unit :=
  modify (with_trackingState (fun t => mkTracking b (touristId t) (lastLocation t))).

Definition getBatteryLevel : M (option number) :=
  try_catch (ret None) (fun error => ret None).

Definition getNetworkType : M (option string) :=
  try_catch (ret None) (fun error => ret None).

Definition logLocationToDatabase (touristId : string)
           (location : Location.LocationObject) : M unit :=
  try_catch
    (battery_level <- getBatteryLevel ;;
     network_type <- getNetworkType ;;
     timestamp <- toISOString (Location.timestamp location) ;;
     error <- location_logs_insert {|
       Supabase.log_tourist_id := touristId;
       Supabase.log_latitude := Location.latitude (Location.coords location);
       Supabase.log_longitude := Location.longitude (Location.coords location);
       Supabase.log_altitude := Location.altitude (Location.coords location);
       Supabase.log_accuracy := Location.accuracy (Location.coords location);
       Supabase.log_speed := Location.speed (Location.coords location);
       Supabase.log_battery_level := battery_level;
       Supabase.log_network_type := network_type;
       Supabase.log_timestamp := timestamp
     |} ;;
     match error with
     | Some _ => console_error "Location logging error:"
     | None => ret tt
     end)
    (fun error => console_error "Location logging error:").

(** The geofence and hazard rows are fetched and dropped: the only effect
    past the two queries is a console line. *)
Definition checkForHazards (touristId : string)
           (location : Location.LocationObject) : M unit :=
  try_catch
    (geofences <- geofences_select_active ;;
     match geofences with
     | inl geofenceError => console_error "Geofence check error:"
     | inr geofences =>
         hazards <- hazards_select_active ;;
         match hazards with
         | inl hazardError => console_error "Hazard check error:"
         | inr hazards =>
             console_log ("Hazard check completed for location: "
                            ++ show (Location.latitude (Location.coords location))
                            ++ ", "
                            ++ show (Location.longitude (Location.coords location)))%string
         end
     end)
    (fun error => console_error "Hazard check error:").

(** The task registered under [LOCATION_TASK_NAME]:
    [async ({ data, error }) => ...] with [data = { locations }]. *)
Definition backgroundLocationTask (data : option (list Location.LocationObject))
           (error : option Exn) : M unit :=
  match error with
  | Some _ => console_error "Background location task error:"
  | None =>
      match data with
      | Some locations =>
          id <- gets (fun w => touristId (trackingState w)) ;;
          match hd_error locations, id with
          | Some location, Some id =>
              if String.eqb id "" then ret tt
              else (logLocationToDatabase id location ;;
                    checkForHazards id location)
          | _, _ => ret tt
          end
      | None => ret tt
      end
  end.

(** The callback [startLocationTracking] hands to
    [Location.watchPositionAsync]. *)
Definition onPosition (touristId : string) (location : Location.LocationObject)
  : M unit :=
  set_lastLocation (Some location) ;;
  logLocationToDatabase touristId location ;;
  checkForHazards touristId location.

Definition startLocationTracking (touristId : string) : M bool :=
  try_catch
    (tracking <- gets (fun w => isTracking (trackingState w)) ;;
     if tracking : bool then
       console_log "Location tracking already active" ;;
       ret true
     else
       set_touristId (Some touristId) ;;
       set_isTracking true ;;
       Location_updates_api "Location.startLocationUpdatesAsync" ;;
       Location_updates_api "Location.watchPositionAsync" ;;
       console_log "Location tracking started successfully" ;;
       ret true)
    (fun error =>
       console_error "Start location tracking error:" ;;
       set_isTracking false ;;
       ret false).

Definition stopLocationTracking : M unit :=
  try_catch
    (tracking <- gets (fun w => isTracking (trackingState w)) ;;
     if negb tracking then ret tt
     else
       Location_updates_api "Location.stopLocationUpdatesAsync" ;;
       set_isTracking false ;;
       set_touristId None ;;
       set_lastLocation None ;;
       console_log "Location tracking stopped")
    (fun error => console_error "Stop location tracking error:").

Definition getCurrentLocation : M (option Location.LocationObject) :=
  try_catch
    (location <- Location_getCurrentPositionAsync ;;
     set_lastLocation (Some location) ;;
     ret (Some location))
    (fun error =>
       console_error "Get current location error:" ;;
       gets (fun w => lastLocation (trackingState w))).

Definition getLastKnownLocation : M (option Location.LocationObject) :=
  gets (fun w => lastLocation (trackingState w)).

Definition isLocationTrackingActive : M bool :=
  gets (fun w => isTracking (trackingState w)).

End LocationTracking.

(** ** services/notifications.ts *)

Module Notifications.

Definition getNotificationPriority (p : Priority) : AndroidNotificationPriority :=
  match p with
  | critical => MAX
  | high => HIGH
  | normal => DEFAULT
  | low => LOW
  end.

Definition getNotificationCategory (type : NotificationType) : option string :=
  match type with
  | emergency => Some "emergency"
  | safety_alert | geofence | hazard | weather => Some "safety_alert"
  | system => None
  end.

Definition updateNotificationStatus (notificationId : string)
           (new_status : NotificationStatus) : M unit :=
  try_catch
    (now <- Date_now ;;
     error <- notifications_update new_status now notificationId ;;
     match error with
     | Some _ => console_error "Update notification status error:"
     | None => ret tt
     end)
    (fun error => console_error "Update notification status error:").

Definition sendLocalNotification (notificationData : NotificationData) : M string :=
  try_catch
    (notificationId <-
       Notifications_scheduleNotificationAsync {|
         content_title := notif_title notificationData;
         content_body := notif_message notificationData;
         content_sound :=
           match notif_priority notificationData with
           | critical | high => true
           | _ => false
           end;
         content_priority := getNotificationPriority (notif_priority notificationData);
         categoryIdentifier := getNotificationCategory (notif_type notificationData);
         content_data := Some {|
           content_payload := notif_data notificationData;
           content_notificationId := notification_id notificationData;
           content_data_priority := notif_priority notificationData;
           content_data_type := notif_type notificationData
         |}
       |} (scheduled_for notificationData) ;;
     updateNotificationStatus notificationId sent ;;
     ret notificationId)
    (fun error =>
       console_error "Send local notification error:" ;;
       updateNotificationStatus
         (match notification_id notificationData with
          | Some id => digits id
          | None => ""
          end) failed ;;
       throw error).

(** [location] comes from services/location.ts, so the branch taken when a
    position is available reads [location.coords.latitude] off a
    [LocationData] and throws before the row is built. *)
Definition createSafetyAlert (touristId : string) (alertType : NotificationType)
           (title message : string) (priority : Priority)
           (additionalData : AdditionalData) : M NotificationData :=
  try_catch
    (location <- LocationService.getCurrentLocation ;;
     payload_location <-
       match location with
       | Some location =>
           latitude <- read_latitude (LocationService.coords location) ;;
           longitude <- read_longitude (LocationService.coords location) ;;
           ret (Some (latitude, longitude))
       | None => ret None
       end ;;
     timestamp <- Date_now ;;
     let notificationData := {|
       notification_id := None;
       notif_tourist_id := touristId;
       notif_type := alertType;
       notif_title := title;
       notif_message := message;
       notif_priority := priority;
       notif_data := Some {|
         additionalData := additionalData;
         payload_location := payload_location;
         payload_timestamp := timestamp
       |};
       scheduled_for := None;
       sent_at := None;
       notif_status := pending
     |} in
     response <- notifications_insert notificationData ;;
     match response with
     | inl error => throw error
     | inr data =>
         sendLocalNotification
           (mkNotificationData (notification_id data) (notif_tourist_id notificationData)
              (notif_type notificationData) (notif_title notificationData)
              (notif_message notificationData) (notif_priority notificationData)
              (notif_data notificationData) (scheduled_for notificationData)
              (sent_at notificationData) (notif_status notificationData)) ;;
         ret data
     end)
    (fun error =>
       console_error "Create safety alert error:" ;;
       throw error).

Definition createGeofenceAlert (touristId geofenceName geofenceType : string)
           (action : Action) : M NotificationData :=
  let title := ("Geofence " ++ match action with entered => "Entry" | exited => "Exit" end)%string in
  let message := ("You have " ++ match action with entered => "entered" | exited => "exited" end
                    ++ " " ++ geofenceName ++ " (" ++ geofenceType ++ " zone)")%string in
  let priority := if String.eqb geofenceType "restricted" then high else normal in
  createSafetyAlert touristId geofence title message priority
                    (GeofenceData geofenceName geofenceType action).

Definition createHazardAlert (touristId hazardTitle hazardType severity : string)
           (distance : decimal) : M NotificationData :=
  let title := ("Hazard Alert: " ++ hazardTitle)%string in
  let message := (hazardType ++ " detected " ++ show distance
                    ++ "km from your location. Severity: " ++ severity)%string in
  let priority :=
    if String.eqb severity "high" then critical
    else if String.eqb severity "medium" then high
    else normal in
  createSafetyAlert touristId hazard title message priority
                    (HazardData hazardTitle hazardType severity distance).

Definition createWeatherAlert (touristId weatherType severity description : string)
  : M NotificationData :=
  let title := ("Weather Alert: " ++ weatherType)%string in
  let message := description in
  let priority := if String.eqb severity "severe" then high else normal in
  createSafetyAlert touristId weather title message priority
                    (WeatherData weatherType severity).

End Notifications.

(** ** services/emergency.ts *)

Module Emergency.

(** [for (const x of xs) { await body(x) }] *)
Fixpoint for_of {A} (xs : list A) (body : A -> M unit) : M unit :=
  match xs with
  | [] => ret tt
  | x :: rest => body x ;; for_of rest body
  end.

(** [`${x}`] for an optional number. *)
Definition show_optional (x : option decimal) : string :=
  match x with
  | Some v => show v
  | None => "undefined"
  end.

Definition getAlertTitle (type : EmergencyType) : string :=
  match type with
  | panic => "🚨 EMERGENCY ALERT"
  | medical => "🏥 MEDICAL EMERGENCY"
  | security => "🛡️ SECURITY ALERT"
  | natural_disaster => "🌪️ NATURAL DISASTER ALERT"
  end.

Definition getAlertMessage (type : EmergencyType) (lat lng : decimal) : string :=
  let locationStr := ("Location: " ++ toFixed6 lat ++ ", " ++ toFixed6 lng)%string in
  match type with
  | panic =>
      "Tourist has triggered a panic alert and requires immediate assistance. " ++ locationStr
  | medical =>
      "Tourist requires immediate medical assistance. " ++ locationStr
  | security =>
      "Tourist is in a potentially dangerous security situation. " ++ locationStr
  | natural_disaster =>
      "Tourist is affected by a natural disaster and needs help. " ++ locationStr
  end%string.

Definition notifyEmergencyContacts (tourist : Supabase.Tourist) (alert : EmergencyAlert)
  : M unit :=
  try_catch
    (let contacts :=
       match Supabase.emergency_contact_1 tourist with Some c => [c] | None => [] end
       ++ match Supabase.emergency_contact_2 tourist with Some c => [c] | None => [] end in
     for_of contacts (fun contact =>
       console_log ("Notifying emergency contact: " ++ Supabase.contact_name contact
                      ++ " (" ++ Supabase.contact_phone contact ++ ")")%string ;;
       communications_insert {|
         Supabase.comm_tourist_id := Supabase.tourist_id tourist;
         Supabase.comm_alert_id := alert_id alert;
         Supabase.communication_type := "sms";
         Supabase.recipient_identifier := Supabase.contact_phone contact;
         Supabase.message_content :=
           ("EMERGENCY: " ++ Supabase.tourist_name tourist
              ++ " has triggered an emergency alert. Location: "
              ++ show_optional (alert_latitude alert) ++ ", "
              ++ show_optional (alert_longitude alert)
              ++ ". Please contact authorities immediately.")%string;
         Supabase.comm_status := "sent"
       |} ;;
       ret tt))
    (fun error => console_error "Emergency contact notification error:").

Definition notifyAuthorities (alert : EmergencyAlert) : M unit :=
  try_catch
    (console_log "Notifying local authorities about emergency alert" ;;
     Notifications_scheduleNotificationAsync {|
       content_title := "Emergency Alert Sent";
       content_body :=
         "Authorities and emergency contacts have been notified of your emergency.";
       content_sound := true;
       content_priority := HIGH;
       categoryIdentifier := None;
       content_data := None
     |} None ;;
     communications_insert {|
       Supabase.comm_tourist_id := alert_tourist_id alert;
       Supabase.comm_alert_id := alert_id alert;
       Supabase.communication_type := "push_notification";
       Supabase.recipient_identifier := "local_authorities";
       Supabase.message_content := alert_message alert;
       Supabase.comm_status := "sent"
     |} ;;
     ret tt)
    (fun error => console_error "Authority notification error:").

Definition logEmergencyCommunication (touristId : string) (alertId : option number)
           (alert : EmergencyAlert) : M unit :=
  try_catch
    (communications_insert {|
       Supabase.comm_tourist_id := touristId;
       Supabase.comm_alert_id := alertId;
       Supabase.communication_type := "emergency_alert";
       Supabase.recipient_identifier := "system";
       Supabase.message_content :=
         ("Emergency alert triggered: " ++ alert_title alert ++ " - "
            ++ alert_message alert)%string;
       Supabase.comm_status := "processed"
     |} ;;
     ret tt)
    (fun error => console_error "Communication logging error:").

(** The object literal [emergencyAlert] of [triggerPanicAlert], once its
    property values are evaluated. *)
Definition emergencyAlert (touristId : string) (alertType : EmergencyType)
           (latitude longitude lat lng : decimal) : EmergencyAlert :=
  {|
    alert_id := None;
    alert_tourist_id := touristId;
    alert_type := emergency_type alertType;
    alert_latitude := Some latitude;
    alert_longitude := Some longitude;
    alert_title := getAlertTitle alertType;
    alert_message := getAlertMessage alertType lat lng;
    alert_severity := sev_critical;
    alert_priority := 1;
    alert_status := active
  |}.

(** [location] comes from services/location.ts: when a position is
    available the first property of the literal, [location.coords.latitude],
    is read off a [LocationData] and throws, so the insert is not reached. *)
Definition triggerPanicAlert (touristId : string) (alertType : EmergencyType)
  : M EmergencyAlert :=
  try_catch
    (location <- LocationService.getCurrentLocation ;;
     match location with
     | None => throw (JsError "Unable to get current location")
     | Some location =>
         latitude <- read_latitude (LocationService.coords location) ;;
         longitude <- read_longitude (LocationService.coords location) ;;
         lat <- read_latitude (LocationService.coords location) ;;
         lng <- read_longitude (LocationService.coords location) ;;
         let emergencyAlert := emergencyAlert touristId alertType latitude longitude lat lng in
         response <- alerts_insert emergencyAlert ;;
         match response with
         | inl alertError => throw alertError
         | inr alertData =>
             touristData <- tourists_select_single touristId ;;
             match touristData with
             | inl touristError => console_error "Tourist data error:"
             | inr touristData => notifyEmergencyContacts touristData emergencyAlert
             end ;;
             notifyAuthorities emergencyAlert ;;
             logEmergencyCommunication touristId (alert_id alertData) emergencyAlert ;;
             ret alertData
         end
     end)
    (fun error =>
       console_error "Panic alert error:" ;;
       throw error).

End Emergency.

(** ** screens/RegisterScreen.tsx *)

Module RegisterScreen.

Record FormData := mkFormData {
  name : string;
  phone : string;
  email : string;
  nationality : string;
  passportNumber : string;
  aadhaarLast4 : string;
  entryPoint : string;
  visitPurpose : string;
  plannedExitDate : string;
  medicalConditions : string;
  bloodGroup : string
}.

(** [s.length]: the number of UTF-16 code units.  A character encoded in
    one, two or three bytes is one code unit, a character encoded in four
    bytes is a surrogate pair; the count is taken at the first byte of each
    character, continuation bytes add nothing. *)
Definition code_units (first : ascii) : nat :=
  let byte := nat_of_ascii first in
  if (byte <? 128)%nat then 1%nat
  else if (byte <? 192)%nat then 0%nat
  else if (byte <? 240)%nat then 1%nat
  else 2%nat.

Fixpoint length (s : string) : nat :=
  match s with
  | EmptyString => 0%nat
  | String c rest => (code_units c + length rest)%nat
  end.

Definition bytes (codes : list nat) : string :=
  string_of_list_ascii (map ascii_of_nat codes).

(** The characters [String.prototype.trim] strips, ECMAScript's WhiteSpace
    and LineTerminator, each in UTF-8: TAB, LF, VT, FF, CR, SP; U+00A0;
    U+1680; U+2000 to U+200A; U+2028, U+2029; U+202F, U+205F; U+3000;
    U+FEFF. *)
Definition white_space : list string :=
  map bytes
      [ [9]; [10]; [11]; [12]; [13]; [32];
        [194; 160];
        [225; 154; 128];
        [226; 128; 128]; [226; 128; 129]; [226; 128; 130]; [226; 128; 131];
        [226; 128; 132]; [226; 128; 133]; [226; 128; 134]; [226; 128; 135];
        [226; 128; 136]; [226; 128; 137]; [226; 128; 138];
        [226; 128; 168]; [226; 128; 169];
        [226; 128; 175]; [226; 129; 159];
        [227; 128; 128];
        [239; 187; 191] ]%nat.

(** [s] without the prefix [prefix], when it starts with it. *)
Fixpoint strip (prefix s : string) : option string :=
  match prefix, s with
  | EmptyString, _ => Some s
  | String a prefix, String b rest => if Ascii.eqb a b then strip prefix rest else None
  | String _ _, EmptyString => None
  end.

(** [s] without its first character, when that is white space. *)
Definition skip_white_space (s : string) : option string :=
  fold_right (fun space found =>
                match strip space s with
                | Some rest => Some rest
                | None => found
                end)
             None white_space.

(** At most [n] leading white space characters removed. *)
Fixpoint trimStart_upto (n : nat) (s : string) : string :=
  match n with
  | O => s
  | S n =>
      match skip_white_space s with
      | Some rest => trimStart_upto n rest
      | None => s
      end
  end.

(** A string has no more characters than bytes. *)
Definition trimStart (s : string) : string := trimStart_upto (String.length s) s.

(** The string up to the point from which only white space follows. *)
Fixpoint trimEnd (s : string) : string :=
  match s with
  | EmptyString => EmptyString
  | String c rest =>
      if String.eqb (trimStart s) "" then EmptyString else String c (trimEnd rest)
  end.

Definition trim (s : string) : string := trimEnd (trimStart s).

(** [s.includes(sub)] *)
Definition includes (s sub : string) : bool :=
  match index 0 sub s with
  | Some _ => true
  | None => false
  end.

(** [s || null] *)
Definition or_null (s : string) : option string :=
  if String.eqb s "" then None else Some s.

Definition validateStep1 (formData : FormData) : M bool :=
  if String.eqb (trim (name formData)) "" then
    Alert_alert "Error" "Please enter your full name" ;;
    ret false
  else if String.eqb (trim (phone formData)) ""
          || (length (phone formData) <? 10)%nat then
    Alert_alert "Error" "Please enter a valid phone number" ;;
    ret false
  else if String.eqb (trim (email formData)) ""
          || negb (includes (email formData) "@") then
    Alert_alert "Error" "Please enter a valid email address" ;;
    ret false
  else ret true.

Definition validateStep2 (emergencyContact1 : Supabase.EmergencyContact) : M bool :=
  if String.eqb (trim (Supabase.contact_name emergencyContact1)) ""
     || String.eqb (trim (Supabase.contact_phone emergencyContact1)) "" then
    Alert_alert "Error" "Please provide at least one emergency contact" ;;
    ret false
  else ret true.

(** The object literal [touristData] of [handleRegister]; the backend adds
    the identifier. *)
Definition touristData (formData : FormData)
           (emergencyContact1 emergencyContact2 : Supabase.EmergencyContact)
           (id : string) : Supabase.Tourist :=
  {|
    Supabase.tourist_id := id;
    Supabase.tourist_name := name formData;
    Supabase.tourist_phone := phone formData;
    Supabase.tourist_email := email formData;
    Supabase.nationality := nationality formData;
    Supabase.passport_number := or_null (passportNumber formData);
    Supabase.aadhaar_last_4 := or_null (aadhaarLast4 formData);
    Supabase.entry_point := or_null (entryPoint formData);
    Supabase.visit_purpose := or_null (visitPurpose formData);
    Supabase.planned_exit_date := or_null (plannedExitDate formData);
    Supabase.medical_conditions := or_null (medicalConditions formData);
    Supabase.blood_group := or_null (bloodGroup formData);
    Supabase.emergency_contact_1 := Some emergencyContact1;
    Supabase.emergency_contact_2 :=
      if negb (String.eqb (Supabase.contact_name emergencyContact2) "")
         && negb (String.eqb (Supabase.contact_phone emergencyContact2) "")
      then Some emergencyContact2 else None;
    Supabase.safety_score := 50;
    Supabase.risk_category := "medium";
    Supabase.tourist_status := "active"
  |}.

(** The loading flag and the navigation that follows the success dialog
    are view state and are left out. *)
Definition handleRegister (formData : FormData)
           (emergencyContact1 emergencyContact2 : Supabase.EmergencyContact) : M unit :=
  step1 <- validateStep1 formData ;;
  if negb step1 then ret tt else
  step2 <- validateStep2 emergencyContact1 ;;
  if negb step2 then ret tt else
  try_catch
    (location <- LocationService.getCurrentLocation ;;
     response <- tourists_insert (touristData formData emergencyContact1 emergencyContact2) ;;
     match response with
     | inl error => throw error
     | inr data =>
         match location with
         | Some location =>
             now <- Date_now ;;
             location_logs_insert {|
               Supabase.log_tourist_id := Supabase.tourist_id data;
               Supabase.log_latitude := LocationService.latitude location;
               Supabase.log_longitude := LocationService.longitude location;
               Supabase.log_altitude := LocationService.altitude location;
               Supabase.log_accuracy := LocationService.accuracy location;
               Supabase.log_speed := LocationService.speed location;
               Supabase.log_battery_level := None;
               Supabase.log_network_type := None;
               Supabase.log_timestamp := now
             |} ;;
             ret tt
         | None => ret tt
         end ;;
         Alert_alert "Success" "Registration completed successfully!"
     end)
    (fun error =>
       console_error "Registration error:" ;;
       Alert_alert "Error" "Registration failed. Please try again.").

End RegisterScreen.

(** ** screens/HomeScreen.tsx

    The score shown on the home screen is the React state
    [useState(75)]; [setSafetyScore] is never called, so every render shows
    the initial value. *)

Module HomeScreen.

(** [const [safetyScore, setSafetyScore] = useState(75)] *)
Definition safetyScore : number := 75.

Definition getSafetyScoreColor (score : number) : string :=
  if 80 <=? score then "#059669"
  else if 60 <=? score then "#d97706"
  else "#dc2626".

End HomeScreen.

(** ** The application as a stream of events

    What happens to a running client: the screens call the services, and
    expo-location delivers fixes to the registered callbacks. *)

Inductive Event :=
| Register (formData : RegisterScreen.FormData)
           (emergencyContact1 emergencyContact2 : Supabase.EmergencyContact)
| StartTracking (touristId : string)
| StopTracking
| ForegroundFix (touristId : string) (location : Location.LocationObject)
| BackgroundTask (data : option (list Location.LocationObject)) (error : option Exn)
| WatchedFix (touristId : string) (location : Location.LocationObject)
| CurrentLocation
| PanicAlert (touristId : string) (alertType : EmergencyType)
| GeofenceAlert (touristId geofenceName geofenceType : string) (action : Action)
| HazardAlert (touristId hazardTitle hazardType severity : string) (distance : decimal)
| WeatherAlert (touristId weatherType severity description : string).

Definition ignore {A} (m : M A) : M unit := m ;; ret tt.

Definition handle (e : Event) : M unit :=
  match e with
  | Register formData emergencyContact1 emergencyContact2 =>
      RegisterScreen.handleRegister formData emergencyContact1 emergencyContact2
  | StartTracking touristId => ignore (LocationTracking.startLocationTracking touristId)
  | StopTracking => LocationTracking.stopLocationTracking
  | ForegroundFix touristId location => LocationTracking.onPosition touristId location
  | BackgroundTask data error => LocationTracking.backgroundLocationTask data error
  | WatchedFix touristId location => LocationService.onPosition touristId location
  | CurrentLocation => ignore LocationTracking.getCurrentLocation
  | PanicAlert touristId alertType => ignore (Emergency.triggerPanicAlert touristId alertType)
  | GeofenceAlert touristId geofenceName geofenceType action =>
      ignore (Notifications.createGeofenceAlert touristId geofenceName geofenceType action)
  | HazardAlert touristId hazardTitle hazardType severity distance =>
      ignore (Notifications.createHazardAlert touristId hazardTitle hazardType severity distance)
  | WeatherAlert touristId weatherType severity description =>
      ignore (Notifications.createWeatherAlert touristId weatherType severity description)
  end.

(** A rejection that reaches the top level is dropped; the state changes
    made before it stay. *)
Definition run_events (env : Env) (events : list Event) (w : World) : World :=
  fold_left (fun w e => exec (handle e) env w) events w.

(** The safety score stored for a tourist (the first row with that
    identifier). *)
Definition score_of (touristId : string) (w : World) : option number :=
  option_map Supabase.safety_score
    (find (fun t => String.eqb (Supabase.tourist_id t) touristId) (tourists (database w))).

(** ** Configuration: the default system settings

    [tourist_safety_score_weights] as inserted into [system_settings]. *)
Definition tourist_safety_score_weights : list (string * Q) :=
  [ ("location_risk", 0.3%Q);
    ("weather", 0.2%Q);
    ("group_size", 0.2%Q);
    ("time_of_day", 0.15%Q);
    ("route_deviation", 0.15%Q) ].

Definition total_weight (weights : list (string * Q)) : Q :=
  fold_right Qplus 0%Q (map snd weights).

(** * The rest of the services

    The functions of the services and screens beyond those above, on the
    same world. *)

(** ** More of the Supabase client *)

(** [.order(column, { ascending: false })]: the rows by decreasing key.
    The backend leaves the order of rows with equal keys open; here they
    keep their table order. *)
Fixpoint insert_desc {A} (key : A -> number) (x : A) (rows : list A) : list A :=
  match rows with
  | [] => [x]
  | y :: rest => if key y <? key x then x :: rows else y :: insert_desc key x rest
  end.

Definition order_desc {A} (key : A -> number) (rows : list A) : list A :=
  fold_right (insert_desc key) [] rows.

(** [supabase.from("location_logs").select("*").eq("tourist_id", id)
      .gte("timestamp", startTime).order("timestamp", { ascending: false })
      .limit(100)] *)
Definition location_logs_select_history (touristId : string) (startTime : number)
  : M (Exn + list Supabase.LocationLog) :=
  err <- request ;;
  match err with
  | Some e => ret (inl e)
  | None =>
      rows <- gets (fun w =>
                filter (fun l => String.eqb (Supabase.log_tourist_id l) touristId
                                 && (startTime <=? Supabase.log_timestamp l))
                       (location_logs (database w))) ;;
      ret (inr (firstn 100 (order_desc Supabase.log_timestamp rows)))
  end.

Definition with_read (n : NotificationData) : NotificationData :=
  mkNotificationData (notification_id n) (notif_tourist_id n) (notif_type n)
                     (notif_title n) (notif_message n) (notif_priority n) (notif_data n)
                     (scheduled_for n) (sent_at n) read.

Definition has_id (id : number) (n : NotificationData) : bool :=
  match notification_id n with
  | Some i => i =? id
  | None => false
  end.

(** [supabase.from("notifications").update({ status: "read" }).eq("id", id)] *)
Definition notifications_mark_read (id : number) : M (option Exn) :=
  err <- request ;;
  match err with
  | Some e => ret (Some e)
  | None =>
      modify (with_database (with_notifications
                (map (fun n => if has_id id n then with_read n else n))
                (fun s => s))) ;;
      ret None
  end.

Definition is_unread_of (touristId : string) (n : NotificationData) : bool :=
  String.eqb (notif_tourist_id n) touristId
  && match notif_status n with read => false | _ => true end.

(** [supabase.from("notifications").select("*", { count: "exact", head: true })
      .eq("tourist_id", id).neq("status", "read")]: resolves with
    [{ count, error }]. *)
Definition notifications_count_unread (touristId : string) : M (Exn + number) :=
  err <- request ;;
  match err with
  | Some e => ret (inl e)
  | None =>
      rows <- gets (fun w => filter (is_unread_of touristId) (notifications (database w))) ;;
      ret (inr (Z.of_nat (List.length rows)))
  end.

Definition with_alert_status (st : AlertStatus) (a : EmergencyAlert) : EmergencyAlert :=
  mkEmergencyAlert (alert_id a) (alert_tourist_id a) (alert_type a) (alert_latitude a)
                   (alert_longitude a) (alert_title a) (alert_message a) (alert_severity a)
                   (alert_priority a) st.

Definition alert_has_id (id : number) (a : EmergencyAlert) : bool :=
  match alert_id a with
  | Some i => i =? id
  | None => false
  end.

(** [supabase.from("alerts").update({ status, ... }).eq("id", alertId)].  The
    rows carry the fields of [EmergencyAlert]; the columns [resolved_at] and
    [resolution_notes] written along with the status are not among them. *)
Definition alerts_update_status (st : AlertStatus) (alertId : number) : M (option Exn) :=
  err <- request ;;
  match err with
  | Some e => ret (Some e)
  | None =>
      modify (with_database (with_alerts
                (map (fun a => if alert_has_id alertId a then with_alert_status st a else a))
                (fun s => s))) ;;
      ret None
  end.

Definition is_active_of (touristId : string) (a : EmergencyAlert) : bool :=
  String.eqb (alert_tourist_id a) touristId
  && match alert_status a with active => true | _ => false end.

(** [.in("type", types)] *)
Definition in_types (types : list string) (a : EmergencyAlert) : bool :=
  existsb (String.eqb (type_name (alert_type a))) types.

(** The list both queries of the emergency service pass to [.in]. *)
Definition emergency_types : list string :=
  ["panic"; "medical"; "security"; "natural_disaster"].

(** [supabase.from("alerts").select("*").eq("tourist_id", id)
      .eq("status", "active")
      .in("type", ["panic", "medical", "security", "natural_disaster"])
      .order("created_at", { ascending: false }).limit(1)].  The column
    [created_at], which the rows do not carry, is given by [created_at]. *)
Definition alerts_select_active (created_at : EmergencyAlert -> number)
           (touristId : string) : M (Exn + list EmergencyAlert) :=
  err <- request ;;
  match err with
  | Some e => ret (inl e)
  | None =>
      rows <- gets (fun w => filter (fun a => is_active_of touristId a
                                              && in_types emergency_types a)
                                    (alerts (database w))) ;;
      ret (inr (firstn 1 (order_desc created_at rows)))
  end.

(** [supabase.from("alerts").select("*").eq("tourist_id", id)
      .in("type", ["panic", "medical", "security", "natural_disaster"])
      .order("created_at", { ascending: false }).limit(20)] *)
Definition alerts_select_history (created_at : EmergencyAlert -> number)
           (touristId : string) : M (Exn + list EmergencyAlert) :=
  err <- request ;;
  match err with
  | Some e => ret (inl e)
  | None =>
      rows <- gets (fun w => filter (fun a => String.eqb (alert_tourist_id a) touristId
                                              && in_types emergency_types a)
                                    (alerts (database w))) ;;
      ret (inr (firstn 20 (order_desc created_at rows)))
  end.

(** ** services/locationTracking.ts, continued *)



Module TrackingQueries.


Definition getLocationHistory (touristId : string) (hours : number)
  : M (list Supabase.LocationLog) :=
  try_catch
    (now <- Date_now ;;
     startTime <- toISOString (now - hours * 60 * 60 * 1000) ;;
     response <- location_logs_select_history touristId startTime ;;
     match response with
     | inl error =>
         console_error "Location history error:" ;;
         ret []
     | inr data => ret data
     end)
    (fun error =>
       console_error "Location history error:" ;;
       ret []).

End TrackingQueries.

(** ** services/location.ts, continued: the foreground subscription

    The module keeps the handle of the last subscription in
    [locationSubscription].  The state here is that variable, the
    subscriptions expo-location holds active (by identifier, in the order
    they were made), and the console; whether [watchPositionAsync] rejects is
    an argument. *)

Module LocationWatch.


Record Watch := mkWatch {
  locationSubscription : option nat;
  active_subscriptions : list nat;
  issued : nat;
  watch_console : list (Level * string)
}.

Definition no_watch : Watch := mkWatch None [] 0 [].

Definition startLocationTracking (rejects : bool) (s : Watch) : Watch :=
  if rejects then
    mkWatch (locationSubscription s) (active_subscriptions s) (issued s)
            (watch_console s ++ [(ERROR, "Start location tracking error:")])
  else
    mkWatch (Some (issued s)) (active_subscriptions s ++ [issued s]) (S (issued s))
            (watch_console s).

Definition stopLocationTracking (s : Watch) : Watch :=
  match locationSubscription s with
  | Some subscription =>
      mkWatch None
              (filter (fun id => negb (Nat.eqb id subscription)) (active_subscriptions s))
              (issued s) (watch_console s)
  | None => s
  end.

End LocationWatch.

(** ** services/notifications.ts, continued *)

Module NotificationCenter.

Record NotificationBehavior := mkBehavior {
  shouldShowAlert : bool;
  shouldPlaySound : bool;
  shouldSetBadge : bool
}.

(** The handler given to [Notifications.setNotificationHandler]; the
    priority is [notification.request.content.data?.priority || "normal"]. *)
Definition handleNotification (content : NotificationContent) : NotificationBehavior :=
  let priority :=
    match content_data content with
    | Some d => content_data_priority d
    | None => normal
    end in
  {|
    shouldShowAlert := true;
    shouldPlaySound := match priority with high | critical => true | _ => false end;
    shouldSetBadge := true
  |}.

Definition markNotificationAsRead (notificationId : number) : M bool :=
  try_catch
    (error <- notifications_mark_read notificationId ;;
     match error with
     | Some e => throw e
     | None => ret true
     end)
    (fun error =>
       console_error "Mark notification as read error:" ;;
       ret false).

Definition getUnreadNotificationCount (touristId : string) : M number :=
  try_catch
    (response <- notifications_count_unread touristId ;;
     match response with
     | inl error => throw error
     | inr count => ret count
     end)
    (fun error =>
       console_error "Get unread notification count error:" ;;
       ret 0).

(** [alertId] is [notificationData?.alertId] and may be [undefined]; the
    request is then made with a filter that names no row. *)
Definition acknowledgeAlert (alertId : option number) : M unit :=
  try_catch
    (error <- match alertId with
              | Some id => alerts_update_status acknowledged id
              | None => request
              end ;;
     match error with
     | Some _ => console_error "Acknowledge alert error:"
     | None => ret tt
     end)
    (fun error => console_error "Acknowledge alert error:").

(** [notification.request.content.data?.alertId] *)
Definition alertId_of (content : NotificationContent) : option number :=
  match content_data content with
  | Some d =>
      match content_payload d with
      | Some payload =>
          match additionalData payload with
          | AlertRef alertId => Some alertId
          | _ => None
          end
      | None => None
      end
  | None => None
  end.

(** The [switch] on the action: only "acknowledge" does anything. *)
Definition handleNotificationResponse (actionIdentifier : string)
           (content : NotificationContent) : M unit :=
  try_catch
    (if String.eqb actionIdentifier "acknowledge"
     then acknowledgeAlert (alertId_of content)
     else ret tt)
    (fun error => console_error "Notification response handling error:").

End NotificationCenter.

(** ** services/emergency.ts, continued

    [created_at] gives the column by which the queries order alerts. *)

Module EmergencyResponse.

Definition resolveEmergencyAlert (alertId : number) (resolutionNotes : option string)
  : M bool :=
  try_catch
    (resolved_at <- Date_now ;;
     error <- alerts_update_status resolved alertId ;;
     match error with
     | Some e => throw e
     | None => ret true
     end)
    (fun error =>
       console_error "Resolve alert error:" ;;
       ret false).

Definition acknowledgeEmergencyAlert (alertId : number) : M bool :=
  try_catch
    (error <- alerts_update_status acknowledged alertId ;;
     match error with
     | Some e => throw e
     | None => ret true
     end)
    (fun error =>
       console_error "Acknowledge alert error:" ;;
       ret false).

Definition getEmergencyHistory (created_at : EmergencyAlert -> number)
           (touristId : string) : M (list EmergencyAlert) :=
  try_catch
    (response <- alerts_select_history created_at touristId ;;
     match response with
     | inl error => throw error
     | inr data => ret data
     end)
    (fun error =>
       console_error "Emergency history error:" ;;
       ret []).

Definition checkEmergencyStatus (created_at : EmergencyAlert -> number)
           (touristId : string) : M (option EmergencyAlert) :=
  try_catch
    (response <- alerts_select_active created_at touristId ;;
     match response with
     | inl error => throw error
     | inr data => ret (hd_error data)
     end)
    (fun error =>
       console_error "Emergency status check error:" ;;
       ret None).

End EmergencyResponse.

(** ** The screens that raise an emergency alert

    View state (loading flags, the alert shown as active) is left out; the
    dialogs are recorded. *)

Module EmergencyActions.

(** screens/HomeScreen.tsx, [handleEmergency]. *)
Definition handleEmergency (touristId : string) : M unit :=
  try_catch
    (location <- LocationService.getCurrentLocation ;;
     match location with
     | None => Alert_alert "Error" "Unable to get your location. Please try again."
     | Some _ =>
         Emergency.triggerPanicAlert touristId panic ;;
         Alert_alert "Emergency Alert Sent"
                     "Authorities and your emergency contacts have been notified."
     end)
    (fun error =>
       console_error "Emergency alert error:" ;;
       Alert_alert "Error" "Failed to send emergency alert. Please try again.").

(** screens/EmergencyScreen.tsx, [loadEmergencyHistory]. *)
Definition loadEmergencyHistory (created_at : EmergencyAlert -> number)
           (touristId : string) : M unit :=
  try_catch
    (EmergencyResponse.getEmergencyHistory created_at touristId ;; ret tt)
    (fun error => console_error "Load emergency history error:").

(** screens/EmergencyScreen.tsx, [sendEmergencyAlert]. *)
Definition sendEmergencyAlert (created_at : EmergencyAlert -> number)
           (touristId : string) (alertType : EmergencyType) : M unit :=
  try_catch
    (location <- LocationService.getCurrentLocation ;;
     match location with
     | None => Alert_alert "Error" "Unable to get your location. Please try again."
     | Some _ =>
         Emergency.triggerPanicAlert touristId alertType ;;
         Alert_alert "Emergency Alert Sent"
                     "Your emergency alert has been sent successfully. Authorities and your emergency contacts have been notified." ;;
         loadEmergencyHistory created_at touristId
     end)
    (fun error =>
       console_error "Send emergency alert error:" ;;
       Alert_alert "Error"
                   "Failed to send emergency alert. Please try again or call emergency services directly.").

End EmergencyActions.

(** ** screens/RegisterScreen.tsx, continued: the steps of the form *)

Module RegisterSteps.

(** [handleNext]; the result is the new value of [currentStep]. *)
Definition handleNext (currentStep : number) (formData : RegisterScreen.FormData)
           (emergencyContact1 : Supabase.EmergencyContact) : M number :=
  if currentStep =? 1 then
    step1 <- RegisterScreen.validateStep1 formData ;;
    ret (if step1 : bool then 2 else currentStep)
  else if currentStep =? 2 then
    step2 <- RegisterScreen.validateStep2 emergencyContact1 ;;
    ret (if step2 : bool then 3 else currentStep)
  else ret currentStep.

Definition handleBack (currentStep : number) : number :=
  if 1 <? currentStep then currentStep - 1 else currentStep.

End RegisterSteps.

(** ** components/LocationStatus.tsx *)

Module LocationStatus.

(** [formatLastUpdate]; [now] is [Date.now()]. *)
Definition formatLastUpdate (now timestamp : number) : string :=
  let diff := now - timestamp in
  let minutes := diff / 60000 in
  if minutes <? 1 then "Just now"
  else if minutes <? 60 then digits minutes ++ "m ago"
  else
    let hours := minutes / 60 in
    if hours <? 24 then digits hours ++ "h ago"
    else
      let days := hours / 24 in
      digits days ++ "d ago".

End LocationStatus.

(** ** components/NotificationBadge.tsx *)

Module NotificationBadge.

(** What the badge renders for an unread count: nothing, or its text. *)
Definition badge (unreadCount : number) : option string :=
  if unreadCount =? 0 then None
  else Some (if 99 <? unreadCount then "99+" else digits unreadCount).

End NotificationBadge.

(** ** services/blockchain.ts: the document hash

    A document is the sequence of its UTF-16 code units.  [hash << 5] and
    [hash & hash] work on 32-bit signed integers. *)

Module Blockchain.

(** ECMAScript's ToInt32. *)
Definition ToInt32 (z : Z) : Z := (z + 2 ^ 31) mod 2 ^ 32 - 2 ^ 31.

(** The loop of [hashDocument]: [hash] after the code units were folded in. *)
Fixpoint hash_loop (hash : Z) (document : list Z) : Z :=
  match document with
  | [] => hash
  | char :: rest =>
      let hash := ToInt32 (hash * 2 ^ 5) - hash + char in
      let hash := ToInt32 hash in
      hash_loop hash rest
  end.

(** [n.toString(16)] for a non-negative integer. *)
Definition toString16 (n : Z) : string :=
  HexadecimalString.NilZero.string_of_uint (N.to_hex_uint (Z.to_N n)).

Definition hashDocument (document : list Z) : string :=
  toString16 (Z.abs (hash_loop 0 document)).

(** The code units of a string of ASCII characters. *)
Definition charCodes (s : string) : list Z :=
  map (fun c => Z.of_nat (nat_of_ascii c)) (list_ascii_of_string s).

End Blockchain.

(** * What a call may change

    A unary logic for frame properties.  A [view] selects the part of the
    world a property is about; [keeps m] says that whatever the outside
    world answers, and whether [m] returns or throws, the view after [m] is
    related to the view before by a fixed preorder [Rv].  The rules follow
    the structure of the code.  The console, the dialogs, the tracking state
    and the request counters are outside every view used here; the tables and
    the scheduled notifications a relation leaves free to change are
    hypotheses of the inner sections. *)

Section Frame.

Variable V : Type.
Variable view : World -> V.
Variable Rv : V -> V -> Prop.
Hypothesis Rv_refl : forall v, Rv v v.
Hypothesis Rv_trans : forall a b c, Rv a b -> Rv b c -> Rv a c.

Hypothesis view_console : forall f w, view (with_console f w) = view w.
Hypothesis view_dialogs : forall f w, view (with_dialogs f w) = view w.
Hypothesis view_trackingState : forall f w, view (with_trackingState f w) = view w.
Hypothesis view_position_request : forall w, view (next_position_request w) = view w.
Hypothesis view_backend_request : forall w, view (next_backend_request w) = view w.
Hypothesis view_schedule_request : forall w, view (next_schedule_request w) = view w.
Hypothesis view_clock_read : forall w, view (next_clock_read w) = view w.
Hypothesis view_uuid_request : forall w, view (next_uuid_request w) = view w.
Hypothesis view_expo_request : forall w, view (next_expo_request w) = view w.

Definition keeps {A} (m : M A) : Prop :=
  forall env w, Rv (view w) (view (exec m env w)).

Lemma keeps_same {A} (m : M A) :
  (forall env w, view (exec m env w) = view w) -> keeps m.
Proof. intros H env w. rewrite H. apply Rv_refl. Qed.

Lemma keeps_ret {A} (a : A) : keeps (ret a).
Proof. now apply keeps_same. Qed.

Lemma keeps_throw {A} (e : Exn) : keeps (@throw A e).
Proof. now apply keeps_same. Qed.

Lemma keeps_gets {A} (f : World -> A) : keeps (gets f).
Proof. now apply keeps_same. Qed.

Lemma keeps_bind {A B} (m : M A) (k : A -> M B) :
  keeps m -> (forall a, keeps (k a)) -> keeps (bind m k).
Proof.
  intros Hm Hk env w. specialize (Hm env w).
  unfold exec, bind in *. destruct (m env w) as [[a | e] w']; simpl in *.
  - eapply Rv_trans; [exact Hm | apply Hk].
  - exact Hm.
Qed.

Lemma keeps_try_catch {A} (body : M A) (handler : Exn -> M A) :
  keeps body -> (forall e, keeps (handler e)) -> keeps (try_catch body handler).
Proof.
  intros Hb Hh env w. specialize (Hb env w).
  unfold exec, try_catch in *. destruct (body env w) as [[a | e] w']; simpl in *.
  - exact Hb.
  - eapply Rv_trans; [exact Hb | apply Hh].
Qed.

Lemma keeps_modify (f : World -> World) :
  (forall w, view (f w) = view w) -> keeps (modify f).
Proof. intros Hf. apply keeps_same. intros env w. apply Hf. Qed.

Lemma keeps_console_log msg : keeps (console_log msg).
Proof. apply keeps_modify. intros w. apply view_console. Qed.

Lemma keeps_console_warn msg : keeps (console_warn msg).
Proof. apply keeps_modify. intros w. apply view_console. Qed.

Lemma keeps_console_error msg : keeps (console_error msg).
Proof. apply keeps_modify. intros w. apply view_console. Qed.

Lemma keeps_Alert_alert title message : keeps (Alert_alert title message).
Proof. apply keeps_modify. intros w. apply view_dialogs. Qed.

Lemma keeps_tracking f : keeps (modify (with_trackingState f)).
Proof. apply keeps_modify. intros w. apply view_trackingState. Qed.

Lemma keeps_Date_now : keeps Date_now.
Proof. apply keeps_same. intros env w. apply view_clock_read. Qed.

Lemma keeps_toISOString ms : keeps (toISOString ms).
Proof. unfold toISOString. destruct (_ <=? _); [apply keeps_ret | apply keeps_throw]. Qed.

Lemma keeps_request : keeps request.
Proof. apply keeps_same. intros env w. apply view_backend_request. Qed.

Lemma keeps_getCurrentPositionAsync : keeps Location_getCurrentPositionAsync.
Proof.
  apply keeps_same. intros env w. unfold exec, Location_getCurrentPositionAsync.
  destruct (getCurrentPositionAsync env _); apply view_position_request.
Qed.

Lemma keeps_updates_api api : keeps (Location_updates_api api).
Proof.
  apply keeps_same. intros env w. unfold exec, Location_updates_api.
  destruct (updates_api_rejects env _); apply view_expo_request.
Qed.

Lemma keeps_read_latitude c : keeps (read_latitude c).
Proof. destruct c; [apply keeps_ret | apply keeps_throw]. Qed.

Lemma keeps_read_longitude c : keeps (read_longitude c).
Proof. destruct c; [apply keeps_ret | apply keeps_throw]. Qed.

Lemma keeps_ignore {A} (m : M A) : keeps m -> keeps (ignore m).
Proof. intros H. apply keeps_bind; [exact H | intros; apply keeps_ret]. Qed.

(** One step of a frame proof: a rule for the head construct, or a case
    split on the value the code branches on. *)
Ltac frame_step :=
  first
    [ apply keeps_ret | apply keeps_throw | apply keeps_gets
    | apply keeps_console_log | apply keeps_console_warn | apply keeps_console_error
    | apply keeps_Alert_alert | apply keeps_Date_now | apply keeps_toISOString
    | apply keeps_request | apply keeps_getCurrentPositionAsync
    | apply keeps_updates_api | apply keeps_tracking
    | apply keeps_read_latitude | apply keeps_read_longitude
    | apply keeps_ignore
    | apply keeps_bind; [ | intros ? ]
    | apply keeps_try_catch; [ | intros ? ]
    | match goal with
      | |- keeps (match ?x with _ => _ end) => destruct x
      | |- keeps (let _ := _ in _) => cbv zeta
      end
    | assumption ].

Ltac frame := repeat frame_step.

(** *** Queries and the location log *)

Lemma keeps_geofences_select_active : keeps geofences_select_active.
Proof. unfold geofences_select_active. frame. Qed.

Lemma keeps_hazards_select_active : keeps hazards_select_active.
Proof. unfold hazards_select_active. frame. Qed.

Lemma keeps_tourists_select_single id : keeps (tourists_select_single id).
Proof. unfold tourists_select_single. frame. Qed.

Lemma keeps_checkForHazards touristId location :
  keeps (LocationTracking.checkForHazards touristId location).
Proof.
  unfold LocationTracking.checkForHazards.
  apply keeps_try_catch; [ | intros e; apply keeps_console_error ].
  apply keeps_bind; [ apply keeps_geofences_select_active | intros [geofenceError | rows] ].
  - apply keeps_console_error.
  - apply keeps_bind; [ apply keeps_hazards_select_active | intros [hazardError | found] ].
    + apply keeps_console_error.
    + apply keeps_console_log.
Qed.

Lemma keeps_LocationService_getCurrentLocation : keeps LocationService.getCurrentLocation.
Proof. unfold LocationService.getCurrentLocation. frame. Qed.

Lemma keeps_startLocationTracking touristId :
  keeps (LocationTracking.startLocationTracking touristId).
Proof.
  unfold LocationTracking.startLocationTracking, LocationTracking.set_touristId,
    LocationTracking.set_isTracking. frame.
Qed.

Lemma keeps_stopLocationTracking : keeps LocationTracking.stopLocationTracking.
Proof.
  unfold LocationTracking.stopLocationTracking, LocationTracking.set_touristId,
    LocationTracking.set_isTracking, LocationTracking.set_lastLocation. frame.
Qed.

Lemma keeps_LocationTracking_getCurrentLocation : keeps LocationTracking.getCurrentLocation.
Proof.
  unfold LocationTracking.getCurrentLocation, LocationTracking.set_lastLocation. frame.
Qed.

Section LocationLog.

Hypothesis location_logs_free :
  forall f w, Rv (view w) (view (with_database (with_location_logs f) w)).

Lemma keeps_location_logs_insert row : keeps (location_logs_insert row).
Proof.
  unfold location_logs_insert.
  apply keeps_bind; [ apply keeps_request | intros [e | ] ]; [ apply keeps_ret | ].
  apply keeps_bind; [ | intros; apply keeps_ret ].
  intros env w. apply location_logs_free.
Qed.

Lemma keeps_logLocation touristId locationData :
  keeps (LocationService.logLocation touristId locationData).
Proof.
  unfold LocationService.logLocation.
  apply keeps_try_catch; [ | intros e; apply keeps_console_error ].
  apply keeps_bind; [ apply keeps_Date_now | intros now ].
  apply keeps_bind; [ apply keeps_location_logs_insert | intros [e | ] ].
  - apply keeps_console_error.
  - apply keeps_ret.
Qed.

Lemma keeps_logLocationToDatabase touristId location :
  keeps (LocationTracking.logLocationToDatabase touristId location).
Proof.
  unfold LocationTracking.logLocationToDatabase.
  apply keeps_try_catch; [ | intros e; apply keeps_console_error ].
  apply keeps_bind; [ unfold LocationTracking.getBatteryLevel; frame | intros battery ].
  apply keeps_bind; [ unfold LocationTracking.getNetworkType; frame | intros network ].
  apply keeps_bind; [ apply keeps_toISOString | intros iso ].
  apply keeps_bind; [ apply keeps_location_logs_insert | intros [e | ] ].
  - apply keeps_console_error.
  - apply keeps_ret.
Qed.

Lemma keeps_onPosition touristId location :
  keeps (LocationTracking.onPosition touristId location).
Proof.
  unfold LocationTracking.onPosition.
  apply keeps_bind; [ apply keeps_tracking | intros _ ].
  apply keeps_bind; [ apply keeps_logLocationToDatabase | intros _ ].
  apply keeps_checkForHazards.
Qed.

Lemma keeps_backgroundLocationTask data error :
  keeps (LocationTracking.backgroundLocationTask data error).
Proof.
  unfold LocationTracking.backgroundLocationTask.
  destruct error as [e | ]; [ apply keeps_console_error | ].
  destruct data as [locations | ]; [ | apply keeps_ret ].
  apply keeps_bind; [ apply keeps_gets | intros [id | ] ].
  - destruct (hd_error locations) as [location | ]; [ | apply keeps_ret ].
    destruct (String.eqb id ""); [ apply keeps_ret | ].
    apply keeps_bind; [ apply keeps_logLocationToDatabase | intros _ ].
    apply keeps_checkForHazards.
  - destruct (hd_error locations); apply keeps_ret.
Qed.

Lemma keeps_watched_position touristId location :
  keeps (LocationService.onPosition touristId location).
Proof. unfold LocationService.onPosition. apply keeps_logLocation. Qed.

(** *** Alerts, notifications, communications and registration *)

Section OtherTables.

Hypothesis alerts_free :
  forall f g w, Rv (view w) (view (with_database (with_alerts f g) w)).
Hypothesis notifications_free :
  forall f g w, Rv (view w) (view (with_database (with_notifications f g) w)).
Hypothesis communications_free :
  forall f w, Rv (view w) (view (with_database (with_communications f) w)).
Hypothesis scheduled_free :
  forall f w, Rv (view w) (view (with_scheduled f w)).
Hypothesis tourists_registered :
  forall row w, Supabase.safety_score row = 50 ->
                Rv (view w) (view (with_database (with_tourists (fun l => l ++ [row])) w)).

Lemma keeps_scheduleNotificationAsync content trigger :
  keeps (Notifications_scheduleNotificationAsync content trigger).
Proof.
  intros env w. unfold exec, Notifications_scheduleNotificationAsync.
  destruct (scheduleNotificationAsync env _); simpl.
  - eapply Rv_trans; [ | apply scheduled_free ].
    rewrite view_schedule_request. apply Rv_refl.
  - rewrite view_schedule_request. apply Rv_refl.
Qed.

Lemma keeps_alerts_insert a : keeps (alerts_insert a).
Proof.
  unfold alerts_insert.
  apply keeps_bind; [ apply keeps_request | intros [e | ] ]; [ apply keeps_ret | ].
  apply keeps_bind; [ apply keeps_gets | intros id ].
  apply keeps_bind; [ | intros; apply keeps_ret ].
  intros env w. apply alerts_free.
Qed.

Lemma keeps_notifications_insert n : keeps (notifications_insert n).
Proof.
  unfold notifications_insert.
  apply keeps_bind; [ apply keeps_request | intros [e | ] ]; [ apply keeps_ret | ].
  apply keeps_bind; [ apply keeps_gets | intros id ].
  apply keeps_bind; [ | intros; apply keeps_ret ].
  intros env w. apply notifications_free.
Qed.

Lemma keeps_notifications_update st at_time id : keeps (notifications_update st at_time id).
Proof.
  unfold notifications_update.
  apply keeps_bind; [ apply keeps_request | intros [e | ] ]; [ apply keeps_ret | ].
  apply keeps_bind; [ | intros; apply keeps_ret ].
  intros env w. apply notifications_free.
Qed.

Lemma keeps_communications_insert row : keeps (communications_insert row).
Proof.
  unfold communications_insert.
  apply keeps_bind; [ apply keeps_request | intros [e | ] ]; [ apply keeps_ret | ].
  apply keeps_bind; [ | intros; apply keeps_ret ].
  intros env w. apply communications_free.
Qed.

Lemma keeps_tourists_insert touristData :
  (forall id, Supabase.safety_score (touristData id) = 50) ->
  keeps (tourists_insert touristData).
Proof.
  intros Hscore. unfold tourists_insert.
  apply keeps_bind; [ apply keeps_request | intros [e | ] ]; [ apply keeps_ret | ].
  intros env w. unfold exec; simpl.
  eapply Rv_trans; [ | apply tourists_registered, Hscore ].
  rewrite view_uuid_request. apply Rv_refl.
Qed.

Lemma keeps_updateNotificationStatus id st :
  keeps (Notifications.updateNotificationStatus id st).
Proof.
  unfold Notifications.updateNotificationStatus.
  apply keeps_try_catch; [ | intros e; apply keeps_console_error ].
  apply keeps_bind; [ apply keeps_Date_now | intros now ].
  apply keeps_bind; [ apply keeps_notifications_update | intros [e | ] ].
  - apply keeps_console_error.
  - apply keeps_ret.
Qed.

Lemma keeps_sendLocalNotification n : keeps (Notifications.sendLocalNotification n).
Proof.
  unfold Notifications.sendLocalNotification.
  apply keeps_try_catch.
  - apply keeps_bind; [ apply keeps_scheduleNotificationAsync | intros id ].
    apply keeps_bind; [ apply keeps_updateNotificationStatus | intros _; apply keeps_ret ].
  - intros e.
    apply keeps_bind; [ apply keeps_console_error | intros _ ].
    apply keeps_bind; [ apply keeps_updateNotificationStatus | intros _; apply keeps_throw ].
Qed.

Lemma keeps_createSafetyAlert touristId alertType title message priority additionalData :
  keeps (Notifications.createSafetyAlert touristId alertType title message priority
                                         additionalData).
Proof.
  unfold Notifications.createSafetyAlert.
  apply keeps_try_catch;
    [ | intros e; apply keeps_bind; [ apply keeps_console_error | intros _; apply keeps_throw ] ].
  apply keeps_bind; [ apply keeps_LocationService_getCurrentLocation | intros location ].
  apply keeps_bind.
  - destruct location as [location | ]; [ | apply keeps_ret ].
    apply keeps_bind; [ apply keeps_read_latitude | intros lat ].
    apply keeps_bind; [ apply keeps_read_longitude | intros lng; apply keeps_ret ].
  - intros payload_location.
    apply keeps_bind; [ apply keeps_Date_now | intros now ]. cbv zeta.
    apply keeps_bind; [ apply keeps_notifications_insert | intros [e | row] ].
    + apply keeps_throw.
    + apply keeps_bind; [ apply keeps_sendLocalNotification | intros _; apply keeps_ret ].
Qed.

Lemma keeps_for_of {A} (xs : list A) (body : A -> M unit) :
  (forall x, keeps (body x)) -> keeps (Emergency.for_of xs body).
Proof.
  intros Hbody. induction xs as [ | x rest IH ]; simpl.
  - apply keeps_ret.
  - apply keeps_bind; [ apply Hbody | intros _; exact IH ].
Qed.

Lemma keeps_notifyEmergencyContacts tourist alert :
  keeps (Emergency.notifyEmergencyContacts tourist alert).
Proof.
  unfold Emergency.notifyEmergencyContacts.
  apply keeps_try_catch; [ | intros e; apply keeps_console_error ].
  cbv zeta. apply keeps_for_of. intros contact.
  apply keeps_bind; [ apply keeps_console_log | intros _ ].
  apply keeps_bind; [ apply keeps_communications_insert | intros _; apply keeps_ret ].
Qed.

Lemma keeps_notifyAuthorities alert : keeps (Emergency.notifyAuthorities alert).
Proof.
  unfold Emergency.notifyAuthorities.
  apply keeps_try_catch; [ | intros e; apply keeps_console_error ].
  apply keeps_bind; [ apply keeps_console_log | intros _ ].
  apply keeps_bind; [ apply keeps_scheduleNotificationAsync | intros _ ].
  apply keeps_bind; [ apply keeps_communications_insert | intros _; apply keeps_ret ].
Qed.

Lemma keeps_logEmergencyCommunication touristId alertId alert :
  keeps (Emergency.logEmergencyCommunication touristId alertId alert).
Proof.
  unfold Emergency.logEmergencyCommunication.
  apply keeps_try_catch; [ | intros e; apply keeps_console_error ].
  apply keeps_bind; [ apply keeps_communications_insert | intros _; apply keeps_ret ].
Qed.

Lemma keeps_triggerPanicAlert touristId alertType :
  keeps (Emergency.triggerPanicAlert touristId alertType).
Proof.
  unfold Emergency.triggerPanicAlert.
  apply keeps_try_catch;
    [ | intros e; apply keeps_bind; [ apply keeps_console_error | intros _; apply keeps_throw ] ].
  apply keeps_bind; [ apply keeps_LocationService_getCurrentLocation | intros location ].
  destruct location as [location | ]; [ | apply keeps_throw ].
  apply keeps_bind; [ apply keeps_read_latitude | intros latitude ].
  apply keeps_bind; [ apply keeps_read_longitude | intros longitude ].
  apply keeps_bind; [ apply keeps_read_latitude | intros lat ].
  apply keeps_bind; [ apply keeps_read_longitude | intros lng ]. cbv zeta.
  apply keeps_bind; [ apply keeps_alerts_insert | intros [e | alertData] ];
    [ apply keeps_throw | ].
  apply keeps_bind; [ apply keeps_tourists_select_single | intros touristData ].
  apply keeps_bind.
  - destruct touristData; [ apply keeps_console_error | apply keeps_notifyEmergencyContacts ].
  - intros _.
    apply keeps_bind; [ apply keeps_notifyAuthorities | intros _ ].
    apply keeps_bind; [ apply keeps_logEmergencyCommunication | intros _; apply keeps_ret ].
Qed.

Lemma keeps_validateStep1 formData : keeps (RegisterScreen.validateStep1 formData).
Proof. unfold RegisterScreen.validateStep1. frame. Qed.

Lemma keeps_validateStep2 contact : keeps (RegisterScreen.validateStep2 contact).
Proof. unfold RegisterScreen.validateStep2. frame. Qed.

Lemma keeps_handleRegister formData emergencyContact1 emergencyContact2 :
  keeps (RegisterScreen.handleRegister formData emergencyContact1 emergencyContact2).
Proof.
  unfold RegisterScreen.handleRegister.
  apply keeps_bind; [ apply keeps_validateStep1 | intros step1 ].
  destruct (negb step1); [ apply keeps_ret | ].
  apply keeps_bind; [ apply keeps_validateStep2 | intros step2 ].
  destruct (negb step2); [ apply keeps_ret | ].
  apply keeps_try_catch;
    [ | intros e; apply keeps_bind; [ apply keeps_console_error | intros _; apply keeps_Alert_alert ] ].
  apply keeps_bind; [ apply keeps_LocationService_getCurrentLocation | intros location ].
  apply keeps_bind; [ apply keeps_tourists_insert; reflexivity | intros [e | row] ].
  - apply keeps_throw.
  - apply keeps_bind; [ | intros _; apply keeps_Alert_alert ].
    destruct location as [location | ]; [ | apply keeps_ret ].
    apply keeps_bind; [ apply keeps_Date_now | intros now ].
    apply keeps_bind; [ apply keeps_location_logs_insert | intros _; apply keeps_ret ].
Qed.

(** Every event of the application keeps the relation. *)
Lemma keeps_handle e : keeps (handle e).
Proof.
  destruct e; simpl.
  - apply keeps_handleRegister.
  - apply keeps_ignore, keeps_startLocationTracking.
  - apply keeps_stopLocationTracking.
  - apply keeps_onPosition.
  - apply keeps_backgroundLocationTask.
  - apply keeps_watched_position.
  - apply keeps_ignore, keeps_LocationTracking_getCurrentLocation.
  - apply keeps_ignore, keeps_triggerPanicAlert.
  - unfold Notifications.createGeofenceAlert. apply keeps_ignore, keeps_createSafetyAlert.
  - unfold Notifications.createHazardAlert. apply keeps_ignore, keeps_createSafetyAlert.
  - unfold Notifications.createWeatherAlert. apply keeps_ignore, keeps_createSafetyAlert.
Qed.

Lemma keeps_run_events env events w :
  Rv (view w) (view (run_events env events w)).
Proof.
  revert w. induction events as [ | e rest IH ]; intros w; simpl.
  - apply Rv_refl.
  - eapply Rv_trans; [ apply keeps_handle | apply IH ].
Qed.

End OtherTables.

End LocationLog.

End Frame.

(** * The safety score *)

(** The only writer of [safety_score] is registration, which stores 50:
    between two states of the backend the [tourists] table grows by rows
    with that score and keeps the rows it had. *)
Definition tourists_grow (before after : list Supabase.Tourist) : Prop :=
  exists added,
    after = before ++ added
    /\ Forall (fun t => Supabase.safety_score t = 50) added.

Definition within_bounds (score : number) : Prop := 0 <= score <= 100.

Definition scores_within_bounds (w : World) : Prop :=
  Forall (fun t => within_bounds (Supabase.safety_score t)) (tourists (database w)).

Lemma tourists_grow_refl l : tourists_grow l l.
Proof. exists []. split; [ now rewrite app_nil_r | constructor ]. Qed.

Lemma tourists_grow_trans a b c :
  tourists_grow a b -> tourists_grow b c -> tourists_grow a c.
Proof.
  intros [added1 [E1 F1]] [added2 [E2 F2]]. exists (added1 ++ added2). split.
  - rewrite E2, E1. now rewrite app_assoc.
  - apply Forall_app. now split.
Qed.

Lemma events_grow_tourists env events w :
  tourists_grow (tourists (database w)) (tourists (database (run_events env events w))).
Proof.
  apply (keeps_run_events _ (fun w => tourists (database w)) tourists_grow);
    try reflexivity; try (intros; apply tourists_grow_refl).
  - exact tourists_grow_trans.
  - intros row w' Hrow. exists [row]. split; [ reflexivity | now constructor ].
Qed.

Lemma find_app_found {A} (p : A -> bool) (l added : list A) (x : A) :
  find p l = Some x -> find p (l ++ added) = Some x.
Proof.
  induction l as [ | y l IH ]; simpl; [ discriminate | ].
  destruct (p y); [ trivial | exact IH ].
Qed.

(** A stored score never changes. *)
Lemma events_keep_score env events w touristId score :
  score_of touristId w = Some score ->
  score_of touristId (run_events env events w) = Some score.
Proof.
  unfold score_of. intros H.
  destruct (events_grow_tourists env events w) as [added [E _]]. rewrite E.
  destruct (find _ (tourists (database w))) as [t | ] eqn:F; [ | discriminate ].
  now rewrite (find_app_found _ _ added t F).
Qed.

(** The score displayed by the home screen. *)
Lemma home_screen_score_within_bounds : within_bounds HomeScreen.safetyScore.
Proof. unfold within_bounds, HomeScreen.safetyScore. lia. Qed.

(** ** Fixtures: a device and a backend that answer without failure *)

Definition guwahati : Location.LocationObject :=
  Location.mkLocationObject
    (Location.mkCoords 26200000 91700000 (Some 55000000) (Some 5000000) None)
    1700000000000.

Definition env_online : Env :=
  mkEnv (fun _ => Some guwahati)
        (fun _ => None)
        (fun n => Some ("local-" ++ digits (Z.of_nat n))%string)
        (fun n => 1700000000000 + 1000 * Z.of_nat n)
        (fun n => ("tourist-" ++ digits (Z.of_nat n))%string)
        (fun _ => false).

(** The same device without a position fix: every position request
    rejects.  The alert constructors store a row on such a device only:
    with a position they throw before the insert (see
    [Notifications.createSafetyAlert]). *)
Definition env_no_position : Env :=
  mkEnv (fun _ => None)
        (backend_error env_online)
        (scheduleNotificationAsync env_online)
        (wall_clock env_online)
        (gen_random_uuid env_online)
        (updates_api_rejects env_online).

Definition a_form : RegisterScreen.FormData :=
  RegisterScreen.mkFormData "Asha Rao" "+91 9876543210" "asha@example.com" "Indian"
                            "" "" "Guwahati Airport" "Tourism" "" "" "O+".

Definition a_contact : Supabase.EmergencyContact :=
  Supabase.mkContact "Ravi Rao" "+91 9876500000" "Sibling".

Definition no_contact : Supabase.EmergencyContact := Supabase.mkContact "" "" "".

(** The backend after one tourist has registered. *)
Definition registered_world : World :=
  run_events env_online [Register a_form a_contact no_contact] initial_world.

(** A restricted zone of the highest risk level, and a backend that holds
    it. *)
Definition restricted_zone : Supabase.Geofence :=
  Supabase.mkGeofence 1 "Deepor Beel core" "restricted" 26180000 91740000 5 true.

Definition zone_world : World :=
  with_database
    (fun d => mkDatabase (tourists d) (location_logs d) [restricted_zone] (hazards d)
                         (alerts d) (alerts_seq d) (notifications d)
                         (notifications_seq d) (communications d))
    registered_world.

Definition fix_outside : Location.LocationObject :=
  Location.mkLocationObject (Location.mkCoords 26200000 91700000 None (Some 5000000) None)
                            1700000030000.

Definition fix_at_centre : Location.LocationObject :=
  Location.mkLocationObject (Location.mkCoords 26180000 91740000 None (Some 5000000) None)
                            1700000060000.

(** A day of a registered tourist: tracking starts, fixes arrive in the
    foreground and in the background, alerts are raised. *)
Definition a_day : list Event :=
  [ Register a_form a_contact no_contact;
    StartTracking "tourist-0";
    ForegroundFix "tourist-0" guwahati;
    BackgroundTask (Some [guwahati]) None;
    WatchedFix "tourist-0" guwahati;
    GeofenceAlert "tourist-0" "Kaziranga core" "restricted" entered;
    PanicAlert "tourist-0" panic;
    StopTracking ].

(** C1. For every tourist and every sequence of events of the application
    (registrations, processed location fixes, alerts), the stored safety
    score is an integer within [0,100] after each event whenever it was
    before: the rows of the table keep their score, and a tourist enters
    the table at registration with the initial score 50. *)
Theorem safety_score_stays_within_bounds env events w :
  scores_within_bounds w ->
  scores_within_bounds (run_events env events w)
  /\ tourists_grow (tourists (database w))
                   (tourists (database (run_events env events w))).
Proof.
  unfold scores_within_bounds. intros Hbefore.
  pose proof (events_grow_tourists env events w) as Hgrow.
  split; [ | exact Hgrow ].
  destruct Hgrow as [added [E Hadded]].
  rewrite E. apply Forall_app. split; [ exact Hbefore | ].
  eapply Forall_impl; [ | exact Hadded ].
  intros t Ht. unfold within_bounds. rewrite Ht. lia.
Qed.

Lemma safety_score_stays_within_bounds_witness :
  scores_within_bounds initial_world
  /\ scores_within_bounds (run_events env_online a_day initial_world)
  /\ map Supabase.safety_score
         (tourists (database (run_events env_online a_day initial_world))) = [50].
Proof.
  assert (H : scores_within_bounds initial_world) by constructor.
  split; [ exact H | ].
  split; [ exact (proj1 (safety_score_stays_within_bounds env_online a_day initial_world H)) | ].
  vm_compute. reflexivity.
Defined.

(** The score of every tourist registered since the application started
    is the registration value. *)
Lemma registered_score_is_initial env events t :
  In t (tourists (database (run_events env events initial_world))) ->
  Supabase.safety_score t = 50.
Proof.
  destruct (events_grow_tourists env events initial_world) as [added [E Hadded]].
  rewrite E. simpl. intros Hin. rewrite Forall_forall in Hadded. now apply Hadded.
Qed.

(** ** The step of the score *)

Module ScoreSpec.

(** The update as the specification words it: the score moves toward a
    target value by a step of at most [max_step]. *)
Definition step_toward (max_step target score : number) : number :=
  if score <? target then Z.min target (score + max_step)
  else Z.max target (score - max_step).

End ScoreSpec.

(** C6, as stated, fails: the scenario of the specification.  A registered
    tourist, score 50, outside every zone moves to the centre of an active
    restricted zone of risk level 5.  Both fixes are processed and the score
    is 50 after each: it has not moved toward a lower target, by any step. *)
Lemma score_does_not_move_toward_target :
  let w1 := exec (LocationTracking.onPosition "tourist-0" fix_outside) env_online zone_world in
  let w2 := exec (LocationTracking.onPosition "tourist-0" fix_at_centre) env_online w1 in
  Supabase.risk_level restricted_zone = 5
  /\ score_of "tourist-0" zone_world = Some 50
  /\ score_of "tourist-0" w1 = Some 50
  /\ score_of "tourist-0" w2 = Some 50
  /\ forall target max_step,
       target < 50 -> 0 < max_step ->
       score_of "tourist-0" w2 <> Some (ScoreSpec.step_toward max_step target 50).
Proof.
  intros w1 w2.
  assert (Hafter : score_of "tourist-0" w2 = Some 50) by (vm_compute; reflexivity).
  split; [ reflexivity | ]. split; [ vm_compute; reflexivity | ].
  split; [ vm_compute; reflexivity | ]. split; [ exact Hafter | ].
  intros target max_step Htarget Hstep. rewrite Hafter. intros [= Hmoved].
  unfold ScoreSpec.step_toward in Hmoved.
  destruct (50 <? target) eqn:Hbelow; [ apply Z.ltb_lt in Hbelow | ]; lia.
Qed.

(** C6, amended.  For every single event of the application, a processed
    location fix in particular, the stored safety score of a tourist after
    the event is the score before it: the difference is 0, within every
    configured non-negative maximum step.  No target is computed and the
    score does not move toward one. *)
Theorem no_update_moves_the_score env e w touristId before :
  score_of touristId w = Some before ->
  exists after,
    score_of touristId (exec (handle e) env w) = Some after
    /\ after = before
    /\ forall max_step, 0 <= max_step -> Z.abs (after - before) <= max_step.
Proof.
  intros Hbefore. exists before.
  pose proof (events_keep_score env [e] w touristId before Hbefore) as Hkept.
  simpl in Hkept. split; [ exact Hkept | ]. split; [ reflexivity | ].
  intros max_step Hstep. rewrite Z.sub_diag. simpl. exact Hstep.
Qed.

Lemma no_update_moves_the_score_witness :
  score_of "tourist-0" zone_world = Some 50
  /\ score_of "tourist-0"
              (exec (handle (ForegroundFix "tourist-0" fix_at_centre)) env_online zone_world)
     = Some 50.
Proof.
  assert (Hbefore : score_of "tourist-0" zone_world = Some 50)
    by (vm_compute; reflexivity).
  split; [ exact Hbefore | ].
  destruct (no_update_moves_the_score env_online (ForegroundFix "tourist-0" fix_at_centre)
              zone_world "tourist-0" 50 Hbefore) as [after [Hafter [Hsame _]]].
  rewrite Hafter, Hsame. reflexivity.
Defined.

(** * Alerts raised while fixes are processed *)

(** What the alerting services produce: alert rows, notification rows, and
    local notifications handed to the scheduler. *)
Definition produced_alerts (w : World)
  : list EmergencyAlert * list NotificationData
    * list (NotificationContent * option number) :=
  (alerts (database w), notifications (database w), scheduled w).

Lemma onPosition_raises_nothing env w touristId location :
  produced_alerts (exec (LocationTracking.onPosition touristId location) env w)
  = produced_alerts w.
Proof.
  symmetry. apply (keeps_onPosition _ produced_alerts eq); try reflexivity.
  intros a b c -> ->. reflexivity.
Qed.

Lemma backgroundLocationTask_raises_nothing env w data error :
  produced_alerts (exec (LocationTracking.backgroundLocationTask data error) env w)
  = produced_alerts w.
Proof.
  symmetry. apply (keeps_backgroundLocationTask _ produced_alerts eq); try reflexivity.
  intros a b c -> ->. reflexivity.
Qed.

Lemma watched_position_raises_nothing env w touristId location :
  produced_alerts (exec (LocationService.onPosition touristId location) env w)
  = produced_alerts w.
Proof.
  symmetry. apply (keeps_watched_position _ produced_alerts eq); try reflexivity.
  intros a b c -> ->. reflexivity.
Qed.

(** C2, as stated, fails: a tourist outside every zone moves to the centre
    of an active zone of category "restricted" and risk level 5; both fixes
    are processed and no alert of any kind is produced. *)
Lemma restricted_entry_raises_no_alert :
  let w1 := exec (LocationTracking.onPosition "tourist-0" fix_outside) env_online zone_world in
  let w2 := exec (LocationTracking.onPosition "tourist-0" fix_at_centre) env_online w1 in
  filter Supabase.geofence_active (geofences (database w1)) = [restricted_zone]
  /\ Supabase.geofence_type restricted_zone = "restricted"
  /\ Supabase.risk_level restricted_zone = 5
  /\ Location.latitude (Location.coords fix_at_centre)
     = Supabase.geofence_center_lat restricted_zone
  /\ Location.longitude (Location.coords fix_at_centre)
     = Supabase.geofence_center_lng restricted_zone
  /\ map Supabase.log_timestamp (location_logs (database w2))
     = map Supabase.log_timestamp (location_logs (database zone_world))
         ++ [Location.timestamp fix_outside; Location.timestamp fix_at_centre]
  /\ produced_alerts w2 = ([], [], []).
Proof. vm_compute. repeat split. Qed.

(** C2, amended.  No processed location fix produces an alert, whatever
    zones are active and whatever their risk level or category (so entry
    into a "safe" zone produces none either): on every path that delivers a
    fix, the alert rows, the notification rows and the scheduled local
    notifications are the same after processing as before. *)
Theorem fix_processing_raises_no_alert env w touristId location data error :
  produced_alerts (exec (LocationTracking.onPosition touristId location) env w)
  = produced_alerts w
  /\ produced_alerts (exec (LocationTracking.backgroundLocationTask data error) env w)
     = produced_alerts w
  /\ produced_alerts (exec (LocationService.onPosition touristId location) env w)
     = produced_alerts w.
Proof.
  split; [ apply onPosition_raises_nothing | ].
  split; [ apply backgroundLocationTask_raises_nothing | ].
  apply watched_position_raises_nothing.
Qed.

(** * The alert constructors of the notification service *)

(** Symbolic execution of a call: unfold the services down to the
    primitive effects, then split on each answer of the outside world in
    the order the code asks for it. *)
Ltac unfold_alert_calls :=
  unfold exec, outcome,
    Notifications.createGeofenceAlert, Notifications.createHazardAlert,
    Notifications.createWeatherAlert, Notifications.createSafetyAlert,
    Notifications.sendLocalNotification, Notifications.updateNotificationStatus,
    LocationService.getCurrentLocation, LocationService.coords,
    read_latitude, read_longitude, notifications_insert, notifications_update,
    Location_getCurrentPositionAsync, Notifications_scheduleNotificationAsync,
    Date_now, request, console_error, console_log, modify, gets,
    try_catch, bind, ret, throw.

Ltac ask_env :=
  match goal with
  | |- context [getCurrentPositionAsync ?e ?n] =>
      destruct (getCurrentPositionAsync e n) eqn:?
  | |- context [backend_error ?e ?n] =>
      destruct (backend_error e n) eqn:?
  | |- context [scheduleNotificationAsync ?e ?n] =>
      destruct (scheduleNotificationAsync e n) eqn:?
  end; cbn.

(** The row [createSafetyAlert] builds and stores. *)
Definition stored_notification (env : Env) (w : World) (touristId : string)
           (alertType : NotificationType) (title message : string)
           (priority : Priority) (additionalData : AdditionalData) : NotificationData :=
  {|
    notification_id := Some (notifications_seq (database w));
    notif_tourist_id := touristId;
    notif_type := alertType;
    notif_title := title;
    notif_message := message;
    notif_priority := priority;
    notif_data := Some {|
      additionalData := additionalData;
      payload_location := None;
      payload_timestamp := wall_clock env (clock_reads w)
    |};
    scheduled_for := None;
    sent_at := None;
    notif_status := pending
  |}.

(** The status update that follows a successful scheduling, if the backend
    accepts it. *)
Definition mark_sent (env : Env) (w : World) (n : NotificationData) : NotificationData :=
  match scheduleNotificationAsync env (schedule_requests w) with
  | Some id =>
      if id_eq id n then with_status sent (wall_clock env (S (clock_reads w))) n else n
  | None => n
  end.

(** When [createSafetyAlert] returns, it has stored its row behind the rows
    that were there, whatever they are; the only later change is the
    status update. *)
Lemma createSafetyAlert_returns env w touristId alertType title message priority
      additionalData data :
  outcome (Notifications.createSafetyAlert touristId alertType title message priority
                                           additionalData) env w = Returned data ->
  let row := stored_notification env w touristId alertType title message priority
                                 additionalData in
  let after := notifications (database
                 (exec (Notifications.createSafetyAlert touristId alertType title message
                                                        priority additionalData) env w)) in
  data = row
  /\ (after = notifications (database w) ++ [row]
      \/ after = map (mark_sent env w) (notifications (database w) ++ [row])).
Proof.
  unfold stored_notification, mark_sent. unfold_alert_calls. cbn.
  repeat ask_env; try discriminate; intros [= <-]; split; try reflexivity.
  - now left.
  - now right.
Qed.

(** ** Duplicates *)

Definition Action_eqb (a b : Action) : bool :=
  match a, b with
  | entered, entered | exited, exited => true
  | _, _ => false
  end.

(** The dedup key of a stored zone notification: tourist, zone and
    transition. *)
Definition has_key (touristId zone : string) (transition : Action)
           (n : NotificationData) : bool :=
  String.eqb (notif_tourist_id n) touristId
  && match notif_data n with
     | Some payload =>
         match additionalData payload with
         | GeofenceData geofenceName _ action =>
             String.eqb geofenceName zone && Action_eqb action transition
         | _ => false
         end
     | None => false
     end.

(** The stored zone notifications with a given key.  A notification is
    pending, sent, failed or read: it has no resolved state, so all of them
    are unresolved. *)
Definition unresolved (touristId zone : string) (transition : Action) (w : World)
  : list NotificationData :=
  filter (has_key touristId zone transition) (notifications (database w)).

Lemma has_key_mark_sent env w touristId zone transition n :
  has_key touristId zone transition (mark_sent env w n)
  = has_key touristId zone transition n.
Proof.
  unfold mark_sent. destruct (scheduleNotificationAsync env _); [ | reflexivity ].
  destruct (id_eq _ n); reflexivity.
Qed.

Lemma filter_map_length {A} (p : A -> bool) (g : A -> A) (l : list A) :
  (forall x, p (g x) = p x) ->
  List.length (filter p (map g l)) = List.length (filter p l).
Proof.
  intros Hg. induction l as [ | x l IH ]; simpl; [ reflexivity | ].
  rewrite Hg. destruct (p x); simpl; now rewrite IH.
Qed.

Lemma Action_eqb_refl a : Action_eqb a a = true.
Proof. destruct a; reflexivity. Qed.

Lemma stored_notification_has_key env w touristId alertType title message priority
      geofenceName geofenceType action :
  has_key touristId geofenceName action
          (stored_notification env w touristId alertType title message priority
                               (GeofenceData geofenceName geofenceType action)) = true.
Proof.
  unfold has_key, stored_notification; simpl.
  now rewrite !String.eqb_refl, Action_eqb_refl.
Qed.

(** C3, as stated, fails: the same zone entry is reported twice for the
    same tourist; the second call finds the first notification stored and
    unresolved, and stores a second one with the same key. *)
Lemma duplicate_alerts_are_stored :
  let raise := Notifications.createGeofenceAlert "tourist-0" "Deepor Beel core"
                                                 "restricted" entered in
  let w1 := exec raise env_no_position zone_world in
  let w2 := exec raise env_no_position w1 in
  map notif_status (unresolved "tourist-0" "Deepor Beel core" entered w1) = [pending]
  /\ map notif_status (unresolved "tourist-0" "Deepor Beel core" entered w2)
     = [pending; pending]
  /\ map notification_id (unresolved "tourist-0" "Deepor Beel core" entered w2)
     = [Some 1; Some 2].
Proof. vm_compute. repeat split. Qed.

(** C3, amended.  The notification service keeps no dedup key and makes no
    duplicate check: whenever [createGeofenceAlert] returns, the number of
    stored, unresolved notifications for its (tourist, zone, transition)
    grew by one, however many were already stored. *)
Theorem alerts_are_not_deduplicated env w touristId geofenceName geofenceType action data :
  outcome (Notifications.createGeofenceAlert touristId geofenceName geofenceType action)
          env w = Returned data ->
  List.length
    (unresolved touristId geofenceName action
       (exec (Notifications.createGeofenceAlert touristId geofenceName geofenceType action)
             env w))
  = S (List.length (unresolved touristId geofenceName action w)).
Proof.
  intros Hret. unfold Notifications.createGeofenceAlert in *.
  destruct (createSafetyAlert_returns _ _ _ _ _ _ _ _ _ Hret) as [_ Hafter].
  cbv zeta in Hafter. unfold unresolved.
  destruct Hafter as [-> | ->].
  - rewrite filter_app, length_app. simpl filter at 2.
    rewrite stored_notification_has_key. simpl. lia.
  - rewrite filter_map_length by apply has_key_mark_sent.
    rewrite filter_app, length_app. simpl filter at 2.
    rewrite stored_notification_has_key. simpl. lia.
Qed.

Lemma alerts_are_not_deduplicated_witness :
  let raise := Notifications.createGeofenceAlert "tourist-0" "Deepor Beel core"
                                                 "restricted" entered in
  let w1 := exec raise env_no_position zone_world in
  List.length (unresolved "tourist-0" "Deepor Beel core" entered w1) = 1%nat
  /\ List.length (unresolved "tourist-0" "Deepor Beel core" entered
                    (exec raise env_no_position w1)) = 2%nat.
Proof.
  intros raise w1.
  assert (H1 : List.length (unresolved "tourist-0" "Deepor Beel core" entered w1) = 1%nat)
    by (vm_compute; reflexivity).
  split; [ exact H1 | ].
  refine (eq_trans
            (alerts_are_not_deduplicated env_no_position w1 "tourist-0" "Deepor Beel core"
               "restricted" entered
               (stored_notification env_no_position w1 "tourist-0" geofence "Geofence Entry"
                  "You have entered Deepor Beel core (restricted zone)" high
                  (GeofenceData "Deepor Beel core" "restricted" entered)) _)
            (f_equal S H1)).
  vm_compute. reflexivity.
Defined.

(** ** Severity *)

Module Spec.

(** The mapping as the specification words it: risk level 5 is critical, 4
    is high, 3 is medium, 2 or below raises no alert. *)
Definition severity_of_risk_level (risk_level : number) : option Severity :=
  if risk_level =? 5 then Some sev_critical
  else if risk_level =? 4 then Some sev_high
  else if risk_level =? 3 then Some sev_medium
  else None.

(** A stored priority that stands for a severity: the two scales, step by
    step. *)
Definition stands_for (p : Priority) (s : Severity) : bool :=
  match p, s with
  | critical, sev_critical | high, sev_high | normal, sev_medium | low, sev_low => true
  | _, _ => false
  end.

End Spec.

Definition tourist_zone : Supabase.Geofence :=
  Supabase.mkGeofence 2 "Fancy Bazaar" "tourist_zone" 26185000 91745000 2 true.

(** The call a caller holding a zone row makes: the alert constructor takes
    the zone's name and type, and has no parameter for its risk level. *)
Definition alert_for_zone (touristId : string) (zone : Supabase.Geofence)
           (action : Action) : M NotificationData :=
  Notifications.createGeofenceAlert touristId (Supabase.geofence_name zone)
                                    (Supabase.geofence_type zone) action.

(** C5, as stated, fails: the alert for entering a zone of risk level 5 is
    stored with priority high, where the mapping asks for critical; and
    leaving a zone of risk level 2 raises an alert, where the mapping asks
    for none. *)
Lemma risk_level_does_not_set_severity :
  (exists data,
      outcome (alert_for_zone "tourist-0" restricted_zone entered) env_no_position zone_world
      = Returned data
      /\ notif_priority data = high
      /\ Spec.severity_of_risk_level (Supabase.risk_level restricted_zone)
         = Some sev_critical
      /\ Spec.stands_for (notif_priority data) sev_critical = false)
  /\ (exists data,
         outcome (alert_for_zone "tourist-0" tourist_zone exited) env_no_position zone_world
         = Returned data
         /\ notif_priority data = normal
         /\ Spec.severity_of_risk_level (Supabase.risk_level tourist_zone) = None).
Proof.
  split; eexists; (split; [ vm_compute; reflexivity | ]); repeat split.
Qed.

(** The constructor does not look at the category either: called for a
    zone of type "safe", it stores a notification of priority normal. *)
Lemma safe_zone_alert_is_stored :
  let raise := Notifications.createGeofenceAlert "tourist-0" "Assam State Zoo" "safe" entered in
  map (fun n => (notif_type n, notif_priority n, notif_status n))
      (notifications (database (exec raise env_no_position zone_world)))
  = [(geofence, normal, pending)].
Proof. vm_compute. reflexivity. Qed.

(** An alert constructor returns, with its notification stored and
    scheduled, exactly when the device has no position (see
    [Notifications.createSafetyAlert]), the backend accepts the insert and
    the scheduler accepts the notification.  Neither a type nor a level nor
    a severity is among these conditions. *)
Definition goes_out (env : Env) (w : World) : Prop :=
  getCurrentPositionAsync env (position_requests w) = None
  /\ backend_error env (backend_requests w) = None
  /\ scheduleNotificationAsync env (schedule_requests w) <> None.

Lemma createSafetyAlert_goes_out env w touristId alertType title message priority
      additionalData :
  let raise := Notifications.createSafetyAlert touristId alertType title message priority
                                               additionalData in
  ((exists data, outcome raise env w = Returned data) <-> goes_out env w)
  /\ (forall data,
        outcome raise env w = Returned data ->
        notif_priority data = priority
        /\ List.length (notifications (database (exec raise env w)))
           = S (List.length (notifications (database w)))
        /\ List.length (scheduled (exec raise env w)) = S (List.length (scheduled w))).
Proof.
  unfold goes_out. unfold_alert_calls. cbn.
  repeat ask_env;
    (split;
     [ split;
       [ intros [data Hdata]; try discriminate; repeat split; discriminate
       | intros [Hposition [Hinsert Hscheduler]]; try discriminate;
         try (now contradiction Hscheduler); eexists; reflexivity ]
     | intros data Hdata; try discriminate; injection Hdata as <-;
       repeat split; rewrite ?length_map, ?length_app; simpl; lia ]).
Qed.

(** C5, amended.  The priority of a dispatched zone alert is set from the
    zone's type alone, never from its risk level: "restricted" gives high,
    every other type gives normal, on entry and on exit; a hazard alert maps
    the hazard's severity "high" to critical, "medium" to high and anything
    else to normal.  No level or severity suppresses the alert: whether the
    constructor returns, with one more notification stored and one more
    scheduled, depends on the answers of the device, the backend and the
    scheduler only. *)
Theorem alert_priority_follows_type env w touristId zone action
        hazardTitle hazardType severity distance :
  let zone_alert := alert_for_zone touristId zone action in
  let hazard_alert :=
    Notifications.createHazardAlert touristId hazardTitle hazardType severity distance in
  ((exists data, outcome zone_alert env w = Returned data) <-> goes_out env w)
  /\ ((exists data, outcome hazard_alert env w = Returned data) <-> goes_out env w)
  /\ (forall data,
        outcome zone_alert env w = Returned data ->
        notif_priority data
        = (if String.eqb (Supabase.geofence_type zone) "restricted" then high else normal)
        /\ List.length (notifications (database (exec zone_alert env w)))
           = S (List.length (notifications (database w)))
        /\ List.length (scheduled (exec zone_alert env w)) = S (List.length (scheduled w)))
  /\ (forall data,
        outcome hazard_alert env w = Returned data ->
        notif_priority data
        = (if String.eqb severity "high" then critical
           else if String.eqb severity "medium" then high
           else normal)
        /\ List.length (notifications (database (exec hazard_alert env w)))
           = S (List.length (notifications (database w)))
        /\ List.length (scheduled (exec hazard_alert env w)) = S (List.length (scheduled w))).
Proof.
  cbv zeta. unfold alert_for_zone, Notifications.createGeofenceAlert,
    Notifications.createHazardAlert.
  split; [ apply createSafetyAlert_goes_out | ].
  split; [ apply createSafetyAlert_goes_out | ].
  split; apply createSafetyAlert_goes_out.
Qed.

(** Leaving a zone of risk level 2 and a hazard of severity "low" raise
    their alerts, both with priority normal; entering the restricted zone of
    risk level 5 raises one with priority high. *)
Lemma alert_priority_follows_type_witness :
  goes_out env_no_position zone_world
  /\ Supabase.risk_level tourist_zone = 2
  /\ (exists data,
        outcome (alert_for_zone "tourist-0" tourist_zone exited) env_no_position zone_world
        = Returned data
        /\ notif_priority data = normal
        /\ List.length (notifications (database
               (exec (alert_for_zone "tourist-0" tourist_zone exited)
                     env_no_position zone_world))) = 1%nat)
  /\ (exists data,
        outcome (Notifications.createHazardAlert "tourist-0" "Loose gravel" "road" "low"
                                                 3500000) env_no_position zone_world
        = Returned data
        /\ notif_priority data = normal)
  /\ (exists data,
        outcome (alert_for_zone "tourist-0" restricted_zone entered) env_no_position zone_world
        = Returned data
        /\ notif_priority data = high).
Proof.
  assert (Hout : goes_out env_no_position zone_world).
  { split; [ reflexivity | ]. split; [ reflexivity | ]. discriminate. }
  split; [ exact Hout | ]. split; [ reflexivity | ].
  destruct (alert_priority_follows_type env_no_position zone_world "tourist-0" tourist_zone
              exited "Loose gravel" "road" "low" 3500000)
    as [Hzone [Hhazard [Hzone_priority Hhazard_priority]]].
  destruct (proj2 Hzone Hout) as [data Hdata].
  destruct (proj2 Hhazard Hout) as [data' Hdata'].
  destruct (alert_priority_follows_type env_no_position zone_world "tourist-0"
              restricted_zone entered "Loose gravel" "road" "low" 3500000)
    as [Hrestricted [_ [Hrestricted_priority _]]].
  destruct (proj2 Hrestricted Hout) as [data'' Hdata''].
  split; [ | split ].
  - exists data. split; [ exact Hdata | ].
    destruct (Hzone_priority data Hdata) as [Hpriority [Hstored _]].
    split; [ exact Hpriority | exact Hstored ].
  - exists data'. split; [ exact Hdata' | ].
    exact (proj1 (Hhazard_priority data' Hdata')).
  - exists data''. split; [ exact Hdata'' | ].
    exact (proj1 (Hrestricted_priority data'' Hdata'')).
Defined.

(** * Ordering and resubmission of fixes *)

(** The row [logLocationToDatabase] stores for a fix. *)
Definition logged_fix (touristId : string) (location : Location.LocationObject)
  : Supabase.LocationLog :=
  {|
    Supabase.log_tourist_id := touristId;
    Supabase.log_latitude := Location.latitude (Location.coords location);
    Supabase.log_longitude := Location.longitude (Location.coords location);
    Supabase.log_altitude := Location.altitude (Location.coords location);
    Supabase.log_accuracy := Location.accuracy (Location.coords location);
    Supabase.log_speed := Location.speed (Location.coords location);
    Supabase.log_battery_level := None;
    Supabase.log_network_type := None;
    Supabase.log_timestamp := Location.timestamp location
  |}.

(** The row [logLocation] stores for a reading submitted at [now]. *)
Definition logged_reading (touristId : string) (locationData : LocationService.LocationData)
           (now : number) : Supabase.LocationLog :=
  {|
    Supabase.log_tourist_id := touristId;
    Supabase.log_latitude := LocationService.latitude locationData;
    Supabase.log_longitude := LocationService.longitude locationData;
    Supabase.log_altitude := LocationService.altitude locationData;
    Supabase.log_accuracy := LocationService.accuracy locationData;
    Supabase.log_speed := LocationService.speed locationData;
    Supabase.log_battery_level := None;
    Supabase.log_network_type := None;
    Supabase.log_timestamp := now
  |}.

Ltac unfold_fix_calls :=
  unfold exec, outcome,
    LocationTracking.onPosition, LocationTracking.logLocationToDatabase,
    LocationTracking.checkForHazards, LocationTracking.set_lastLocation,
    LocationTracking.getBatteryLevel, LocationTracking.getNetworkType,
    LocationService.onPosition, LocationService.logLocation,
    location_logs_insert, geofences_select_active, hazards_select_active,
    toISOString, Date_now, request, console_error, console_log, modify, gets,
    try_catch, bind, ret, throw.

(** C4, as stated, fails: two fixes with timestamps T1 < T2 arrive in
    reverse order.  The earlier one, processed last, is stored and replaces
    the last known location; nothing is rejected or logged as stale. *)
Lemma stale_fix_is_processed :
  let w2 := exec (LocationTracking.onPosition "tourist-0" fix_at_centre) env_online zone_world in
  let w1 := exec (LocationTracking.onPosition "tourist-0" fix_outside) env_online w2 in
  Location.timestamp fix_outside < Location.timestamp fix_at_centre
  /\ lastLocation (trackingState w2) = Some fix_at_centre
  /\ lastLocation (trackingState w1) = Some fix_outside
  /\ location_logs (database w1)
     = location_logs (database w2) ++ [logged_fix "tourist-0" fix_outside]
  /\ console w1
     = console w2 ++ [(LOG, "Hazard check completed for location: 26.2, 91.7")].
Proof. vm_compute. repeat split. Qed.

(** C4, amended.  No ordering of timestamps is enforced: every fix
    delivered to the tracking callback, whatever its timestamp and whatever
    was processed before, replaces the last known location, and is appended
    to the location log when its timestamp is a valid time value and the
    insert succeeds.  The state that survives is that of the fix processed
    last, not of the fix with the latest timestamp. *)
Theorem every_fix_is_processed env w touristId location :
  let w' := exec (LocationTracking.onPosition touristId location) env w in
  lastLocation (trackingState w') = Some location
  /\ (forall previous,
        lastLocation (trackingState
          (exec (LocationTracking.onPosition touristId location) env
                (exec (LocationTracking.onPosition touristId previous) env w)))
        = Some location)
  /\ (Z.abs (Location.timestamp location) <= 8640000000000000 ->
      backend_error env (backend_requests w) = None ->
      location_logs (database w')
      = location_logs (database w) ++ [logged_fix touristId location]).
Proof.
  assert (Hlast : forall w0,
             lastLocation (trackingState
               (exec (LocationTracking.onPosition touristId location) env w0))
             = Some location).
  { intros w0. unfold_fix_calls. cbn.
    destruct (Z.abs (Location.timestamp location) <=? 8640000000000000); cbn;
      repeat ask_env; reflexivity. }
  cbv zeta. split; [ apply Hlast | ]. split; [ intros previous; apply Hlast | ].
  intros Hvalid Hinsert. apply Z.leb_le in Hvalid.
  unfold logged_fix. unfold_fix_calls. cbn. rewrite Hvalid. cbn. rewrite Hinsert. cbn.
  repeat ask_env; reflexivity.
Qed.

(** A fix with a timestamp outside the range of time values follows one
    with a later timestamp: it is not stored, and it is the last known
    location all the same. *)
Definition fix_out_of_range : Location.LocationObject :=
  Location.mkLocationObject (Location.mkCoords 26200000 91700000 None (Some 5000000) None)
                            (- 8640000000000001).

Lemma every_fix_is_processed_witness :
  let w2 := exec (LocationTracking.onPosition "tourist-0" fix_at_centre) env_online zone_world in
  let w1 := exec (LocationTracking.onPosition "tourist-0" fix_outside) env_online w2 in
  let w0 := exec (LocationTracking.onPosition "tourist-0" fix_out_of_range) env_online w2 in
  lastLocation (trackingState w1) = Some fix_outside
  /\ location_logs (database w1)
     = location_logs (database w2) ++ [logged_fix "tourist-0" fix_outside]
  /\ lastLocation (trackingState w0) = Some fix_out_of_range
  /\ location_logs (database w0) = location_logs (database w2).
Proof.
  intros w2 w1 w0.
  destruct (every_fix_is_processed env_online w2 "tourist-0" fix_outside)
    as [Hlast [_ Hstored]].
  split; [ exact Hlast | ]. split.
  - apply Hstored.
    + vm_compute. discriminate.
    + reflexivity.
  - split.
    + exact (proj1 (every_fix_is_processed env_online w2 "tourist-0" fix_out_of_range)).
    + vm_compute. reflexivity.
Defined.

Lemma logLocation_raises_nothing env w touristId locationData :
  produced_alerts (exec (LocationService.logLocation touristId locationData) env w)
  = produced_alerts w.
Proof.
  symmetry. apply (keeps_logLocation _ produced_alerts eq); try reflexivity.
  intros a b c -> ->. reflexivity.
Qed.

(** C7. Submitting the exact same fix a second time produces no
    additional transition event and no additional alert.  On every path that
    takes a fix (the tracking callback, the background task, the callback and
    [logLocation] of services/location.ts), whatever the backend answers, the
    alert rows, the notification rows (the only record of a zone transition
    the services keep) and the scheduled local notifications after the
    second submission are those after the first, which are those before
    it. *)
Theorem resubmission_raises_nothing_more env w touristId location locationData data error :
  let tracked := LocationTracking.onPosition touristId location in
  let background := LocationTracking.backgroundLocationTask data error in
  let watched := LocationService.onPosition touristId location in
  let logged := LocationService.logLocation touristId locationData in
  (produced_alerts (exec tracked env (exec tracked env w))
   = produced_alerts (exec tracked env w)
   /\ produced_alerts (exec tracked env w) = produced_alerts w)
  /\ (produced_alerts (exec background env (exec background env w))
      = produced_alerts (exec background env w)
      /\ produced_alerts (exec background env w) = produced_alerts w)
  /\ (produced_alerts (exec watched env (exec watched env w))
      = produced_alerts (exec watched env w)
      /\ produced_alerts (exec watched env w) = produced_alerts w)
  /\ (produced_alerts (exec logged env (exec logged env w))
      = produced_alerts (exec logged env w)
      /\ produced_alerts (exec logged env w) = produced_alerts w).
Proof.
  cbv zeta.
  split; [ split; apply onPosition_raises_nothing | ].
  split; [ split; apply backgroundLocationTask_raises_nothing | ].
  split; [ split; apply watched_position_raises_nothing | ].
  split; apply logLocation_raises_nothing.
Qed.

(** The location log is another matter: the second submission of a fix is
    stored like the first. *)
Lemma resubmitted_fix_is_stored_again :
  let submit := LocationTracking.onPosition "tourist-0" fix_at_centre in
  let w1 := exec submit env_online zone_world in
  let w2 := exec submit env_online w1 in
  location_logs (database w1)
  = location_logs (database zone_world) ++ [logged_fix "tourist-0" fix_at_centre]
  /\ location_logs (database w2)
     = location_logs (database zone_world)
         ++ [logged_fix "tourist-0" fix_at_centre; logged_fix "tourist-0" fix_at_centre]
  /\ produced_alerts w2 = produced_alerts zone_world.
Proof. vm_compute. repeat split. Qed.

(** [logLocation] makes no duplicate check either: when both inserts
    succeed the reading is stored twice, each row stamped with the time of
    its own submission. *)
Lemma resubmission_is_stored_again env w touristId locationData :
  backend_error env (backend_requests w) = None ->
  backend_error env (S (backend_requests w)) = None ->
  let submit := LocationService.logLocation touristId locationData in
  location_logs (database (exec submit env (exec submit env w)))
  = location_logs (database w)
      ++ [logged_reading touristId locationData (wall_clock env (clock_reads w));
          logged_reading touristId locationData (wall_clock env (S (clock_reads w)))].
Proof.
  intros Hfirst Hsecond. cbv zeta. unfold logged_reading. unfold_fix_calls. cbn.
  rewrite Hfirst. cbn. rewrite Hsecond. cbn.
  now rewrite <- app_assoc.
Qed.

(** * Configuration *)

(** C8. The configured safety-score weights (location risk 0.30, weather
    0.20, group size 0.20, time of day 0.15, route deviation 0.15) sum
    exactly to 1. *)
Theorem safety_score_weights_sum_to_one :
  tourist_safety_score_weights
  = [ ("location_risk", 3 # 10); ("weather", 2 # 10); ("group_size", 2 # 10);
      ("time_of_day", 15 # 100); ("route_deviation", 15 # 100) ]%Q
  /\ Qred (total_weight tourist_safety_score_weights) = 1%Q
  /\ (total_weight tourist_safety_score_weights == 1)%Q.
Proof.
  split; [ reflexivity | ].
  split; [ vm_compute; reflexivity | ].
  unfold total_weight, tourist_safety_score_weights. simpl. unfold Qeq. simpl. reflexivity.
Qed.

(** * The cached location of the tracking service *)

(** C9. When the position request fails, [getCurrentLocation] of the
    tracking service throws nothing: it returns the cached last known
    location ([null] when none is cached) and leaves the cache as it is;
    on success it stores the fresh location in the cache and returns it.
    [getLastKnownLocation] then reads that cache. *)
Theorem getCurrentLocation_falls_back_to_cache env w :
  let answer := getCurrentPositionAsync env (position_requests w) in
  let w' := exec LocationTracking.getCurrentLocation env w in
  let expected :=
    match answer with
    | Some location => Some location
    | None => lastLocation (trackingState w)
    end in
  outcome LocationTracking.getCurrentLocation env w = Returned expected
  /\ lastLocation (trackingState w') = expected
  /\ outcome LocationTracking.getLastKnownLocation env w' = Returned expected.
Proof.
  unfold outcome, exec, LocationTracking.getCurrentLocation,
    LocationTracking.getLastKnownLocation, LocationTracking.set_lastLocation,
    Location_getCurrentPositionAsync, console_error, modify, gets, try_catch, bind, ret.
  cbn. destruct (getCurrentPositionAsync env (position_requests w)) as [location | ];
    cbn; repeat split.
Qed.

(** * The panic alert *)

Ltac unfold_panic_call :=
  unfold exec, outcome, Emergency.triggerPanicAlert,
    LocationService.getCurrentLocation, LocationService.coords,
    read_latitude, read_longitude, Location_getCurrentPositionAsync,
    console_error, modify, gets, try_catch, bind, ret, throw.

(** The record the code builds for the insert is critical, of priority 1
    and active, for every alert type. *)
Lemma emergencyAlert_is_critical touristId alertType latitude longitude lat lng :
  let alert := Emergency.emergencyAlert touristId alertType latitude longitude lat lng in
  alert_type alert = emergency_type alertType
  /\ alert_severity alert = sev_critical
  /\ alert_priority alert = 1
  /\ alert_status alert = active.
Proof. repeat split. Qed.

(** Without a position the call throws and stores nothing. *)
Lemma panic_alert_without_position env w touristId alertType :
  getCurrentPositionAsync env (position_requests w) = None ->
  outcome (Emergency.triggerPanicAlert touristId alertType) env w
  = Thrown (JsError "Unable to get current location")
  /\ database (exec (Emergency.triggerPanicAlert touristId alertType) env w) = database w.
Proof.
  intros Hnone. unfold_panic_call. cbn. rewrite Hnone. cbn. split; reflexivity.
Qed.

(** C10, on the code.  With a position available, [triggerPanicAlert]
    throws a [TypeError] while it builds the alert record: the location it
    gets from services/location.ts has no [coords].  No alert row is
    inserted, no backend request is made, for any alert type. *)
Theorem panic_alert_with_position_throws env w touristId alertType location :
  getCurrentPositionAsync env (position_requests w) = Some location ->
  let w' := exec (Emergency.triggerPanicAlert touristId alertType) env w in
  outcome (Emergency.triggerPanicAlert touristId alertType) env w
  = Thrown (TypeError "Cannot read property 'latitude' of undefined")
  /\ database w' = database w
  /\ backend_requests w' = backend_requests w.
Proof.
  intros Hsome. unfold_panic_call. cbn. rewrite Hsome. cbn. repeat split.
Qed.

Lemma panic_alert_with_position_throws_witness :
  getCurrentPositionAsync env_online (position_requests registered_world) = Some guwahati
  /\ outcome (Emergency.triggerPanicAlert "tourist-0" panic) env_online registered_world
     = Thrown (TypeError "Cannot read property 'latitude' of undefined")
  /\ alerts (database (exec (Emergency.triggerPanicAlert "tourist-0" panic)
                            env_online registered_world)) = [].
Proof.
  assert (H : getCurrentPositionAsync env_online (position_requests registered_world)
              = Some guwahati) by reflexivity.
  split; [ exact H | ].
  destruct (panic_alert_with_position_throws env_online registered_world "tourist-0" panic
              guwahati H) as [Hthrown [Hdb _]].
  split; [ exact Hthrown | ].
  rewrite Hdb. reflexivity.
Defined.

(** Whatever the outside world answers, the call throws and stores no
    alert. *)
Lemma panic_alert_is_never_stored env w touristId alertType :
  (exists e, outcome (Emergency.triggerPanicAlert touristId alertType) env w = Thrown e)
  /\ alerts (database (exec (Emergency.triggerPanicAlert touristId alertType) env w))
     = alerts (database w).
Proof.
  unfold_panic_call. cbn.
  destruct (getCurrentPositionAsync env (position_requests w)) as [location | ]; cbn;
    (split; [ eexists; reflexivity | reflexivity ]).
Qed.

(** * Starting and stopping the tracking service *)

Ltac unfold_tracking_calls :=
  unfold exec, outcome, LocationTracking.startLocationTracking,
    LocationTracking.stopLocationTracking, LocationTracking.backgroundLocationTask,
    LocationTracking.logLocationToDatabase, LocationTracking.checkForHazards,
    LocationTracking.set_touristId, LocationTracking.set_isTracking,
    LocationTracking.set_lastLocation, LocationTracking.getBatteryLevel,
    LocationTracking.getNetworkType, Location_updates_api,
    location_logs_insert, geofences_select_active, hazards_select_active,
    toISOString, request, console_error, console_log, modify, gets,
    try_catch, bind, ret, throw.

(** X1. While tracking is active, [startLocationTracking] returns [true]
    and does nothing but log: no Expo call is made and the tourist being
    tracked stays the same, whatever identifier the call was given. *)
Theorem start_while_tracking_changes_nothing env w id :
  isTracking (trackingState w) = true ->
  outcome (LocationTracking.startLocationTracking id) env w = Returned true
  /\ exec (LocationTracking.startLocationTracking id) env w
     = with_console (fun c => c ++ [(LOG, "Location tracking already active")]) w.
Proof.
  intros Htracking. unfold_tracking_calls. cbn. rewrite Htracking. cbn.
  split; reflexivity.
Qed.

Definition tracking_world : World :=
  exec (LocationTracking.startLocationTracking "tourist-0") env_online registered_world.

Lemma start_while_tracking_changes_nothing_witness :
  isTracking (trackingState tracking_world) = true
  /\ touristId (trackingState
       (exec (LocationTracking.startLocationTracking "tourist-9") env_online tracking_world))
     = Some "tourist-0".
Proof.
  assert (H : isTracking (trackingState tracking_world) = true) by reflexivity.
  split; [ exact H | ].
  rewrite (proj2 (start_while_tracking_changes_nothing env_online tracking_world
                    "tourist-9" H)).
  reflexivity.
Defined.

(** The device on which the second call that starts updates
    ([watchPositionAsync]) rejects. *)
Definition env_watch_rejects : Env :=
  mkEnv (getCurrentPositionAsync env_online) (backend_error env_online)
        (scheduleNotificationAsync env_online) (wall_clock env_online)
        (gen_random_uuid env_online)
        (fun n => Nat.eqb n 1).

(** X2. When one of the two Expo calls of [startLocationTracking] rejects,
    the call returns [false] and tracking is reported inactive, but the
    tourist identifier it stored stays; [stopLocationTracking] then makes no
    Expo call and changes nothing, also when the background updates had
    already been started. *)
Theorem failed_start_keeps_tourist env w id :
  isTracking (trackingState w) = false ->
  updates_api_rejects env (expo_requests w) = true
  \/ updates_api_rejects env (S (expo_requests w)) = true ->
  let w' := exec (LocationTracking.startLocationTracking id) env w in
  outcome (LocationTracking.startLocationTracking id) env w = Returned false
  /\ isTracking (trackingState w') = false
  /\ touristId (trackingState w') = Some id
  /\ exec LocationTracking.stopLocationTracking env w' = w'.
Proof.
  intros Hidle Hrejects. unfold_tracking_calls. cbn. rewrite Hidle. cbn.
  destruct (updates_api_rejects env (expo_requests w)) eqn:Hfirst; cbn.
  - repeat split.
  - destruct Hrejects as [Habsurd | Hsecond]; [ discriminate | ].
    rewrite Hsecond. cbn. repeat split.
Qed.

Lemma failed_start_keeps_tourist_witness :
  let w' := exec (LocationTracking.startLocationTracking "tourist-0")
                 env_watch_rejects registered_world in
  expo_requests w' = 2%nat
  /\ isTracking (trackingState w') = false
  /\ touristId (trackingState w') = Some "tourist-0"
  /\ exec LocationTracking.stopLocationTracking env_watch_rejects w' = w'.
Proof.
  intros w'. split; [ reflexivity | ].
  destruct (failed_start_keeps_tourist env_watch_rejects registered_world "tourist-0"
              eq_refl (or_intror eq_refl)) as [_ H].
  exact H.
Defined.

(** X3. From an idle service, when the Expo calls resolve,
    [startLocationTracking] followed by [stopLocationTracking] leaves the
    tracking state cleared (not tracking, no tourist, no last location,
    whatever was cached before) and the backend untouched. *)
Theorem start_then_stop_clears_state env w id :
  isTracking (trackingState w) = false ->
  updates_api_rejects env (expo_requests w) = false ->
  updates_api_rejects env (S (expo_requests w)) = false ->
  updates_api_rejects env (S (S (expo_requests w))) = false ->
  let w1 := exec (LocationTracking.startLocationTracking id) env w in
  let w2 := exec LocationTracking.stopLocationTracking env w1 in
  outcome (LocationTracking.startLocationTracking id) env w = Returned true
  /\ trackingState w1 = mkTracking true (Some id) (lastLocation (trackingState w))
  /\ trackingState w2 = mkTracking false None None
  /\ database w2 = database w.
Proof.
  intros Hidle H0 H1 H2. unfold_tracking_calls. cbn. rewrite Hidle. cbn.
  rewrite H0. cbn. rewrite H1. cbn. rewrite H2. cbn. repeat split.
Qed.

Lemma start_then_stop_clears_state_witness :
  trackingState tracking_world = mkTracking true (Some "tourist-0") None
  /\ trackingState (exec LocationTracking.stopLocationTracking env_online tracking_world)
     = mkTracking false None None.
Proof.
  destruct (start_then_stop_clears_state env_online registered_world "tourist-0"
              eq_refl eq_refl eq_refl eq_refl) as [_ [H1 [H2 _]]].
  split; [ exact H1 | exact H2 ].
Defined.

(** The device on which stopping the updates rejects (its third call of
    the updates API). *)
Definition env_stop_rejects : Env :=
  mkEnv (getCurrentPositionAsync env_online) (backend_error env_online)
        (scheduleNotificationAsync env_online) (wall_clock env_online)
        (gen_random_uuid env_online)
        (fun n => Nat.eqb n 2).

(** X4. [stopLocationTracking] changes the tracking state only when
    tracking is active and [stopLocationUpdatesAsync] resolves: on an idle
    service, or when the Expo call rejects, the tracking state and the
    backend stay as they were, and the call still returns normally, so the
    caller cannot tell. *)
Theorem stop_without_effect env w :
  isTracking (trackingState w) = false
  \/ updates_api_rejects env (expo_requests w) = true ->
  outcome LocationTracking.stopLocationTracking env w = Returned tt
  /\ trackingState (exec LocationTracking.stopLocationTracking env w) = trackingState w
  /\ database (exec LocationTracking.stopLocationTracking env w) = database w.
Proof.
  intros H. unfold_tracking_calls. cbn.
  destruct (isTracking (trackingState w)) eqn:Htracking; cbn.
  - destruct H as [Habsurd | Hrejects]; [ discriminate | ].
    rewrite Hrejects. cbn. repeat split.
  - repeat split.
Qed.

Lemma stop_without_effect_witness :
  let w := exec (LocationTracking.startLocationTracking "tourist-0")
                env_stop_rejects registered_world in
  isTracking (trackingState w) = true
  /\ trackingState (exec LocationTracking.stopLocationTracking env_stop_rejects w)
     = trackingState w.
Proof.
  intros w. split; [ reflexivity | ].
  exact (proj1 (proj2 (stop_without_effect env_stop_rejects w (or_intror eq_refl)))).
Defined.

(** * The background task *)

(** X5. Of a batch of locations delivered to the background task, at most
    the first is stored: the location log stays as it is, or grows by the
    one row of the first location of the batch, for the tourist being
    tracked. *)
Theorem background_batch_stores_at_most_first env w data error :
  let w' := exec (LocationTracking.backgroundLocationTask data error) env w in
  location_logs (database w') = location_logs (database w)
  \/ exists id location rest,
       data = Some (location :: rest)
       /\ touristId (trackingState w) = Some id
       /\ location_logs (database w')
          = location_logs (database w) ++ [logged_fix id location].
Proof.
  unfold logged_fix. unfold_tracking_calls. cbn.
  destruct error as [e | ]; cbn; [ now left | ].
  destruct data as [[ | location rest] | ]; cbn.
  - destruct (touristId (trackingState w)); now left.
  - destruct (touristId (trackingState w)) as [id | ] eqn:Hid; cbn; [ | now left ].
    destruct (String.eqb id ""); cbn; [ now left | ].
    destruct (Z.abs (Location.timestamp location) <=? 8640000000000000); cbn.
    2: { repeat ask_env; now left. }
    destruct (backend_error env (backend_requests w)) eqn:Hinsert; cbn.
    + repeat ask_env; now left.
    + right. exists id, location, rest.
      repeat ask_env; repeat split.
  - now left.
Qed.

(** X6. The background task stores the first location of a batch whenever a
    tourist identifier is set, whether or not tracking is reported active:
    the task looks at [touristId] only.  (The identifier stays set after a
    failed start.) *)
Theorem background_task_ignores_isTracking env w id location rest :
  touristId (trackingState w) = Some id ->
  id <> "" ->
  Z.abs (Location.timestamp location) <= 8640000000000000 ->
  backend_error env (backend_requests w) = None ->
  let w' := exec (LocationTracking.backgroundLocationTask (Some (location :: rest)) None)
                 env w in
  location_logs (database w') = location_logs (database w) ++ [logged_fix id location]
  /\ trackingState w' = trackingState w.
Proof.
  intros Hid Hnonempty Hvalid Hinsert. apply Z.leb_le in Hvalid.
  apply String.eqb_neq in Hnonempty.
  unfold logged_fix. unfold_tracking_calls. cbn. rewrite Hid. cbn.
  rewrite Hnonempty. cbn. rewrite Hvalid. cbn. rewrite Hinsert. cbn.
  repeat ask_env; split; reflexivity.
Qed.

Lemma background_task_ignores_isTracking_witness :
  let w := exec (LocationTracking.startLocationTracking "tourist-0")
                env_watch_rejects registered_world in
  let w' := exec (LocationTracking.backgroundLocationTask
                    (Some [fix_outside; fix_at_centre]) None) env_watch_rejects w in
  isTracking (trackingState w) = false
  /\ location_logs (database w')
     = location_logs (database w) ++ [logged_fix "tourist-0" fix_outside].
Proof.
  intros w w'. split; [ reflexivity | ].
  apply (background_task_ignores_isTracking env_watch_rejects w "tourist-0" fix_outside
           [fix_at_centre]).
  - reflexivity.
  - discriminate.
  - vm_compute. discriminate.
  - reflexivity.
Defined.

(** * Queries ordered by time *)

From Stdlib Require Import Sorting.Sorted.

Section OrderDesc.

Context {A : Type} (key : A -> number).

Let later_first (a b : A) : Prop := key b <= key a.

Lemma insert_desc_In x a rows :
  In x (insert_desc key a rows) <-> x = a \/ In x rows.
Proof.
  induction rows as [ | y rest IH ]; simpl.
  - intuition.
  - destruct (key y <? key a); simpl; [ intuition | ].
    rewrite IH. intuition.
Qed.

Lemma order_desc_In x rows : In x (order_desc key rows) <-> In x rows.
Proof.
  induction rows as [ | y rest IH ]; simpl; [ reflexivity | ].
  rewrite insert_desc_In, IH. intuition.
Qed.

Lemma insert_desc_length a rows :
  List.length (insert_desc key a rows) = S (List.length rows).
Proof.
  induction rows as [ | y rest IH ]; simpl; [ reflexivity | ].
  destruct (key y <? key a); simpl; [ reflexivity | now rewrite IH ].
Qed.

Lemma order_desc_length rows : List.length (order_desc key rows) = List.length rows.
Proof.
  induction rows as [ | y rest IH ]; simpl; [ reflexivity | ].
  now rewrite insert_desc_length, IH.
Qed.

Lemma insert_desc_sorted a rows :
  StronglySorted later_first rows -> StronglySorted later_first (insert_desc key a rows).
Proof.
  induction rows as [ | y rest IH ]; simpl; intros Hsorted.
  - constructor; constructor.
  - inversion Hsorted as [ | y' rest' Hrest Hall ]; subst.
    destruct (key y <? key a) eqn:Hlt.
    + apply Z.ltb_lt in Hlt. constructor; [ exact Hsorted | ].
      constructor; [ unfold later_first; lia | ].
      eapply Forall_impl; [ | exact Hall ]. unfold later_first. intros b Hb. lia.
    + apply Z.ltb_ge in Hlt. constructor; [ now apply IH | ].
      apply Forall_forall. intros b Hb. apply insert_desc_In in Hb.
      destruct Hb as [-> | Hb]; [ exact Hlt | ].
      rewrite Forall_forall in Hall. now apply Hall.
Qed.

Lemma order_desc_sorted rows : StronglySorted later_first (order_desc key rows).
Proof.
  induction rows as [ | y rest IH ]; simpl; [ constructor | ].
  now apply insert_desc_sorted.
Qed.

Lemma firstn_subset (x : A) n rows : In x (firstn n rows) -> In x rows.
Proof.
  revert n. induction rows as [ | y rest IH ]; intros [ | n ]; simpl; try tauto.
  intros [-> | Hx]; [ now left | right; now apply (IH n) ].
Qed.

Lemma firstn_sorted n rows :
  StronglySorted later_first rows -> StronglySorted later_first (firstn n rows).
Proof.
  revert n. induction rows as [ | y rest IH ]; intros [ | n ] Hsorted; simpl;
    try constructor.
  - inversion Hsorted; subst. now apply IH.
  - inversion Hsorted as [ | y' rest' Hrest Hall ]; subst.
    apply Forall_forall. intros b Hb. apply firstn_subset in Hb.
    rewrite Forall_forall in Hall. now apply Hall.
Qed.

(** The first [n] rows by decreasing key: ordered, at most [n], all among
    the rows given. *)
Lemma limit_order_desc n rows :
  let result := firstn n (order_desc key rows) in
  StronglySorted later_first result
  /\ (List.length result <= n)%nat
  /\ Forall (fun r => In r rows) result.
Proof.
  cbv zeta. split; [ apply firstn_sorted, order_desc_sorted | ].
  split; [ apply firstn_le_length | ].
  apply Forall_forall. intros r Hr. apply firstn_subset in Hr.
  exact (proj1 (order_desc_In r rows) Hr).
Qed.

End OrderDesc.

#[local] Arguments firstn : simpl never.
#[local] Arguments order_desc : simpl never.

Ltac unfold_history_call :=
  unfold exec, outcome, TrackingQueries.getLocationHistory,
    location_logs_select_history, toISOString, Date_now, request,
    console_error, modify, gets, try_catch, bind, ret, throw.

(** X7. [getLocationHistory] never throws and changes no table.  It
    returns at most 100 rows, latest first, each a stored row of that
    tourist no older than [hours] hours before now; on a backend error, or
    when the start of the window is not a valid time value, it returns the
    empty list. *)
Theorem location_history_is_recent_and_ordered env w id hours :
  let startTime := wall_clock env (clock_reads w) - hours * 60 * 60 * 1000 in
  exists rows,
    outcome (TrackingQueries.getLocationHistory id hours) env w = Returned rows
    /\ database (exec (TrackingQueries.getLocationHistory id hours) env w) = database w
    /\ (List.length rows <= 100)%nat
    /\ StronglySorted
         (fun a b => Supabase.log_timestamp b <= Supabase.log_timestamp a) rows
    /\ Forall (fun r => In r (location_logs (database w))
                        /\ Supabase.log_tourist_id r = id
                        /\ startTime <= Supabase.log_timestamp r) rows
    /\ (if Z.abs startTime <=? 8640000000000000
        then match backend_error env (backend_requests w) with
             | Some _ => rows = []
             | None => True
             end
        else rows = []).
Proof.
  cbv zeta. unfold_history_call. cbn.
  destruct (Z.abs (wall_clock env (clock_reads w) - hours * 60 * 60 * 1000)
            <=? 8640000000000000); cbn.
  - destruct (backend_error env (backend_requests w)); cbn.
    + exists []. split; [ reflexivity | ]. split; [ reflexivity | ].
      split; [ simpl; lia | ]. split; [ constructor | ]. split; [ constructor | reflexivity ].
    + eexists. split; [ reflexivity | ]. split; [ reflexivity | ].
      match goal with
      | |- context [firstn 100 (order_desc ?k ?l)] =>
          destruct (limit_order_desc k 100 l) as [Hsorted [Hlength Hin]]
      end.
      split; [ exact Hlength | ]. split; [ exact Hsorted | ]. split; [ | exact I ].
      eapply Forall_impl; [ | exact Hin ]. intros r Hr.
      apply filter_In in Hr. destruct Hr as [Hstored Hmatch].
      apply andb_true_iff in Hmatch. destruct Hmatch as [Hid Hrecent].
      apply String.eqb_eq in Hid. apply Z.leb_le in Hrecent. auto.
  - exists []. split; [ reflexivity | ]. split; [ reflexivity | ].
      split; [ simpl; lia | ]. split; [ constructor | ]. split; [ constructor | reflexivity ].
Qed.

(** * The foreground service of services/location.ts *)

(** A measurement as [value || undefined] leaves it: a 0 is missing, every
    other value, and a missing one, is as it was. *)
Definition zero_dropped (measured stored : option decimal) : Prop :=
  (measured = Some 0 -> stored = None)
  /\ (measured <> Some 0 -> stored = measured).

Lemma or_undefined_drops_zero x : zero_dropped x (or_undefined x).
Proof.
  unfold zero_dropped. destruct x as [[ | p | p] | ]; simpl;
    (split; [ intros; try reflexivity; discriminate | intros H; try reflexivity ]).
  now contradiction H.
Qed.

(** X8. A fix delivered to the callback of services/location.ts is stored,
    when the insert succeeds, with every zero measurement dropped: an
    altitude, accuracy or speed of 0 (a tourist at rest, a position at sea
    level) is stored as missing, any other value as it is.  Latitude and
    longitude are stored as they are, and the row carries the time of the
    call, not the timestamp of the fix. *)
Theorem watched_fix_drops_zero_measurements env w id location :
  backend_error env (backend_requests w) = None ->
  exists row,
    location_logs (database (exec (LocationService.onPosition id location) env w))
    = location_logs (database w) ++ [row]
    /\ zero_dropped (Location.altitude (Location.coords location)) (Supabase.log_altitude row)
    /\ zero_dropped (Location.accuracy (Location.coords location)) (Supabase.log_accuracy row)
    /\ zero_dropped (Location.speed (Location.coords location)) (Supabase.log_speed row)
    /\ Supabase.log_tourist_id row = id
    /\ Supabase.log_latitude row = Location.latitude (Location.coords location)
    /\ Supabase.log_longitude row = Location.longitude (Location.coords location)
    /\ Supabase.log_timestamp row = wall_clock env (clock_reads w).
Proof.
  intros Hinsert. unfold_fix_calls. cbn. rewrite Hinsert. cbn.
  eexists. split; [ reflexivity | ]. cbn.
  split; [ apply or_undefined_drops_zero | ].
  split; [ apply or_undefined_drops_zero | ].
  split; [ apply or_undefined_drops_zero | ].
  repeat split.
Qed.

Definition fix_at_rest : Location.LocationObject :=
  Location.mkLocationObject
    (Location.mkCoords 26180000 91740000 (Some 0) (Some 12000000) (Some 0))
    1700000090000.

Lemma watched_fix_drops_zero_measurements_witness :
  exists row,
    location_logs (database
      (exec (LocationService.onPosition "tourist-0" fix_at_rest) env_online initial_world))
    = [row]
    /\ Supabase.log_altitude row = None
    /\ Supabase.log_accuracy row = Some 12000000
    /\ Supabase.log_speed row = None
    /\ Supabase.log_timestamp row <> Location.timestamp fix_at_rest.
Proof.
  destruct (watched_fix_drops_zero_measurements env_online initial_world "tourist-0"
              fix_at_rest eq_refl)
    as [row [Hlogs [Haltitude [Haccuracy [Hspeed [_ [_ [_ Htime]]]]]]]].
  exists row. split; [ exact Hlogs | ].
  split; [ exact (proj1 Haltitude eq_refl) | ].
  split; [ apply (proj2 Haccuracy); discriminate | ].
  split; [ exact (proj1 Hspeed eq_refl) | ].
  rewrite Htime. vm_compute. discriminate.
Defined.

(** The state of the subscription after [n] calls of
    [startLocationTracking] that resolve, from a fresh module. *)
Lemma watch_after_starts n :
  Nat.iter n (LocationWatch.startLocationTracking false) LocationWatch.no_watch
  = LocationWatch.mkWatch (match n with O => None | S k => Some k end) (seq 0 n) n [].
Proof.
  induction n as [ | n IH ]; [ reflexivity | ].
  rewrite seq_S. simpl Nat.iter. rewrite IH. reflexivity.
Qed.

Lemma filter_seq_below n k :
  (n <= k)%nat -> filter (fun id => negb (Nat.eqb id k)) (seq 0 n) = seq 0 n.
Proof.
  intros Hle. apply forallb_filter_id. apply forallb_forall. intros x Hx.
  apply in_seq in Hx. apply negb_true_iff, Nat.eqb_neq. lia.
Qed.

(** X9. [stopLocationTracking] of services/location.ts removes only the
    subscription made last: after [k + 1] calls of [startLocationTracking]
    that resolve, one call of [stopLocationTracking] leaves the first [k]
    subscriptions active and forgets the handle, so that further calls
    remove nothing. *)
Theorem stop_removes_only_the_last_subscription k :
  let started := Nat.iter (S k) (LocationWatch.startLocationTracking false)
                          LocationWatch.no_watch in
  let stopped := LocationWatch.stopLocationTracking started in
  LocationWatch.active_subscriptions started = seq 0 (S k)
  /\ LocationWatch.active_subscriptions stopped = seq 0 k
  /\ LocationWatch.locationSubscription stopped = None
  /\ LocationWatch.stopLocationTracking stopped = stopped.
Proof.
  cbv zeta. rewrite watch_after_starts.
  unfold LocationWatch.stopLocationTracking. cbn [LocationWatch.locationSubscription
    LocationWatch.active_subscriptions LocationWatch.issued LocationWatch.watch_console].
  rewrite seq_S, filter_app, filter_seq_below by lia. simpl.
  rewrite Nat.eqb_refl. simpl. rewrite app_nil_r. repeat split.
Qed.

(** * Sending notifications *)

From Stdlib Require DecimalZ DecimalPos.

(** The decimal form of an identifier reads back as the identifier. *)
Lemma digits_read_back id :
  option_map Z.of_int (NilZero.int_of_string (digits id)) = Some id.
Proof.
  unfold digits. rewrite NilZero.isi.
  - simpl. now rewrite DecimalZ.of_to.
  - destruct id; simpl; try discriminate.
    intros H. injection H as H. now apply DecimalPos.Unsigned.to_uint_nonnil in H.
  - destruct id; simpl; try discriminate.
    intros H. injection H as H. now apply DecimalPos.Unsigned.to_uint_nonnil in H.
Qed.

Lemma id_eq_digits id n : id_eq (digits id) n = has_id id n.
Proof.
  unfold id_eq, has_id. pose proof (digits_read_back id) as H.
  destruct (NilZero.int_of_string (digits id)) as [i | ]; [ | discriminate ].
  simpl in H. injection H as ->. destruct (notification_id n) as [j | ]; [ | reflexivity ].
  apply Z.eqb_sym.
Qed.

Ltac unfold_send_calls :=
  unfold exec, outcome, Notifications.sendLocalNotification,
    Notifications.updateNotificationStatus, notifications_update,
    Notifications_scheduleNotificationAsync, Date_now, request,
    console_error, console_log, modify, gets, try_catch, bind, ret, throw.

(** X10. When [sendLocalNotification] returns, it has scheduled exactly one
    local notification, with the title and message of the notification; its
    sound flag is set exactly for the priorities high and critical, that is,
    exactly when the Android priority is HIGH or MAX, and it agrees with the
    decision of the foreground handler [handleNotification] for that
    notification. *)
Theorem notification_sound_is_consistent env w n id :
  outcome (Notifications.sendLocalNotification n) env w = Returned id ->
  exists content,
    scheduled (exec (Notifications.sendLocalNotification n) env w)
    = scheduled w ++ [(content, scheduled_for n)]
    /\ content_title content = notif_title n
    /\ content_body content = notif_message n
    /\ content_sound content
       = NotificationCenter.shouldPlaySound (NotificationCenter.handleNotification content)
    /\ (content_sound content = true
        <-> content_priority content = HIGH \/ content_priority content = MAX)
    /\ (content_sound content = true
        <-> notif_priority n = high \/ notif_priority n = critical).
Proof.
  unfold_send_calls. cbn.
  destruct (scheduleNotificationAsync env (schedule_requests w)) as [ident | ]; cbn.
  - intros _. eexists. split.
    + destruct (backend_error env (backend_requests w)); cbn; reflexivity.
    + cbn. destruct (notif_priority n); cbn; repeat split;
        solve [ reflexivity | discriminate | intros [H | H]; discriminate
              | intros _; now left | intros _; now right ].
  - destruct (backend_error env (backend_requests w)); cbn; discriminate.
Qed.

Definition a_notification : NotificationData :=
  mkNotificationData (Some 1) "tourist-0" weather "Weather Alert: storm"
                     "Heavy rain expected" high None None None pending.

(** A backend that holds [a_notification] and one already read. *)
Definition inbox_world : World :=
  with_database
    (with_notifications
       (fun _ => [a_notification;
                  mkNotificationData (Some 2) "tourist-0" system "Welcome"
                                     "Stay safe" low None None (Some 1700000000000) read])
       (fun _ => 3))
    registered_world.

Lemma notification_sound_is_consistent_witness :
  exists content,
    scheduled (exec (Notifications.sendLocalNotification a_notification)
                    env_online inbox_world)
    = [(content, None)]
    /\ content_sound content = true.
Proof.
  destruct (notification_sound_is_consistent env_online inbox_world a_notification
              "local-0" eq_refl) as [content [Hscheduled [_ [_ [_ [_ Hsound]]]]]].
  exists content. split; [ exact Hscheduled | ].
  apply Hsound. now left.
Defined.

(** The device whose notification scheduler rejects. *)
Definition env_scheduler_rejects : Env :=
  mkEnv (getCurrentPositionAsync env_online) (backend_error env_online)
        (fun _ => None) (wall_clock env_online)
        (gen_random_uuid env_online) (updates_api_rejects env_online).

(** X11. When the scheduler rejects, [sendLocalNotification] schedules
    nothing, throws the rejection on to its caller, and, if the backend
    accepts the update, marks as failed exactly the stored rows that carry
    the notification's own identifier. *)
Theorem failed_send_is_recorded env w n id :
  scheduleNotificationAsync env (schedule_requests w) = None ->
  notification_id n = Some id ->
  backend_error env (backend_requests w) = None ->
  let w' := exec (Notifications.sendLocalNotification n) env w in
  outcome (Notifications.sendLocalNotification n) env w
  = Thrown (Rejected "Notifications.scheduleNotificationAsync")
  /\ scheduled w' = scheduled w
  /\ notifications (database w')
     = map (fun r => if has_id id r
                     then with_status failed (wall_clock env (clock_reads w)) r
                     else r)
           (notifications (database w)).
Proof.
  intros Hrejects Hid Hbackend. unfold_send_calls. cbn.
  rewrite Hrejects. cbn. rewrite Hbackend. cbn. rewrite Hid.
  repeat split. apply map_ext. intros r. now rewrite id_eq_digits.
Qed.

Lemma failed_send_is_recorded_witness :
  map notif_status
      (notifications (database
         (exec (Notifications.sendLocalNotification a_notification)
               env_scheduler_rejects inbox_world)))
  = [failed; read].
Proof.
  rewrite (proj2 (proj2 (failed_send_is_recorded env_scheduler_rejects inbox_world
                           a_notification 1 eq_refl eq_refl eq_refl))).
  reflexivity.
Defined.

(** X12. After a successful scheduling the status update is keyed by the
    scheduler's identifier, not by the row's: when that identifier is not a
    decimal numeral, no stored notification changes, so the notification
    just sent stays as it was stored. *)
Theorem sent_notification_is_not_marked env w n ident :
  scheduleNotificationAsync env (schedule_requests w) = Some ident ->
  NilZero.int_of_string ident = None ->
  outcome (Notifications.sendLocalNotification n) env w = Returned ident
  /\ notifications (database (exec (Notifications.sendLocalNotification n) env w))
     = notifications (database w).
Proof.
  intros Hscheduled Hident. unfold_send_calls. cbn. rewrite Hscheduled. cbn.
  destruct (backend_error env (backend_requests w)); cbn; split; try reflexivity.
  rewrite <- (map_id (notifications (database w))) at 2.
  apply map_ext. intros r. unfold id_eq. now rewrite Hident.
Qed.

Lemma sent_notification_is_not_marked_witness :
  map notif_status
      (notifications (database
         (exec (Notifications.sendLocalNotification a_notification)
               env_online inbox_world)))
  = [pending; read].
Proof.
  rewrite (proj2 (sent_notification_is_not_marked env_online inbox_world a_notification
                    "local-0" eq_refl eq_refl)).
  reflexivity.
Defined.

(** * Safety alerts and the position *)

(** X13. With a position available, [createSafetyAlert] (and with it the
    geofence, hazard and weather alert constructors) throws a [TypeError]
    while it builds the notification: it reads [coords] off the flat
    location of services/location.ts.  Nothing is stored, nothing is
    scheduled, and no backend request is made. *)
Theorem safety_alert_with_position_throws env w id alertType title message priority
        additionalData location :
  getCurrentPositionAsync env (position_requests w) = Some location ->
  let call := Notifications.createSafetyAlert id alertType title message priority
                                              additionalData in
  outcome call env w = Thrown (TypeError "Cannot read property 'latitude' of undefined")
  /\ database (exec call env w) = database w
  /\ scheduled (exec call env w) = scheduled w
  /\ backend_requests (exec call env w) = backend_requests w.
Proof.
  intros Hposition. unfold_alert_calls. cbn. rewrite Hposition. cbn. repeat split.
Qed.

Lemma safety_alert_with_position_throws_witness :
  outcome (Notifications.createWeatherAlert "tourist-0" "storm" "severe" "Heavy rain expected")
          env_online registered_world
  = Thrown (TypeError "Cannot read property 'latitude' of undefined").
Proof.
  exact (proj1 (safety_alert_with_position_throws env_online registered_world "tourist-0"
                  weather "Weather Alert: storm" "Heavy rain expected" high
                  (WeatherData "storm" "severe") guwahati eq_refl)).
Defined.

(** X14. A safety alert that is stored never carries coordinates: whenever
    [createSafetyAlert] returns, no position was available, the returned row
    is pending, its location is [null], and it has been scheduled as a local
    notification. *)
Theorem stored_safety_alert_has_no_location env w id alertType title message priority
        additionalData data :
  let call := Notifications.createSafetyAlert id alertType title message priority
                                              additionalData in
  outcome call env w = Returned data ->
  getCurrentPositionAsync env (position_requests w) = None
  /\ option_map payload_location (notif_data data) = Some None
  /\ notif_status data = pending
  /\ notification_id data = Some (notifications_seq (database w))
  /\ List.length (scheduled (exec call env w)) = S (List.length (scheduled w)).
Proof.
  cbv zeta. unfold_alert_calls. cbn.
  repeat ask_env; try discriminate; intros [= <-]; cbn;
    repeat split; rewrite ?length_app; simpl; lia.
Qed.

Lemma stored_safety_alert_has_no_location_witness :
  exists data,
    outcome (Notifications.createWeatherAlert "tourist-0" "storm" "severe"
                                              "Heavy rain expected")
            env_no_position registered_world = Returned data
    /\ option_map payload_location (notif_data data) = Some None.
Proof.
  eexists. split; [ vm_compute; reflexivity | ].
  refine (proj1 (proj2 (stored_safety_alert_has_no_location env_no_position registered_world
                          "tourist-0" weather "Weather Alert: storm" "Heavy rain expected"
                          high (WeatherData "storm" "severe") _ _))).
  vm_compute. reflexivity.
Defined.

(** * Reading notifications *)

(** The number of stored notifications of a tourist that are not read. *)
Definition unread_count (touristId : string) (w : World) : nat :=
  List.length (filter (is_unread_of touristId) (notifications (database w))).

Definition mark_read (id : number) (n : NotificationData) : NotificationData :=
  if has_id id n then with_read n else n.

Lemma filter_map_le {A} (p : A -> bool) (g : A -> A) (l : list A) :
  (forall x, p (g x) = true -> p x = true) ->
  (List.length (filter p (map g l)) <= List.length (filter p l))%nat.
Proof.
  intros Hg. induction l as [ | x l IH ]; simpl; [ lia | ].
  destruct (p (g x)) eqn:Hpg.
  - rewrite (Hg x Hpg). simpl. lia.
  - destruct (p x); simpl; lia.
Qed.

Lemma mark_read_unread id touristId n :
  is_unread_of touristId (mark_read id n) = true -> is_unread_of touristId n = true.
Proof.
  unfold mark_read. destruct (has_id id n); [ | trivial ].
  unfold is_unread_of; simpl. rewrite andb_false_r. discriminate.
Qed.

Lemma mark_read_twice id n : mark_read id (mark_read id n) = mark_read id n.
Proof.
  unfold mark_read. destruct (has_id id n) eqn:H; [ | now rewrite H ].
  unfold has_id in *. simpl. now rewrite H.
Qed.

Lemma mark_read_other id n : has_id id n = false -> mark_read id n = n.
Proof. unfold mark_read. now intros ->. Qed.

Ltac unfold_read_calls :=
  unfold exec, outcome, NotificationCenter.markNotificationAsRead,
    NotificationCenter.getUnreadNotificationCount, notifications_mark_read,
    notifications_count_unread, request, console_error, modify, gets,
    try_catch, bind, ret, throw.

Lemma marking_read_changes w env id :
  backend_error env (backend_requests w) = None ->
  notifications (database (exec (NotificationCenter.markNotificationAsRead id) env w))
  = map (mark_read id) (notifications (database w)).
Proof.
  intros Hok. unfold_read_calls. cbn. rewrite Hok. reflexivity.
Qed.

(** X15. [markNotificationAsRead] never throws and never adds, removes or
    "unreads" a notification: for every tourist the number of unread
    notifications does not grow.  When the backend reports an error it
    returns [false] and nothing changes; otherwise it returns [true], every
    stored row with that identifier is read, every other row is as it was,
    and marking again changes nothing. *)
Theorem marking_read_only_lowers_unread env w id :
  let call := NotificationCenter.markNotificationAsRead id in
  let w' := exec call env w in
  (forall touristId, (unread_count touristId w' <= unread_count touristId w)%nat)
  /\ match backend_error env (backend_requests w) with
     | Some _ => outcome call env w = Returned false /\ database w' = database w
     | None =>
         outcome call env w = Returned true
         /\ notifications (database w') = map (mark_read id) (notifications (database w))
         /\ Forall (fun n => has_id id n = true -> notif_status n = read)
                   (notifications (database w'))
         /\ notifications (database (exec call env w')) = notifications (database w')
     end.
Proof.
  cbv zeta. unfold unread_count. unfold_read_calls. cbn.
  destruct (backend_error env (backend_requests w)); cbn.
  - split; [ intros; lia | split; reflexivity ].
  - split; [ intros touristId; apply filter_map_le; apply mark_read_unread | ].
    split; [ reflexivity | ]. split; [ reflexivity | ]. split.
    + apply Forall_forall. intros n Hn. apply in_map_iff in Hn.
      destruct Hn as [m [<- _]]. unfold mark_read.
      destruct (has_id id m) eqn:Hm; [ reflexivity | congruence ].
    + destruct (backend_error env (S (backend_requests w))); cbn; [ reflexivity | ].
      rewrite map_map. apply map_ext. intros n. apply mark_read_twice.
Qed.

Lemma digits_below_100 c : 0 < c <= 99 -> (String.length (digits c) <= 2)%nat.
Proof.
  intros Hc.
  assert (Hall : forallb (fun n => (String.length (digits (Z.of_nat n)) <=? 2)%nat)
                         (seq 0 100) = true) by (vm_compute; reflexivity).
  rewrite forallb_forall in Hall.
  specialize (Hall (Z.to_nat c)). rewrite Z2Nat.id in Hall by lia.
  apply Nat.leb_le, Hall, in_seq. lia.
Qed.

(** X16. [getUnreadNotificationCount] never throws: it returns the number
    of stored notifications of the tourist that are not read, or 0 when the
    backend reports an error.  The badge made from it is hidden exactly when
    that number is 0 and its text never exceeds three characters. *)
Theorem unread_badge_is_short env w id :
  let count :=
    match backend_error env (backend_requests w) with
    | Some _ => 0
    | None => Z.of_nat (unread_count id w)
    end in
  outcome (NotificationCenter.getUnreadNotificationCount id) env w = Returned count
  /\ database (exec (NotificationCenter.getUnreadNotificationCount id) env w) = database w
  /\ (NotificationBadge.badge count = None <-> count = 0)
  /\ match NotificationBadge.badge count with
     | Some text => (1 <= String.length text <= 3)%nat
     | None => True
     end.
Proof.
  cbv zeta. unfold unread_count. unfold_read_calls. cbn.
  set (unread := List.length _).
  assert (Hbadge : forall c, 0 <= c ->
            (NotificationBadge.badge c = None <-> c = 0)
            /\ match NotificationBadge.badge c with
               | Some text => (1 <= String.length text <= 3)%nat
               | None => True
               end).
  { intros c Hc. unfold NotificationBadge.badge.
    destruct (Z.eqb_spec c 0) as [-> | Hnz].
    - split; [ tauto | exact I ].
    - split; [ split; [ discriminate | contradiction ] | ].
      destruct (Z.ltb_spec 99 c); [ simpl; lia | ].
      pose proof (digits_below_100 c ltac:(lia)) as Hshort.
      split; [ | lia ].
      destruct (digits c) eqn:Hd; simpl; [ | lia ].
      pose proof (digits_read_back c) as Hback. rewrite Hd in Hback. discriminate. }
  destruct (backend_error env (backend_requests w)); cbn.
  - split; [ reflexivity | ]. split; [ reflexivity | ].
    exact (Hbadge 0 ltac:(lia)).
  - split; [ reflexivity | ]. split; [ reflexivity | ].
    exact (Hbadge (Z.of_nat unread) ltac:(lia)).
Qed.

Lemma mark_sent_other env w n :
  (forall ident, scheduleNotificationAsync env (schedule_requests w) = Some ident ->
                 NilZero.int_of_string ident = None) ->
  mark_sent env w n = n.
Proof.
  intros Hident. unfold mark_sent.
  destruct (scheduleNotificationAsync env (schedule_requests w)) as [ident | ];
    [ | reflexivity ].
  unfold id_eq. now rewrite (Hident ident eq_refl).
Qed.

(** X17. A zone alert shows up in the unread count and leaves it when read:
    when [createGeofenceAlert] returns (on a backend whose stored
    identifiers are below the sequence, with a scheduler whose identifiers
    are not decimal numerals), the tourist's unread count has grown by one;
    after [markNotificationAsRead] of the returned identifier, accepted by the
    backend, it is back to what it was. *)
Theorem alert_is_unread_until_read env w id geofenceName geofenceType action data :
  let create := Notifications.createGeofenceAlert id geofenceName geofenceType action in
  let w1 := exec create env w in
  let w2 := exec (NotificationCenter.markNotificationAsRead (notifications_seq (database w)))
                 env w1 in
  outcome create env w = Returned data ->
  Forall (fun n => has_id (notifications_seq (database w)) n = false)
         (notifications (database w)) ->
  (forall ident, scheduleNotificationAsync env (schedule_requests w) = Some ident ->
                 NilZero.int_of_string ident = None) ->
  backend_error env (backend_requests w1) = None ->
  notification_id data = Some (notifications_seq (database w))
  /\ unread_count id w1 = S (unread_count id w)
  /\ unread_count id w2 = unread_count id w.
Proof.
  intros create w1 w2 Hret Hfresh Hident Hread.
  unfold create, Notifications.createGeofenceAlert in Hret.
  destruct (createSafetyAlert_returns _ _ _ _ _ _ _ _ _ Hret) as [Hdata Hafter].
  cbv zeta in Hafter.
  match type of Hdata with _ = ?r => set (row := r) in * end.
  assert (Hstored : notifications (database w1) = notifications (database w) ++ [row]).
  { destruct Hafter as [H | H]; [ exact H | ].
    unfold w1, create, Notifications.createGeofenceAlert. rewrite H.
    rewrite <- (map_id (notifications (database w) ++ [row])) at 2.
    apply map_ext. intros n. now apply mark_sent_other. }
  assert (Hunread : is_unread_of id row = true).
  { unfold is_unread_of, row, stored_notification. simpl. now rewrite String.eqb_refl. }
  split; [ now rewrite Hdata | ]. split.
  - unfold unread_count. rewrite Hstored, filter_app, length_app. simpl.
    rewrite Hunread. simpl. lia.
  - pose proof (marking_read_changes w1 env (notifications_seq (database w)) Hread)
      as Hmarked.
    fold w2 in Hmarked. unfold unread_count. rewrite Hmarked, Hstored, map_app, filter_app.
    rewrite length_app. simpl.
    replace (mark_read (notifications_seq (database w)) row) with (with_read row)
      by (unfold mark_read, has_id, row, stored_notification; simpl;
          now rewrite Z.eqb_refl).
    unfold is_unread_of at 2. simpl. rewrite andb_false_r. simpl.
    rewrite Nat.add_0_r. f_equal. f_equal.
    rewrite <- (map_id (notifications (database w))) at 2.
    apply map_ext_in. intros n Hn. apply mark_read_other.
    rewrite Forall_forall in Hfresh. now apply Hfresh.
Qed.

Lemma alert_is_unread_until_read_witness :
  let create := Notifications.createGeofenceAlert "tourist-0" "Deepor Beel core"
                                                  "restricted" entered in
  let w1 := exec create env_no_position zone_world in
  let w2 := exec (NotificationCenter.markNotificationAsRead 1) env_no_position w1 in
  unread_count "tourist-0" zone_world = 0%nat
  /\ unread_count "tourist-0" w1 = 1%nat
  /\ unread_count "tourist-0" w2 = 0%nat.
Proof.
  intros create w1 w2.
  assert (Hreturned : outcome create env_no_position zone_world
                      = Returned (stored_notification env_no_position zone_world "tourist-0"
                                    geofence "Geofence Entry"
                                    "You have entered Deepor Beel core (restricted zone)" high
                                    (GeofenceData "Deepor Beel core" "restricted" entered)))
    by (vm_compute; reflexivity).
  assert (Hident : forall ident,
             scheduleNotificationAsync env_no_position (schedule_requests zone_world)
             = Some ident -> NilZero.int_of_string ident = None).
  { intros ident H. vm_compute in H. injection H as <-. reflexivity. }
  destruct (alert_is_unread_until_read env_no_position zone_world "tourist-0"
              "Deepor Beel core" "restricted" entered _ Hreturned (Forall_nil _) Hident
              eq_refl) as [_ [H1 H2]].
  split; [ reflexivity | ]. split; [ exact H1 | exact H2 ].
Defined.

(** * Responding to notifications and alerts *)

Ltac unfold_response_calls :=
  unfold exec, outcome, NotificationCenter.handleNotificationResponse,
    NotificationCenter.acknowledgeAlert, EmergencyResponse.resolveEmergencyAlert,
    EmergencyResponse.acknowledgeEmergencyAlert, EmergencyResponse.checkEmergencyStatus,
    EmergencyResponse.getEmergencyHistory, alerts_update_status, alerts_select_active,
    alerts_select_history, Date_now, request, console_error, modify, gets,
    try_catch, bind, ret, throw.

(** X18. Of the actions of a notification only "acknowledge" does
    anything: for every other action identifier (the buttons "View
    Details", "Call Emergency" and "View Location", and the plain tap)
    [handleNotificationResponse] makes no request and leaves the whole state
    as it is. *)
Theorem only_acknowledge_acts env w actionIdentifier content :
  actionIdentifier <> "acknowledge" ->
  outcome (NotificationCenter.handleNotificationResponse actionIdentifier content) env w
  = Returned tt
  /\ exec (NotificationCenter.handleNotificationResponse actionIdentifier content) env w = w.
Proof.
  intros Hother. apply String.eqb_neq in Hother.
  unfold_response_calls. rewrite Hother. split; reflexivity.
Qed.

Lemma only_acknowledge_acts_witness :
  exec (NotificationCenter.handleNotificationResponse "call_emergency"
          (mkContent "Emergency" "Help" true MAX (Some "emergency") None))
       env_online registered_world
  = registered_world.
Proof.
  apply (only_acknowledge_acts env_online registered_world "call_emergency").
  discriminate.
Defined.

Definition set_status (st : AlertStatus) (id : number) (a : EmergencyAlert)
  : EmergencyAlert :=
  if alert_has_id id a then with_alert_status st a else a.

(** X19. The status updates of an alert are unconditional and the last one
    wins: [resolveEmergencyAlert] followed by [acknowledgeEmergencyAlert] of
    the same identifier, both accepted by the backend, both return [true]
    and leave every alert with that identifier acknowledged, not resolved;
    alerts with other identifiers keep their status, and no alert is added
    or removed. *)
Theorem acknowledging_reopens_a_resolved_alert env w id notes :
  backend_error env (backend_requests w) = None ->
  backend_error env (S (backend_requests w)) = None ->
  let w1 := exec (EmergencyResponse.resolveEmergencyAlert id notes) env w in
  let w2 := exec (EmergencyResponse.acknowledgeEmergencyAlert id) env w1 in
  outcome (EmergencyResponse.resolveEmergencyAlert id notes) env w = Returned true
  /\ outcome (EmergencyResponse.acknowledgeEmergencyAlert id) env w1 = Returned true
  /\ alerts (database w1) = map (set_status resolved id) (alerts (database w))
  /\ alerts (database w2) = map (set_status acknowledged id) (alerts (database w))
  /\ Forall (fun a => alert_has_id id a = true -> alert_status a = acknowledged)
            (alerts (database w2)).
Proof.
  intros Hfirst Hsecond. unfold_response_calls. cbn. rewrite Hfirst. cbn.
  rewrite Hsecond. cbn.
  assert (Htwice : forall a, set_status acknowledged id (set_status resolved id a)
                             = set_status acknowledged id a).
  { intros a. unfold set_status. destruct (alert_has_id id a) eqn:H; [ | now rewrite H ].
    unfold alert_has_id in *. simpl. now rewrite H. }
  repeat split.
  - rewrite map_map. apply map_ext. exact Htwice.
  - rewrite map_map. apply Forall_forall. intros a Ha. apply in_map_iff in Ha.
    destruct Ha as [b [<- _]]. fold (set_status resolved id b).
    fold (set_status acknowledged id (set_status resolved id b)). rewrite Htwice.
    unfold set_status. destruct (alert_has_id id b) eqn:H; [ reflexivity | congruence ].
Qed.

(** Two alerts of one tourist, as the backend holds them once raised. *)
Definition an_alert (id : number) : EmergencyAlert :=
  with_alert_id id (Emergency.emergencyAlert "tourist-0" panic 26200000 91700000
                                             26200000 91700000).

Definition alert_world : World :=
  with_database (with_alerts (fun _ => [an_alert 1; an_alert 2]) (fun _ => 3))
                registered_world.

Lemma acknowledging_reopens_a_resolved_alert_witness :
  let w1 := exec (EmergencyResponse.resolveEmergencyAlert 1 None) env_online alert_world in
  let w2 := exec (EmergencyResponse.acknowledgeEmergencyAlert 1) env_online w1 in
  map alert_status (alerts (database w1)) = [resolved; active]
  /\ map alert_status (alerts (database w2)) = [acknowledged; active].
Proof.
  intros w1 w2.
  destruct (acknowledging_reopens_a_resolved_alert env_online alert_world 1 None
              eq_refl eq_refl) as [_ [_ [H1 [H2 _]]]].
  subst w1 w2. cbv zeta in H1, H2. rewrite H1, H2. split; reflexivity.
Defined.

#[local] Arguments in_types : simpl never.

(** X20. An alert that was resolved is no longer the tourist's active
    emergency: after a [resolveEmergencyAlert] the backend accepted,
    whatever [checkEmergencyStatus] returns is a stored alert of that
    tourist that is still active and has another identifier. *)
Theorem resolved_alert_is_not_active env w created_at id alertId notes a :
  backend_error env (backend_requests w) = None ->
  let w1 := exec (EmergencyResponse.resolveEmergencyAlert alertId notes) env w in
  outcome (EmergencyResponse.checkEmergencyStatus created_at id) env w1 = Returned (Some a) ->
  alert_id a <> Some alertId
  /\ In a (alerts (database w))
  /\ alert_status a = active
  /\ alert_tourist_id a = id.
Proof.
  intros Haccepted. unfold_response_calls. cbn. rewrite Haccepted. cbn.
  destruct (backend_error env (S (backend_requests w))); cbn; [ discriminate | ].
  match goal with
  | |- context [firstn 1 ?rows] => destruct (firstn 1 rows) as [ | b rest ] eqn:Hfirst
  end; cbn; [ discriminate | ].
  intros [= ->].
  assert (Hin : In a (firstn 1 (order_desc created_at
                   (filter (fun a => is_active_of id a && in_types emergency_types a)
                      (map (fun a => if alert_has_id alertId a
                                     then with_alert_status resolved a else a)
                           (alerts (database w))))))).
  { rewrite Hfirst. now left. }
  apply (firstn_subset created_at) in Hin. apply (proj1 (order_desc_In created_at _ _)) in Hin.
  apply filter_In in Hin.
  destruct Hin as [Hin Hactive]. apply in_map_iff in Hin. destruct Hin as [b [Hb Hin]].
  apply andb_true_iff in Hactive. destruct Hactive as [Hactive _].
  unfold is_active_of in Hactive. apply andb_true_iff in Hactive.
  destruct Hactive as [Hid Hstatus]. apply String.eqb_eq in Hid.
  destruct (alert_has_id alertId b) eqn:Hhas; subst a; [ discriminate | ].
  split; [ | split; [ exact Hin | split; [ | exact Hid ] ] ].
  - unfold alert_has_id in Hhas. destruct (alert_id b) as [i | ]; [ | discriminate ].
    apply Z.eqb_neq in Hhas. congruence.
  - destruct (alert_status b); trivial; discriminate.
Qed.

Lemma resolved_alert_is_not_active_witness :
  let w1 := exec (EmergencyResponse.resolveEmergencyAlert 2 None) env_online alert_world in
  outcome (EmergencyResponse.checkEmergencyStatus (fun a => 0) "tourist-0") env_online w1
  = Returned (Some (an_alert 1))
  /\ alert_id (an_alert 1) <> Some 2.
Proof.
  intros w1.
  assert (Hcheck : outcome (EmergencyResponse.checkEmergencyStatus (fun a => 0) "tourist-0")
                           env_online w1 = Returned (Some (an_alert 1)))
    by (vm_compute; reflexivity).
  split; [ exact Hcheck | ].
  exact (proj1 (resolved_alert_is_not_active env_online alert_world (fun a => 0)
                  "tourist-0" 2 None (an_alert 1) eq_refl Hcheck)).
Defined.

(** * The screens *)

Ltac unfold_screen_calls :=
  unfold exec, outcome, EmergencyActions.handleEmergency,
    EmergencyActions.sendEmergencyAlert, EmergencyActions.loadEmergencyHistory,
    RegisterSteps.handleNext, RegisterScreen.handleRegister,
    RegisterScreen.validateStep1, RegisterScreen.validateStep2,
    Emergency.triggerPanicAlert, LocationService.getCurrentLocation,
    LocationService.coords, read_latitude, read_longitude,
    Location_getCurrentPositionAsync, tourists_insert, location_logs_insert,
    Date_now, request, Alert_alert, console_error, modify, gets,
    try_catch, bind, ret, throw.

(** X21. The emergency buttons never succeed.  Whatever the device and
    the backend answer, [handleEmergency] of the home screen and
    [sendEmergencyAlert] of the emergency screen end with exactly one new
    dialog, titled "Error" (never "Emergency Alert Sent"), make no backend
    request and leave every table as it was. *)
Theorem emergency_buttons_never_succeed env w created_at id alertType :
  let home := exec (EmergencyActions.handleEmergency id) env w in
  let screen := exec (EmergencyActions.sendEmergencyAlert created_at id alertType) env w in
  (exists message, dialogs home = dialogs w ++ [("Error", message)])
  /\ (exists message, dialogs screen = dialogs w ++ [("Error", message)])
  /\ database home = database w
  /\ database screen = database w
  /\ backend_requests home = backend_requests w
  /\ backend_requests screen = backend_requests w.
Proof.
  unfold_screen_calls. cbn.
  destruct (getCurrentPositionAsync env (position_requests w)) as [first | ]; cbn;
    [ destruct (getCurrentPositionAsync env (S (position_requests w))) as [second | ]; cbn
    | ];
    (split; [ eexists; reflexivity | ]); (split; [ eexists; reflexivity | ]);
    repeat split.
Qed.

Ltac refused :=
  split; [ reflexivity | do 2 eexists; split; [ reflexivity | right; split; reflexivity ] ].

(** X22. The dialog of a registration tells its outcome.  [handleRegister]
    never throws and shows exactly one dialog: "Success" when the tourist's
    row, as entered and with the score 50, was appended to [tourists] (also
    when no position was available or the first location log was refused),
    "Error" otherwise, and then no tourist was stored. *)
Theorem registration_dialog_tells_the_outcome env w formData contact1 contact2 :
  let register := RegisterScreen.handleRegister formData contact1 contact2 in
  let w' := exec register env w in
  outcome register env w = Returned tt
  /\ exists title message,
       dialogs w' = dialogs w ++ [(title, message)]
       /\ ((title = "Success"
            /\ exists id,
                 tourists (database w')
                 = tourists (database w)
                   ++ [RegisterScreen.touristData formData contact1 contact2 id])
           \/ (title = "Error" /\ tourists (database w') = tourists (database w))).
Proof.
  unfold_screen_calls.
  destruct (String.eqb (RegisterScreen.trim (RegisterScreen.name formData)) "");
    destruct (String.eqb (RegisterScreen.trim (RegisterScreen.phone formData)) ""
              || (RegisterScreen.length (RegisterScreen.phone formData) <? 10)%nat);
    destruct (String.eqb (RegisterScreen.trim (RegisterScreen.email formData)) ""
              || negb (RegisterScreen.includes (RegisterScreen.email formData) "@"));
    destruct (String.eqb (RegisterScreen.trim (Supabase.contact_name contact1)) ""
              || String.eqb (RegisterScreen.trim (Supabase.contact_phone contact1)) "");
    cbn; try refused.
  destruct (getCurrentPositionAsync env (position_requests w)) as [location | ]; cbn;
    (destruct (backend_error env (backend_requests w)) as [error | ]; cbn;
     [ split; [ reflexivity
              | exists "Error", "Registration failed. Please try again.";
                split; [ reflexivity | right; split; reflexivity ] ]
     | ]).
  - destruct (backend_error env (S (backend_requests w))) as [error | ]; cbn;
      (split; [ reflexivity
              | exists "Success", "Registration completed successfully!";
                split; [ reflexivity | left; split; [ reflexivity | eexists; reflexivity ] ] ]).
  - split; [ reflexivity
           | exists "Success", "Registration completed successfully!";
             split; [ reflexivity | left; split; [ reflexivity | eexists; reflexivity ] ] ].
Qed.

(** [trimStart] leaves no white space at the start: the count of bytes it
    starts from covers every character it may have to remove. *)
Lemma strip_length prefix s rest :
  RegisterScreen.strip prefix s = Some rest ->
  String.length s = (String.length prefix + String.length rest)%nat.
Proof.
  revert s. induction prefix as [ | first prefix IH ]; intros s; simpl.
  - now intros [= ->].
  - destruct s as [ | b s ]; [ discriminate | ].
    destruct (Ascii.eqb first b); [ | discriminate ].
    intros Hrest. simpl. now rewrite (IH s Hrest).
Qed.

Lemma skip_white_space_shorter s rest :
  RegisterScreen.skip_white_space s = Some rest ->
  (String.length rest < String.length s)%nat.
Proof.
  unfold RegisterScreen.skip_white_space.
  assert (Hspaces : Forall (fun space => (0 < String.length space)%nat)
                           RegisterScreen.white_space)
    by (repeat constructor).
  induction Hspaces as [ | space spaces Hspace _ IH ]; simpl; [ discriminate | ].
  destruct (RegisterScreen.strip space s) as [found | ] eqn:Hstrip; [ | exact IH ].
  intros [= ->]. apply strip_length in Hstrip. lia.
Qed.

Lemma trimStart_upto_is_trimmed n s :
  (String.length s <= n)%nat ->
  RegisterScreen.skip_white_space (RegisterScreen.trimStart_upto n s) = None.
Proof.
  revert s. induction n as [ | n IH ]; intros s Hlength; simpl.
  - destruct s; [ reflexivity | simpl in Hlength; lia ].
  - destruct (RegisterScreen.skip_white_space s) as [rest | ] eqn:Hskip; [ | exact Hskip ].
    apply IH. apply skip_white_space_shorter in Hskip. lia.
Qed.

Lemma trimStart_is_trimmed s :
  RegisterScreen.skip_white_space (RegisterScreen.trimStart s) = None.
Proof. apply trimStart_upto_is_trimmed. apply Nat.le_refl. Qed.

(** X23. A form that fails validation is not submitted: when the name is
    empty or white space only, the phone number has fewer than ten UTF-16
    code units ([formData.phone.length < 10]), the e-mail address has no
    "@", or the first emergency contact lacks a name or a phone number (empty
    or white space only), [handleRegister] asks for no position, sends
    nothing to the backend, stores nothing and shows one "Error" dialog.
    White space is what [String.prototype.trim] strips, the no-break space
    and the other Unicode spaces included. *)
Theorem invalid_form_is_not_submitted env w formData contact1 contact2 :
  RegisterScreen.trim (RegisterScreen.name formData) = ""
  \/ (RegisterScreen.length (RegisterScreen.phone formData) < 10)%nat
  \/ RegisterScreen.includes (RegisterScreen.email formData) "@" = false
  \/ RegisterScreen.trim (Supabase.contact_name contact1) = ""
  \/ RegisterScreen.trim (Supabase.contact_phone contact1) = "" ->
  let w' := exec (RegisterScreen.handleRegister formData contact1 contact2) env w in
  database w' = database w
  /\ position_requests w' = position_requests w
  /\ backend_requests w' = backend_requests w
  /\ exists message, dialogs w' = dialogs w ++ [("Error", message)].
Proof.
  intros Hinvalid. unfold_screen_calls.
  destruct (String.eqb (RegisterScreen.trim (RegisterScreen.name formData)) "") eqn:Hname;
    destruct (String.eqb (RegisterScreen.trim (RegisterScreen.phone formData)) ""
              || (RegisterScreen.length (RegisterScreen.phone formData) <? 10)%nat)
      eqn:Hphone;
    destruct (String.eqb (RegisterScreen.trim (RegisterScreen.email formData)) ""
              || negb (RegisterScreen.includes (RegisterScreen.email formData) "@"))
      eqn:Hemail;
    destruct (String.eqb (RegisterScreen.trim (Supabase.contact_name contact1)) ""
              || String.eqb (RegisterScreen.trim (Supabase.contact_phone contact1)) "")
      eqn:Hcontact;
    cbn; try (repeat split; eexists; reflexivity).
  exfalso.
  apply orb_false_iff in Hphone, Hemail, Hcontact.
  destruct Hphone as [_ Hphone], Hemail as [_ Hemail], Hcontact as [Hcontact1 Hcontact2].
  apply String.eqb_neq in Hname, Hcontact1, Hcontact2.
  apply Nat.ltb_ge in Hphone. apply negb_false_iff in Hemail.
  destruct Hinvalid as [H | [H | [H | [H | H]]]];
    [ contradiction | lia | congruence | contradiction | contradiction ].
Qed.

(** A form whose phone number has nine characters in ten bytes, and whose
    contact's name is a no-break space. *)
Definition a_short_phone_form : RegisterScreen.FormData :=
  RegisterScreen.mkFormData "Asha Rao" "98765432é" "asha@example.com" "Indian"
                            "" "" "Guwahati Airport" "Tourism" "" "" "O+".

Definition a_blank_contact : Supabase.EmergencyContact :=
  Supabase.mkContact (RegisterScreen.bytes [194; 160]%nat) "+91 9876500000" "Sibling".

Lemma invalid_form_is_not_submitted_witness :
  String.length (RegisterScreen.phone a_short_phone_form) = 10%nat
  /\ RegisterScreen.length (RegisterScreen.phone a_short_phone_form) = 9%nat
  /\ (let w' := exec (RegisterScreen.handleRegister a_short_phone_form a_contact no_contact)
                     env_online initial_world in
      database w' = empty_database
      /\ position_requests w' = 0%nat
      /\ backend_requests w' = 0%nat
      /\ exists message, dialogs w' = [("Error", message)])
  /\ (let w' := exec (RegisterScreen.handleRegister a_form a_blank_contact no_contact)
                     env_online initial_world in
      database w' = empty_database
      /\ position_requests w' = 0%nat
      /\ backend_requests w' = 0%nat
      /\ exists message, dialogs w' = [("Error", message)]).
Proof.
  split; [ reflexivity | ]. split; [ reflexivity | ]. split.
  - apply (invalid_form_is_not_submitted env_online initial_world a_short_phone_form
             a_contact no_contact).
    right. left. vm_compute. lia.
  - apply (invalid_form_is_not_submitted env_online initial_world a_form
             a_blank_contact no_contact).
    right. right. right. left. reflexivity.
Defined.

(** X24. The steps of the registration form.  From a step between 1 and
    3, [handleNext] stays or advances by one and never leaves the range; it
    advances only without a dialog, and [handleBack] then leads back to the
    step it came from. *)
Theorem form_steps_stay_in_range env w step formData contact1 :
  1 <= step <= 3 ->
  let w' := exec (RegisterSteps.handleNext step formData contact1) env w in
  exists next,
    outcome (RegisterSteps.handleNext step formData contact1) env w = Returned next
    /\ 1 <= next <= 3
    /\ (next = step \/ next = step + 1)
    /\ (next = step + 1 -> dialogs w' = dialogs w /\ RegisterSteps.handleBack next = step)
    /\ 1 <= RegisterSteps.handleBack step <= 3.
Proof.
  intros Hstep.
  assert (Hback : 1 <= RegisterSteps.handleBack step <= 3).
  { unfold RegisterSteps.handleBack. destruct (1 <? step) eqn:H; [ | lia ].
    apply Z.ltb_lt in H. lia. }
  assert (Hcases : step = 1 \/ step = 2 \/ step = 3) by lia.
  unfold_screen_calls.
  destruct Hcases as [-> | [-> | ->]]; cbn -[RegisterSteps.handleBack Nat.ltb].
  - destruct (String.eqb (RegisterScreen.trim (RegisterScreen.name formData)) "");
      destruct (String.eqb (RegisterScreen.trim (RegisterScreen.phone formData)) ""
                || (RegisterScreen.length (RegisterScreen.phone formData) <? 10)%nat);
      destruct (String.eqb (RegisterScreen.trim (RegisterScreen.email formData)) ""
                || negb (RegisterScreen.includes (RegisterScreen.email formData) "@"));
      cbn -[RegisterSteps.handleBack]; eexists; (split; [ reflexivity | ]);
      (split; [ lia | ]); (split; [ lia | ]); (split; [ | exact Hback ]);
      intros Hnext; try discriminate; split; reflexivity.
  - destruct (String.eqb (RegisterScreen.trim (Supabase.contact_name contact1)) ""
              || String.eqb (RegisterScreen.trim (Supabase.contact_phone contact1)) "");
      cbn -[RegisterSteps.handleBack]; eexists; (split; [ reflexivity | ]);
      (split; [ lia | ]); (split; [ lia | ]); (split; [ | exact Hback ]);
      intros Hnext; try discriminate; split; reflexivity.
  - eexists. split; [ reflexivity | ]. split; [ lia | ]. split; [ lia | ].
    split; [ | exact Hback ]. intros Hnext; discriminate.
Qed.

Lemma form_steps_stay_in_range_witness :
  outcome (RegisterSteps.handleNext 1 a_form a_contact) env_online initial_world = Returned 2
  /\ RegisterSteps.handleBack 2 = 1.
Proof.
  destruct (form_steps_stay_in_range env_online initial_world 1 a_form a_contact
              ltac:(lia)) as [next [Hnext [_ [_ [Hadvance _]]]]].
  assert (Htwo : next = 2) by (vm_compute in Hnext; congruence).
  subst next. split; [ exact Hnext | ]. exact (proj2 (Hadvance eq_refl)).
Defined.

(** * The age of the last fix *)

(** X25. [formatLastUpdate] shows the number of whole minutes, hours or
    days since the fix, in the largest unit that has begun: "Just now" below
    one minute (also for a timestamp in the future), 1 to 59 minutes, 1 to
    23 hours, and days from there on. *)
Theorem last_update_counts_whole_units now timestamp :
  let diff := now - timestamp in
  let shown := LocationStatus.formatLastUpdate now timestamp in
  (diff < 60000 /\ shown = "Just now")
  \/ (exists n, 1 <= n < 60 /\ n * 60000 <= diff < (n + 1) * 60000
                /\ shown = (digits n ++ "m ago")%string)
  \/ (exists n, 1 <= n < 24 /\ n * 3600000 <= diff < (n + 1) * 3600000
                /\ shown = (digits n ++ "h ago")%string)
  \/ (exists n, 1 <= n /\ n * 86400000 <= diff < (n + 1) * 86400000
                /\ shown = (digits n ++ "d ago")%string).
Proof.
  cbv zeta. unfold LocationStatus.formatLastUpdate.
  set (diff := now - timestamp).
  assert (Hminutes : 60000 * (diff / 60000) <= diff < 60000 * (diff / 60000) + 60000).
  { pose proof (Z.div_mod diff 60000 ltac:(lia)).
    pose proof (Z.mod_pos_bound diff 60000 ltac:(lia)). lia. }
  assert (Hhours : 60 * (diff / 60000 / 60) <= diff / 60000
                   < 60 * (diff / 60000 / 60) + 60).
  { pose proof (Z.div_mod (diff / 60000) 60 ltac:(lia)).
    pose proof (Z.mod_pos_bound (diff / 60000) 60 ltac:(lia)). lia. }
  assert (Hdays : 24 * (diff / 60000 / 60 / 24) <= diff / 60000 / 60
                  < 24 * (diff / 60000 / 60 / 24) + 24).
  { pose proof (Z.div_mod (diff / 60000 / 60) 24 ltac:(lia)).
    pose proof (Z.mod_pos_bound (diff / 60000 / 60) 24 ltac:(lia)). lia. }
  destruct (diff / 60000 <? 1) eqn:H1.
  { apply Z.ltb_lt in H1. left. split; [ lia | reflexivity ]. }
  apply Z.ltb_ge in H1. right.
  destruct (diff / 60000 <? 60) eqn:H60.
  { apply Z.ltb_lt in H60. left. exists (diff / 60000).
    split; [ lia | ]. split; [ lia | reflexivity ]. }
  apply Z.ltb_ge in H60. right.
  destruct (diff / 60000 / 60 <? 24) eqn:H24.
  { apply Z.ltb_lt in H24. left. exists (diff / 60000 / 60).
    split; [ lia | ]. split; [ lia | reflexivity ]. }
  apply Z.ltb_ge in H24. right. exists (diff / 60000 / 60 / 24).
  split; [ lia | ]. split; [ lia | reflexivity ].
Qed.

(** * The document hash *)

(** The hash without the wrap-around: the value of the code units as
    digits in base 31. *)
Definition base31 (hash : Z) (document : list Z) : Z :=
  fold_left (fun hash char => 31 * hash + char) document hash.

Lemma ToInt32_wraps z : exists k, Blockchain.ToInt32 z = z + k * 2 ^ 32.
Proof.
  unfold Blockchain.ToInt32. exists (- ((z + 2 ^ 31) / 2 ^ 32)).
  pose proof (Z.div_mod (z + 2 ^ 31) (2 ^ 32) ltac:(lia)). lia.
Qed.

Lemma ToInt32_period z k : Blockchain.ToInt32 (z + k * 2 ^ 32) = Blockchain.ToInt32 z.
Proof.
  unfold Blockchain.ToInt32.
  replace (z + k * 2 ^ 32 + 2 ^ 31) with (z + 2 ^ 31 + k * 2 ^ 32) by lia.
  now rewrite Z.mod_add by lia.
Qed.

Lemma hash_loop_base31 hash document :
  Blockchain.hash_loop (Blockchain.ToInt32 hash) document
  = Blockchain.ToInt32 (base31 hash document).
Proof.
  revert hash. induction document as [ | char rest IH ]; intros hash; [ reflexivity | ].
  change (base31 hash (char :: rest)) with (base31 (31 * hash + char) rest).
  change (Blockchain.hash_loop (Blockchain.ToInt32 hash) (char :: rest))
    with (Blockchain.hash_loop
            (Blockchain.ToInt32
               (Blockchain.ToInt32 (Blockchain.ToInt32 hash * 2 ^ 5)
                - Blockchain.ToInt32 hash + char)) rest).
  rewrite <- IH. f_equal.
  destruct (ToInt32_wraps hash) as [k1 H1].
  destruct (ToInt32_wraps (Blockchain.ToInt32 hash * 2 ^ 5)) as [k2 H2].
  rewrite H2, H1.
  replace ((hash + k1 * 2 ^ 32) * 2 ^ 5 + k2 * 2 ^ 32 - (hash + k1 * 2 ^ 32) + char)
    with (31 * hash + char + (31 * k1 + k2) * 2 ^ 32) by lia.
  apply ToInt32_period.
Qed.

Lemma base31_app hash prefix rest :
  base31 hash (prefix ++ rest) = base31 (base31 hash prefix) rest.
Proof. apply fold_left_app. Qed.

(** X26. The document hash collides on neighbouring characters: raising
    one code unit by 1 and lowering the next by 31 leaves [hashDocument]
    the same, anywhere in a document (as in "Aa" and "BB").  The hash is the
    base-31 value of the code units, wrapped to 32 bits. *)
Theorem document_hash_collides start a b rest :
  Blockchain.hash_loop 0 (start ++ a :: b :: rest)
  = Blockchain.ToInt32 (base31 0 (start ++ a :: b :: rest))
  /\ Blockchain.hashDocument (start ++ a :: b :: rest)
     = Blockchain.hashDocument (start ++ (a + 1) :: (b - 31) :: rest).
Proof.
  assert (Hzero : Blockchain.ToInt32 0 = 0) by reflexivity.
  split.
  - rewrite <- Hzero at 1. apply hash_loop_base31.
  - unfold Blockchain.hashDocument. do 2 f_equal.
    rewrite <- Hzero. rewrite !hash_loop_base31. f_equal.
    rewrite !base31_app.
    change (base31 ?h (?x :: ?y :: rest)) with (base31 (31 * (31 * h + x) + y) rest).
    f_equal. lia.
Qed.

(** * Permissions *)


(** * What no run of the application writes *)

Lemma panic_alert_keeps_database env w touristId alertType :
  database (exec (Emergency.triggerPanicAlert touristId alertType) env w) = database w.
Proof.
  unfold_panic_call. cbn.
  destruct (getCurrentPositionAsync env (position_requests w)); reflexivity.
Qed.

(** The tables the client reads but has no successful write path to. *)
Definition emergency_tables (w : World) :=
  (alerts (database w), alerts_seq (database w), communications (database w),
   geofences (database w), hazards (database w)).

Lemma handle_keeps_emergency_tables e env w :
  emergency_tables (exec (handle e) env w) = emergency_tables w.
Proof.
  symmetry. destruct e; simpl handle.
  - apply (keeps_handleRegister _ emergency_tables eq); try reflexivity; congruence.
  - apply (keeps_ignore _ emergency_tables eq (@eq_refl _) (@eq_trans _)).
    apply (keeps_startLocationTracking _ emergency_tables eq); try reflexivity; congruence.
  - apply (keeps_stopLocationTracking _ emergency_tables eq); try reflexivity; congruence.
  - apply (keeps_onPosition _ emergency_tables eq); try reflexivity; congruence.
  - apply (keeps_backgroundLocationTask _ emergency_tables eq); try reflexivity; congruence.
  - apply (keeps_watched_position _ emergency_tables eq); try reflexivity; congruence.
  - apply (keeps_ignore _ emergency_tables eq (@eq_refl _) (@eq_trans _)).
    apply (keeps_LocationTracking_getCurrentLocation _ emergency_tables eq);
      try reflexivity; congruence.
  - match goal with
    | |- context [Emergency.triggerPanicAlert ?id ?type] =>
        pose proof (panic_alert_keeps_database env w id type) as H;
        unfold emergency_tables, ignore, exec, bind in *;
        destruct (Emergency.triggerPanicAlert id type env w) as [[a | e] w']
    end; simpl in *; now rewrite H.
  - apply (keeps_ignore _ emergency_tables eq (@eq_refl _) (@eq_trans _)).
    unfold Notifications.createGeofenceAlert.
    apply (keeps_createSafetyAlert _ emergency_tables eq); try reflexivity; congruence.
  - apply (keeps_ignore _ emergency_tables eq (@eq_refl _) (@eq_trans _)).
    unfold Notifications.createHazardAlert.
    apply (keeps_createSafetyAlert _ emergency_tables eq); try reflexivity; congruence.
  - apply (keeps_ignore _ emergency_tables eq (@eq_refl _) (@eq_trans _)).
    unfold Notifications.createWeatherAlert.
    apply (keeps_createSafetyAlert _ emergency_tables eq); try reflexivity; congruence.
Qed.

(** X28. No run of the application writes an emergency alert.  Over every
    sequence of events (registrations, tracking, fixes on all three paths,
    panic alerts of every type, zone, hazard and weather alerts) and
    whatever the outside world answers, the [alerts] table and its sequence,
    the [communications] table, the geofences and the hazards are the same
    at the end as at the start. *)
Theorem no_run_stores_an_emergency_alert env events w :
  let w' := run_events env events w in
  alerts (database w') = alerts (database w)
  /\ alerts_seq (database w') = alerts_seq (database w)
  /\ communications (database w') = communications (database w)
  /\ geofences (database w') = geofences (database w)
  /\ hazards (database w') = hazards (database w).
Proof.
  cbv zeta.
  assert (Hkept : emergency_tables (run_events env events w) = emergency_tables w).
  { revert w. induction events as [ | e rest IH ]; intros w; [ reflexivity | ].
    simpl. rewrite IH. apply handle_keeps_emergency_tables. }
  unfold emergency_tables in Hkept. injection Hkept as H1 H2 H3 H4 H5.
  repeat split; assumption.
Qed.

(** * The emergency status *)

Lemma newest_is_first {A} (key : A -> number) (rows : list A) (a : A) rest :
  firstn 1 (order_desc key rows) = a :: rest ->
  In a rows /\ Forall (fun b => key b <= key a) rows.
Proof.
  intros Hfirst.
  pose proof (order_desc_sorted key rows) as Hsorted.
  assert (Hin : forall b, In b rows <-> In b (order_desc key rows))
    by (intros b; symmetry; apply order_desc_In).
  destruct (order_desc key rows) as [ | first others ]; [ discriminate | ].
  injection Hfirst as -> _.
  split; [ apply Hin; now left | ].
  apply Forall_forall. intros b Hb. apply Hin in Hb.
  inversion Hsorted as [ | first' others' _ Hall ]; subst.
  destruct Hb as [<- | Hb]; [ lia | ].
  rewrite Forall_forall in Hall. now apply Hall.
Qed.

(** The rows the query of [checkEmergencyStatus] selects: the active
    alerts of the tourist whose type is one of the four emergency types. *)
Definition is_active_emergency_of (touristId : string) (a : EmergencyAlert) : bool :=
  is_active_of touristId a && in_types emergency_types a.

(** X29. [checkEmergencyStatus] never throws.  An alert it returns is a
    stored, active alert of that tourist of one of the four emergency types
    (panic, medical, security, natural_disaster), and no such alert is more
    recent; alerts of other types in the table are passed over.  When it
    returns [null], the tourist has no active alert of these types or the
    backend refused the query: the caller cannot tell which. *)
Theorem emergency_status_is_newest_active env w created_at id :
  match outcome (EmergencyResponse.checkEmergencyStatus created_at id) env w with
  | Returned (Some a) =>
      In a (alerts (database w))
      /\ alert_tourist_id a = id
      /\ alert_status a = active
      /\ In (type_name (alert_type a)) ["panic"; "medical"; "security"; "natural_disaster"]
      /\ Forall (fun b => is_active_emergency_of id b = true ->
                          created_at b <= created_at a)
                (alerts (database w))
  | Returned None =>
      backend_error env (backend_requests w) <> None
      \/ Forall (fun b => is_active_emergency_of id b = false) (alerts (database w))
  | Thrown _ => False
  end.
Proof.
  unfold_response_calls. cbn.
  destruct (backend_error env (backend_requests w)) as [error | ]; cbn;
    [ left; discriminate | ].
  fold (is_active_emergency_of id).
  destruct (firstn 1 (order_desc created_at
                        (filter (is_active_emergency_of id) (alerts (database w)))))
    as [ | a rest ] eqn:Hfirst; cbn.
  - right. apply Forall_forall. intros b Hb.
    destruct (is_active_emergency_of id b) eqn:Hactive; [ exfalso | reflexivity ].
    assert (Hlisted : In b (order_desc created_at
                              (filter (is_active_emergency_of id) (alerts (database w)))))
      by (apply order_desc_In, filter_In; now split).
    destruct (order_desc created_at
                (filter (is_active_emergency_of id) (alerts (database w))));
      [ contradiction | discriminate ].
  - apply newest_is_first in Hfirst. destruct Hfirst as [Hin Hnewest].
    apply filter_In in Hin. destruct Hin as [Hin Hselected].
    split; [ exact Hin | ].
    unfold is_active_emergency_of, is_active_of in Hselected.
    apply andb_true_iff in Hselected. destruct Hselected as [Hactive Htype].
    apply andb_true_iff in Hactive. destruct Hactive as [Hid Hstatus].
    split; [ now apply String.eqb_eq | ].
    split; [ destruct (alert_status a); trivial; discriminate | ].
    split.
    + unfold in_types, emergency_types in Htype. apply existsb_exists in Htype.
      destruct Htype as [name [Hname Heq]]. apply String.eqb_eq in Heq.
      now rewrite Heq.
    + apply Forall_forall. intros b Hb Hb_selected.
      rewrite Forall_forall in Hnewest. apply Hnewest. apply filter_In. now split.
Qed.

(** An active "geofence" alert, more recent than the tourist's panic
    alert, is passed over. *)
Lemma other_alerts_are_passed_over :
  let zone_alert :=
    mkEmergencyAlert (Some 3) "tourist-0" (other_type "geofence") None None
                     "Geofence Entry" "You have entered Deepor Beel core" sev_high 2 active in
  let w := with_database (with_alerts (fun l => l ++ [zone_alert]) Z.succ) alert_world in
  let created_at a := match alert_id a with Some id => id | None => 0 end in
  map alert_id (filter (is_active_of "tourist-0") (alerts (database w)))
  = [Some 1; Some 2; Some 3]
  /\ option_map alert_id
       (match outcome (EmergencyResponse.checkEmergencyStatus created_at "tourist-0")
                      env_online w with
        | Returned found => found
        | Thrown _ => None
        end) = Some (Some 2).
Proof. vm_compute. split; reflexivity. Qed.

(** * Notifying the emergency contacts *)

(** X30. [notifyEmergencyContacts] never throws and only appends to
    [communications]: at most one row for each of the tourist's two
    contacts, each of type "sms" with status "sent", addressed to the phone
    number of one of the contacts and carrying the identifier of the alert
    it was given. *)
Theorem contacts_are_notified_by_sms env w tourist alert :
  let notify := Emergency.notifyEmergencyContacts tourist alert in
  let contacts :=
    match Supabase.emergency_contact_1 tourist with Some c => [c] | None => [] end
    ++ match Supabase.emergency_contact_2 tourist with Some c => [c] | None => [] end in
  outcome notify env w = Returned tt
  /\ exists rows,
       communications (database (exec notify env w)) = communications (database w) ++ rows
       /\ (List.length rows <= List.length contacts)%nat
       /\ Forall (fun row =>
                    Supabase.communication_type row = "sms"
                    /\ Supabase.comm_status row = "sent"
                    /\ Supabase.comm_tourist_id row = Supabase.tourist_id tourist
                    /\ Supabase.comm_alert_id row = alert_id alert
                    /\ In (Supabase.recipient_identifier row)
                          (map Supabase.contact_phone contacts))
                 rows.
Proof.
  unfold exec, outcome, Emergency.notifyEmergencyContacts, communications_insert, request,
    console_log, console_error, modify, gets, try_catch, bind, ret, throw.
  destruct (Supabase.emergency_contact_1 tourist) as [first | ];
    destruct (Supabase.emergency_contact_2 tourist) as [second | ];
    cbn; unfold bind, ret; cbn;
    repeat ask_env;
    (split; [ reflexivity | ]);
    first [ exists []; split; [ now rewrite app_nil_r | ]
          | eexists; split; [ rewrite <- ?app_assoc; reflexivity | ] ];
    (split; [ simpl; lia | ]);
    repeat (apply Forall_cons; [ repeat split; simpl; auto | ]); apply Forall_nil.
Qed.
